(** * Reminder orchestration of bank-minder: live activities with a
      notification fallback

    A shallow embedding of the three reminder files of the repository
    (the check-in reminder, the shift reminder service and the
    transaction live-activity helper) over an explicit model of their
    collaborators: the platform, the optional activity modules and the
    notification provider.  The native live-activity layer is a part of
    the repository that only logs, and is embedded as it is written.

    Every [await]ed collaborator call is an external call whose outcome
    the environment decides: it may throw any value, and when it returns
    the provider model below says what it does to the device state.  The
    code itself is written in a small monad with exceptions, state and a
    log of the external calls made. *)

From Stdlib Require Import String Ascii List ZArith NArith Lia Bool Arith.
From Stdlib Require Import DecimalString.
From Equations Require Import Equations.
Import ListNotations.

Local Open Scope string_scope.
Local Open Scope Z_scope.

(* ===================================================================== *)
(** ** JavaScript values the code handles *)
(* ===================================================================== *)

(** Modelled from the spec: the error classes [NotificationError] and
    [ActivityError] of [types/errors], a file the transaction helper
    imports and that is not among the sources.  The specification names
    them as the classes of notification and of activity failures; the
    code builds them as [new C(message, details)], and they are taken to
    extend [Error], so that [message] is what [error.message] reads.
    The other two constructors are a plain [Error] and a thrown value
    that is not an [Error], given by what [String(value)] prints. *)
Inductive Exn : Type :=
| JsError (message : string)
| NotificationError (message details : string)
| ActivityError (message details : string)
| Thrown (repr : string).

(** [error instanceof Error ? error.message : otherwise] *)
Definition message_or (otherwise : Exn -> string) (e : Exn) : string :=
  match e with
  | JsError m => m
  | NotificationError m _ => m
  | ActivityError m _ => m
  | Thrown _ => otherwise e
  end.

(** [String(error)] for a thrown value. *)
Definition String_of (e : Exn) : string :=
  match e with
  | JsError m => "Error: " ++ m
  | NotificationError m _ => "Error: " ++ m
  | ActivityError m _ => "Error: " ++ m
  | Thrown r => r
  end.

Inductive Result (A : Type) : Type :=
| Ok (a : A)
| Throw (e : Exn).
Arguments Ok {A} a.
Arguments Throw {A} e.

(** [Platform.OS] *)
Inductive OS : Type := ios | android | windows | macos | web.

Definition OS_eqb (a b : OS) : bool :=
  match a, b with
  | ios, ios | android, android | windows, windows
  | macos, macos | web, web => true
  | _, _ => false
  end.

(** The browser globals [isLiveActivitySupported] reads. *)
Inductive Runtime : Type :=
| NoWindow                      (* typeof window === 'undefined' *)
| NoNavigator                   (* window, but no navigator global *)
| Browser (userAgent : string). (* navigator.userAgent *)

(** What a dynamically imported activity module exports. *)
Record ActivityModule : Type := {
  exports_startActivity : bool;
  exports_updateActivity : bool;
  exports_endActivity : bool;
  exports_dismissActivity : bool
}.

(** A value of a notification's [data] object. *)
Inductive DataVal : Type :=
| DStr (s : string)
| DNum (n : Z)
| DUndefined.

Definition Data : Type := list (string * DataVal).

Fixpoint get_field (key : string) (d : Data) : option DataVal :=
  match d with
  | [] => None
  | (k, v) :: rest => if String.eqb k key then Some v else get_field key rest
  end.

Record Content : Type := {
  title : string;
  body : string;
  data : option Data;
  sound : option string;
  badge : Z;
  priority : option string
}.

(** An entry of the provider's notification lists; [trigger] is the delay
    in seconds, [None] for an immediate notification. *)
Record NotificationRequest : Type := {
  identifier : string;
  content : Content;
  trigger : option Z
}.

(** [new Date(t).toISOString()], kept as the instant it prints; the call
    throws a RangeError outside the range of valid dates. *)
Inductive IsoTime : Type := Iso (t : Z).

Definition toISOString (t : Z) : Result IsoTime :=
  if (-8640000000000000 <=? t) && (t <=? 8640000000000000)
  then Ok (Iso t)
  else Throw (JsError "Invalid time value").

(** [n.toString()] for an integral number below 1e21 in magnitude,
    which prints as its digits; a larger number prints in exponent form
    and no statement reads the text in that range. *)
Definition toString (n : Z) : string := NilZero.string_of_int (Z.to_int n).

(** What follows [pat] in [s], when [s] starts with [pat]. *)
Fixpoint strip_prefix (pat s : string) : option string :=
  match pat with
  | EmptyString => Some s
  | String a pat' =>
      match s with
      | EmptyString => None
      | String b s' => if Ascii.eqb a b then strip_prefix pat' s' else None
      end
  end.

(** [s.includes(pat)] *)
Fixpoint includes (pat s : string) : bool :=
  match strip_prefix pat s with
  | Some _ => true
  | None =>
      match s with
      | EmptyString => false
      | String _ rest => includes pat rest
      end
  end.

(** [a || b] on an optional string: the empty string is falsy too. *)
Definition or_else (a : option string) (b : string) : string :=
  match a with
  | Some s => if String.eqb s "" then b else s
  | None => b
  end.

(* ===================================================================== *)
(** ** External calls *)
(* ===================================================================== *)

Record ShiftContentState : Type := {
  cs_shiftId : string;
  cs_time : IsoTime;
  cs_employeeName : string;
  cs_location : string;
  cs_status : string
}.

Record ActivityRequest : Type := {
  ar_id : string;
  ar_name : string;
  ar_initialState : ShiftContentState;
  ar_contentState : ShiftContentState;
  ar_dismissal : Z * Z
}.

Record LiveActivityAttributes : Type := {
  accountName : string;
  bankName : string;
  transactionId : string
}.

Inductive TxStatus : Type := pending | processing | completed | failed.

Definition TxStatus_text (s : TxStatus) : string :=
  match s with
  | pending => "pending"
  | processing => "processing"
  | completed => "completed"
  | failed => "failed"
  end.

Record LiveActivityState : Type := {
  amount : Z;
  currency : string;
  status : TxStatus;
  timestamp : string;
  merchantName : option string;
  category : option string
}.

Record Channel : Type := {
  ch_vibrationPattern : list Z;
  ch_sound : option string;
  ch_enableVibrate : bool;
  ch_bypassDnd : bool
}.

Inductive Call : Type :=
| SetNotificationHandler (playSound setBadge : bool)
| SetNotificationChannel (name : string) (ch : Channel)
| ImportModule (module : string)
| StartActivity (req : ActivityRequest)
| UpdateActivity (id : string) (state contentState : ShiftContentState)
| DismissActivity (id : string)
| LiveStartActivity (title subtitle : string) (amount : Z)
                    (activityId appURL : string)
| LiveEndActivity (activityId : string)
| StartNative (attributes : LiveActivityAttributes) (state : LiveActivityState)
| UpdateNative (activityId : string) (state : LiveActivityState)
| EndNative (activityId : string) (finalState : option LiveActivityState)
| GetPermissions
| RequestPermissions
| ScheduleNotification (c : Content) (trigger : option Z)
| CancelScheduledNotification (id : string)
| GetAllScheduledNotifications
| DismissAllNotifications
| SetTimeout (ms : Z).

Inductive Value : Type :=
| VUnit
| VStr (s : string)
| VBool (b : bool)
| VModule (m : ActivityModule)
| VList (l : list NotificationRequest).

Inductive Outcome : Type :=
| Returned (v : Value)
| Threw (e : Exn).

Definition Event : Type := (Call * Outcome)%type.

(** What the environment answers to one external call: whether it throws,
    the identifier it hands out when the call creates something, the
    user's answer to a permission prompt, and the milliseconds it took. *)
Record Answer : Type := {
  fault : option Exn;
  reply : string;
  grant : bool;
  elapsed : N
}.

Record Env : Type := {
  platform : OS;
  runtime : Runtime;
  exports : string -> ActivityModule;
  oracle : nat -> Answer
}.

Inductive Level : Type := LLog | LWarn | LError.

Record State : Type := {
  tick : nat;                              (* external calls made so far *)
  clock : Z;                               (* Date.now() *)
  granted : bool;                          (* notification permission *)
  scheduled : list NotificationRequest;    (* pending notifications *)
  presented : list NotificationRequest;    (* notifications in the tray *)
  activities : list string;                (* live activities on screen *)
  LiveActivity : option ActivityModule;    (* the module-level [let] *)
  console : list (Level * string)
}.

Definition advance (n : N) (s : State) : State :=
  {| tick := S (tick s); clock := clock s + Z.of_N n; granted := granted s;
     scheduled := scheduled s; presented := presented s;
     activities := activities s; LiveActivity := LiveActivity s;
     console := console s |}.

Definition set_granted (b : bool) (s : State) : State :=
  {| tick := tick s; clock := clock s; granted := b;
     scheduled := scheduled s; presented := presented s;
     activities := activities s; LiveActivity := LiveActivity s;
     console := console s |}.

Definition set_scheduled (l : list NotificationRequest) (s : State) : State :=
  {| tick := tick s; clock := clock s; granted := granted s;
     scheduled := l; presented := presented s;
     activities := activities s; LiveActivity := LiveActivity s;
     console := console s |}.

Definition set_presented (l : list NotificationRequest) (s : State) : State :=
  {| tick := tick s; clock := clock s; granted := granted s;
     scheduled := scheduled s; presented := l;
     activities := activities s; LiveActivity := LiveActivity s;
     console := console s |}.

Definition set_activities (l : list string) (s : State) : State :=
  {| tick := tick s; clock := clock s; granted := granted s;
     scheduled := scheduled s; presented := presented s;
     activities := l; LiveActivity := LiveActivity s;
     console := console s |}.

Definition set_LiveActivity (m : option ActivityModule) (s : State) : State :=
  {| tick := tick s; clock := clock s; granted := granted s;
     scheduled := scheduled s; presented := presented s;
     activities := activities s; LiveActivity := m;
     console := console s |}.

Definition add_console (l : Level) (msg : string) (s : State) : State :=
  {| tick := tick s; clock := clock s; granted := granted s;
     scheduled := scheduled s; presented := presented s;
     activities := activities s; LiveActivity := LiveActivity s;
     console := console s ++ [(l, msg)] |}.

(* ===================================================================== *)
(** ** The monad: exceptions, state and the log of external calls *)
(* ===================================================================== *)

Record Run (A : Type) : Type := {
  result : Result A;
  final : State;
  events : list Event
}.
Arguments result {A} r.
Arguments final {A} r.
Arguments events {A} r.

Definition M (A : Type) : Type := Env -> State -> Run A.

Definition ret {A} (a : A) : M A :=
  fun _ s => {| result := Ok a; final := s; events := [] |}.

Definition throw {A} (e : Exn) : M A :=
  fun _ s => {| result := Throw e; final := s; events := [] |}.

Definition bind {A B} (m : M A) (k : A -> M B) : M B :=
  fun env s =>
    match m env s with
    | {| result := Ok a; final := s1; events := ev1 |} =>
        match k a env s1 with
        | {| result := r; final := s2; events := ev2 |} =>
            {| result := r; final := s2; events := ev1 ++ ev2 |}
        end
    | {| result := Throw e; final := s1; events := ev1 |} =>
        {| result := Throw e; final := s1; events := ev1 |}
    end.

(** [try { m } catch (e) { handler e }] *)
Definition try_catch {A} (m : M A) (handler : Exn -> M A) : M A :=
  fun env s =>
    match m env s with
    | {| result := Ok a; final := s1; events := ev1 |} =>
        {| result := Ok a; final := s1; events := ev1 |}
    | {| result := Throw e; final := s1; events := ev1 |} =>
        match handler e env s1 with
        | {| result := r; final := s2; events := ev2 |} =>
            {| result := r; final := s2; events := ev1 ++ ev2 |}
        end
    end.

Declare Scope js_scope.
Delimit Scope js_scope with js.
Notation "x <- m ;; k" := (bind m (fun x => k))
  (at level 61, m at next level, right associativity) : js_scope.
Notation "m ;; k" := (bind m (fun _ => k))
  (at level 61, right associativity) : js_scope.
Local Open Scope js_scope.

Definition lift {A} (r : Result A) : M A :=
  match r with
  | Ok a => ret a
  | Throw e => throw e
  end.

Definition ask : M Env :=
  fun env s => {| result := Ok env; final := s; events := [] |}.

Definition get : M State :=
  fun _ s => {| result := Ok s; final := s; events := [] |}.

Definition modify (f : State -> State) : M unit :=
  fun _ s => {| result := Ok tt; final := f s; events := [] |}.

(** [console.log], [console.warn], [console.error] *)
Definition console_ (l : Level) (msg : string) : M unit :=
  modify (add_console l msg).

(** [Date.now()] *)
Definition Date_now : M Z := s <- get ;; ret (clock s).

(** An external call: the environment's answer for this call decides
    whether it throws; when it returns, [effect] is what the provider does
    to the device state and what it hands back. *)
Definition external {A} (c : Call) (effect : Answer -> State -> A * State)
           (show : A -> Value) : M A :=
  fun env s =>
    match fault (oracle env (tick s)) with
    | Some e =>
        {| result := Throw e;
           final := advance (elapsed (oracle env (tick s))) s;
           events := [(c, Threw e)] |}
    | None =>
        match effect (oracle env (tick s))
                     (advance (elapsed (oracle env (tick s))) s) with
        | (v, s2) =>
            {| result := Ok v; final := s2; events := [(c, Returned (show v))] |}
        end
    end.

Definition no_effect (_ : Answer) (s : State) : unit * State := (tt, s).
Definition show_unit (_ : unit) : Value := VUnit.

(** [await new Promise(r => setTimeout(r, ms))]: the timer cannot fail and
    fires no earlier than [ms] milliseconds from now. *)
Definition setTimeout (ms : Z) : M unit :=
  fun env s =>
    {| result := Ok tt;
       final := advance (elapsed (oracle env (tick s)) + Z.to_N ms) s;
       events := [(SetTimeout ms, Returned VUnit)] |}.

(** A call of a function of the repository itself, entered in the log
    so that a statement can tell that the function was reached and what
    it returned.  Nothing is asked of the environment: such a call
    cannot throw. *)
Definition logged (c : Call) (v : Value) : M unit :=
  fun _ s => {| result := Ok tt; final := s; events := [(c, Returned v)] |}.

(** [Math.random().toString(36).substr(2, 9)]: the environment's
    choice. *)
Definition Math_random : M string :=
  fun env s =>
    {| result := Ok (reply (oracle env (tick s)));
       final := advance (elapsed (oracle env (tick s))) s;
       events := [] |}.

(* --------------------------------------------------------------------- *)
(** *** The notification provider (expo-notifications) *)

Module Notifications.

Definition setNotificationHandler (playSound setBadge : bool) : M unit :=
  external (SetNotificationHandler playSound setBadge) no_effect show_unit.

Definition setNotificationChannelAsync (name : string) (ch : Channel)
  : M unit :=
  external (SetNotificationChannel name ch) no_effect show_unit.

Definition getPermissionsAsync : M bool :=
  external GetPermissions (fun _ s => (granted s, s)) VBool.

(** The prompt is answered by the user; a permission already granted
    stays granted. *)
Definition requestPermissionsAsync : M bool :=
  external RequestPermissions
    (fun a s => let g := granted s || grant a in (g, set_granted g s))
    VBool.

(** The provider hands out the identifier.  A notification without a
    trigger is delivered at once, one with a trigger is pending. *)
Definition scheduleNotificationAsync (c : Content) (t : option Z)
  : M string :=
  external (ScheduleNotification c t)
    (fun a s =>
       let n := {| identifier := reply a; content := c; trigger := t |} in
       (reply a,
        match t with
        | None => set_presented (presented s ++ [n]) s
        | Some _ => set_scheduled (scheduled s ++ [n]) s
        end))
    VStr.

Definition cancelScheduledNotificationAsync (id : string) : M unit :=
  external (CancelScheduledNotification id)
    (fun _ s =>
       (tt, set_scheduled
              (filter (fun n => negb (String.eqb (identifier n) id))
                      (scheduled s)) s))
    show_unit.

Definition getAllScheduledNotificationsAsync
  : M (list NotificationRequest) :=
  external GetAllScheduledNotifications (fun _ s => (scheduled s, s)) VList.

(** Removes every notification of the application from the tray. *)
Definition dismissAllNotificationsAsync : M unit :=
  external DismissAllNotifications
    (fun _ s => (tt, set_presented [] s)) show_unit.

End Notifications.

(** [await import(name)] *)
Definition import (name : string) : M ActivityModule :=
  fun env s =>
    external (ImportModule name) (fun _ s => (exports env name, s)) VModule env s.

Definition remove_activity (id : string) (s : State) : State :=
  set_activities
    (filter (fun a => negb (String.eqb a id)) (activities s)) s.

(* ===================================================================== *)
(** ** The check-in reminder: [startShiftReminder(checkInId, shiftData)]
       and [endShiftReminder(checkInId, notificationId)] *)
(* ===================================================================== *)

Module CheckInReminder.

Record ShiftData : Type := {
  sd_title : option string;
  sd_subtitle : option string;
  sd_amount : option Z
}.

Inductive ReminderType : Type := live_activity | notification.

Record Reminder : Type := {
  type : ReminderType;
  id : string
}.

(** The activity module of this file, expo-live-activity. *)
Definition startActivity (title subtitle : string) (amount : Z)
           (activityId appURL : string) : M string :=
  external (LiveStartActivity title subtitle amount activityId appURL)
    (fun a s => (reply a, set_activities (activities s ++ [activityId]) s))
    VStr.

Definition endActivity (activityId : string) : M unit :=
  external (LiveEndActivity activityId)
    (fun _ s => (tt, remove_activity activityId s)) show_unit.

(** [LiveActivity = LiveActivity ?? (await import('expo-live-activity'))] *)
Definition load_LiveActivity : M ActivityModule :=
  s <- get ;;
  match LiveActivity s with
  | Some m => ret m
  | None =>
      m <- import "expo-live-activity" ;;
      modify (set_LiveActivity (Some m)) ;;
      ret m
  end.

Definition field {A} (shiftData : option ShiftData)
           (f : ShiftData -> option A) : option A :=
  match shiftData with
  | Some d => f d
  | None => None
  end.

(** [shiftData?.amount || 0] *)
Definition amount_or_0 (shiftData : option ShiftData) : Z :=
  match field shiftData sd_amount with
  | Some a => a
  | None => 0
  end.

Definition startShiftReminder (checkInId : string)
           (shiftData : option ShiftData) : M Reminder :=
  try_catch
    (env <- ask ;;
     started <-
       (if OS_eqb (platform env) ios then
          try_catch
            (m <- load_LiveActivity ;;
             if exports_startActivity m then
               _ <- startActivity
                      (or_else (field shiftData sd_title) "Shift Active")
                      (or_else (field shiftData sd_subtitle)
                               "Deposit the bank before leaving!")
                      (amount_or_0 shiftData)
                      checkInId
                      ("hotelbanktrackertracker://complete-deposit?checkInId="
                         ++ checkInId) ;;
               console_ LLog "Live Activity started:" ;;
               ret (Some {| type := live_activity; id := checkInId |})
             else ret None)
            (fun liveActivityError =>
               console_ LWarn
                 "Live Activity not available (running in Expo Go?), falling back to notifications:" ;;
               ret None)
        else ret None) ;;
     match started with
     | Some r => ret r
     | None =>
         notificationId <-
           Notifications.scheduleNotificationAsync
             {| title := or_else (field shiftData sd_title)
                                 "Shift Active: Deposit the bank!";
                body := or_else (field shiftData sd_subtitle)
                          "Tap to complete your deposit and mark the shift as finished.";
                data := Some [("checkInId", DStr checkInId);
                              ("type", DStr "shift_reminder")];
                sound := Some "default";
                badge := 1;
                priority := None |}
             None ;;
         console_ LLog "Persistent notification scheduled:" ;;
         ret {| type := notification; id := notificationId |}
     end)
    (fun error =>
       console_ LError "Failed to start shift reminder:" ;;
       throw (JsError "Could not start shift reminder")).

Definition endShiftReminder (checkInId : string)
           (notificationId : option string) : M unit :=
  try_catch
    (env <- ask ;;
     (if OS_eqb (platform env) ios then
        try_catch
          (m <- load_LiveActivity ;;
           if exports_endActivity m then
             endActivity checkInId ;;
             console_ LLog "Live Activity ended:"
           else ret tt)
          (fun error => console_ LWarn "Could not end Live Activity:")
      else ret tt) ;;
     Notifications.dismissAllNotificationsAsync ;;
     console_ LLog "Notifications dismissed")
    (fun error => console_ LError "Failed to end shift reminder:").

(** [requestNotificationPermissions()]: [status === 'granted'] is the
    [granted] flag of the provider's answer. *)
Definition requestNotificationPermissions : M bool :=
  try_catch
    (granted <- Notifications.requestPermissionsAsync ;;
     console_ LLog "Notification permission status:" ;;
     ret granted)
    (fun error =>
       console_ LError "Failed to request notification permissions:" ;;
       ret false).

End CheckInReminder.

(** [for (const x of l) { await body(x) }] *)
Fixpoint for_of {A} (l : list A) (body : A -> M unit) : M unit :=
  match l with
  | [] => ret tt
  | x :: rest => body x ;; for_of rest body
  end.

(** [l.filter(p)] for a callback that may throw. *)
Fixpoint filter_throwing {A} (p : A -> Result bool) (l : list A)
  : Result (list A) :=
  match l with
  | [] => Ok []
  | x :: rest =>
      match p x with
      | Throw e => Throw e
      | Ok b =>
          match filter_throwing p rest with
          | Throw e => Throw e
          | Ok kept => Ok (if b then x :: kept else kept)
          end
      end
  end.

(* ===================================================================== *)
(** ** The shift reminder service: [startShiftReminder(activityData)],
       [endShiftReminder], [cancelShiftReminder], [getActiveShiftReminders] *)
(* ===================================================================== *)

Module ShiftReminder.

(** Instants are integral numbers of milliseconds, as [Date.now()] and
    [getTime()] give them, and the arithmetic on them is exact.  A
    [number] that is not such an instant ([NaN], a fraction, a value
    past 2^53) is not among the inputs modelled. *)
Record ShiftActivityData : Type := {
  shiftId : string;
  startTime : Z;
  endTime : Z;
  employeeName : option string;
  location : option string
}.

Inductive Priority : Type := p_default | p_high | p_max.

(** An optional property of an object literal: the key may be
    missing, or there with the value [undefined], or there with a
    value. *)
Inductive Optional (A : Type) : Type :=
| absent
| undefined
| given (a : A).
Arguments absent {A}.
Arguments undefined {A}.
Arguments given {A} a.

Record NotificationConfig : Type := {
  cfg_sound : Optional bool;
  cfg_vibrate : Optional bool;
  cfg_badge : Optional bool;
  cfg_priority : Optional Priority
}.

Record ReminderResult : Type := {
  success : bool;
  activityId : option string;
  notificationId : option string;
  message : string
}.

Record CancelResult : Type := {
  c_success : bool;
  c_message : string
}.

Record ActiveReminders : Type := {
  notifications : list NotificationRequest;
  total : Z
}.

(** The activity module of this file, expo-activity. *)
Definition startActivity (req : ActivityRequest) : M string :=
  external (StartActivity req)
    (fun a s => (reply a, set_activities (activities s ++ [ar_id req]) s))
    VStr.

Definition updateActivity (id : string) (st cst : ShiftContentState)
  : M unit :=
  external (UpdateActivity id st cst) no_effect show_unit.

Definition dismissActivity (id : string) : M unit :=
  external (DismissActivity id)
    (fun _ s => (tt, remove_activity id s)) show_unit.

Definition getActivityModule : M (option ActivityModule) :=
  try_catch
    (env <- ask ;;
     if OS_eqb (platform env) ios then
       activityModule <- import "expo-activity" ;;
       ret (Some activityModule)
     else ret None)
    (fun error =>
       console_ LWarn "Live Activity module not available:" ;;
       ret None).

(** A property of [{ sound: true, vibrate: true, badge: true,
    priority: 'high', ...config }]: a key of [config] overrides the
    default also when its value is [undefined]; [None] is
    [undefined]. *)
Definition merged {A} (config : option NotificationConfig)
           (f : NotificationConfig -> Optional A) (dflt : A) : option A :=
  match config with
  | Some c =>
      match f c with
      | absent => Some dflt
      | undefined => None
      | given v => Some v
      end
  | None => Some dflt
  end.

(** [v ?? true] and [v ? ... : ...] for a boolean that may be
    [undefined]. *)
Definition or_true (v : option bool) : bool :=
  match v with Some b => b | None => true end.

Definition truthy (v : option bool) : bool :=
  match v with Some b => b | None => false end.

Definition is_max (p : option Priority) : bool :=
  match p with Some p_max => true | _ => false end.

Definition configureNotifications (config : option NotificationConfig)
  : M unit :=
  try_catch
    (let d_sound := merged config cfg_sound true in
     let d_vibrate := merged config cfg_vibrate true in
     let d_badge := merged config cfg_badge true in
     let d_priority := merged config cfg_priority p_high in
     Notifications.setNotificationHandler (or_true d_sound)
                                          (or_true d_badge) ;;
     env <- ask ;;
     (if OS_eqb (platform env) android then
        Notifications.setNotificationChannelAsync "shift-reminders"
          {| ch_vibrationPattern :=
               if truthy d_vibrate then [0; 250; 250; 250] else [0];
             ch_sound := if truthy d_sound then Some "default" else None;
             ch_enableVibrate := or_true d_vibrate;
             ch_bypassDnd := is_max d_priority |} ;;
        Notifications.setNotificationChannelAsync "shift-alerts"
          {| ch_vibrationPattern := [0; 500; 250; 500];
             ch_sound := if truthy d_sound then Some "default" else None;
             ch_enableVibrate := or_true d_vibrate;
             ch_bypassDnd := is_max d_priority |}
      else ret tt) ;;
     console_ LLog "Notifications configured successfully")
    (fun error =>
       console_ LError "Failed to configure notifications:" ;;
       throw error).

Definition has (m : option ActivityModule) (f : ActivityModule -> bool)
  : bool :=
  match m with
  | Some m => f m
  | None => false
  end.

(** The state object both activity calls are given. *)
Definition content_state (activityData : ShiftActivityData) (t : Z)
           (st : string) : M ShiftContentState :=
  iso <- lift (toISOString t) ;;
  ret {| cs_shiftId := shiftId activityData;
         cs_time := iso;
         cs_employeeName := or_else (employeeName activityData) "Shift";
         cs_location := or_else (location activityData) "Not specified";
         cs_status := st |}.

Definition failure (what : string) (e : Exn) : ReminderResult :=
  {| success := false; activityId := None; notificationId := None;
     message := what ++ message_or (fun _ => "Unknown error") e |}.

Definition startShiftReminder (activityData : ShiftActivityData)
  : M ReminderResult :=
  try_catch
    (configureNotifications None ;;
     env <- ask ;;
     started <-
       (if OS_eqb (platform env) ios then
          try_catch
            (activityModule <- getActivityModule ;;
             if has activityModule exports_startActivity then
               initialState <-
                 content_state activityData (startTime activityData)
                               "upcoming" ;;
               contentState <-
                 content_state activityData (startTime activityData)
                               "upcoming" ;;
               activityId <-
                 startActivity
                   {| ar_id := "shift-start-" ++ shiftId activityData;
                      ar_name := "ShiftReminderActivity";
                      ar_initialState := initialState;
                      ar_contentState := contentState;
                      ar_dismissal := (5 * 60, 60) |} ;;
               console_ LLog "Live Activity started:" ;;
               ret (Some {| success := true;
                            activityId := Some activityId;
                            notificationId := None;
                            message :=
                              "Shift reminder started via Live Activity" |})
             else ret None)
            (fun liveActivityError =>
               console_ LWarn
                 "Live Activity not available, falling back to notifications:" ;;
               ret None)
        else ret None) ;;
     match started with
     | Some r => ret r
     | None =>
         now <- Date_now ;;
         notificationId <-
           Notifications.scheduleNotificationAsync
             {| title := "Shift Starting Soon";
                body := "Your shift at "
                          ++ or_else (location activityData) "your workplace"
                          ++ " starts in 15 minutes";
                data := Some [("shiftId", DStr (shiftId activityData));
                              ("type", DStr "shift-reminder");
                              ("startTime",
                               DStr (toString (startTime activityData)))];
                sound := Some "default";
                badge := 1;
                priority := None |}
             (Some (Z.max 1 ((startTime activityData - now) / 1000 - 900))) ;;
         console_ LLog "Shift reminder notification scheduled:" ;;
         ret {| success := true;
                activityId := None;
                notificationId := Some notificationId;
                message := "Shift reminder scheduled via notification" |}
     end)
    (fun error =>
       console_ LError "Failed to start shift reminder:" ;;
       ret (failure "Failed to start shift reminder: " error)).

Definition endShiftReminder (activityData : ShiftActivityData)
  : M ReminderResult :=
  try_catch
    (configureNotifications None ;;
     env <- ask ;;
     started <-
       (if OS_eqb (platform env) ios then
          try_catch
            (activityModule <- getActivityModule ;;
             if has activityModule exports_startActivity
                || has activityModule exports_updateActivity then
               let activityId := "shift-end-" ++ shiftId activityData in
               if has activityModule exports_updateActivity then
                 st <- content_state activityData (endTime activityData)
                                     "ending-soon" ;;
                 cst <- content_state activityData (endTime activityData)
                                      "ending-soon" ;;
                 updateActivity activityId st cst ;;
                 console_ LLog "Live Activity updated:" ;;
                 ret (Some {| success := true;
                              activityId := Some activityId;
                              notificationId := None;
                              message :=
                                "Shift reminder updated via Live Activity" |})
               else if has activityModule exports_startActivity then
                 initialState <-
                   content_state activityData (endTime activityData)
                                 "ending-soon" ;;
                 contentState <-
                   content_state activityData (endTime activityData)
                                 "ending-soon" ;;
                 newActivityId <-
                   startActivity
                     {| ar_id := activityId;
                        ar_name := "ShiftEndReminderActivity";
                        ar_initialState := initialState;
                        ar_contentState := contentState;
                        ar_dismissal := (3 * 60, 30) |} ;;
                 console_ LLog "Live Activity created:" ;;
                 ret (Some {| success := true;
                              activityId := Some newActivityId;
                              notificationId := None;
                              message :=
                                "End shift reminder started via Live Activity" |})
               else ret None
             else ret None)
            (fun liveActivityError =>
               console_ LWarn
                 "Live Activity update failed, falling back to notifications:" ;;
               ret None)
        else ret None) ;;
     match started with
     | Some r => ret r
     | None =>
         now <- Date_now ;;
         let timeUntilEnd := endTime activityData - now in
         let triggerSeconds := Z.max 1 (timeUntilEnd / 1000 - 900) in
         notificationId <-
           Notifications.scheduleNotificationAsync
             {| title := "Shift Ending Soon";
                body := "Your shift at "
                          ++ or_else (location activityData) "your workplace"
                          ++ " will end in 15 minutes";
                data := Some [("shiftId", DStr (shiftId activityData));
                              ("type", DStr "shift-end-reminder");
                              ("endTime",
                               DStr (toString (endTime activityData)))];
                sound := Some "default";
                badge := 1;
                priority := None |}
             (Some triggerSeconds) ;;
         console_ LLog "End shift reminder notification scheduled:" ;;
         ret {| success := true;
                activityId := None;
                notificationId := Some notificationId;
                message := "End shift reminder scheduled via notification" |}
     end)
    (fun error =>
       console_ LError "Failed to end shift reminder:" ;;
       ret (failure "Failed to end shift reminder: " error)).

Inductive Kind : Type := k_start | k_end.

Definition Kind_text (k : Kind) : string :=
  match k with k_start => "start" | k_end => "end" end.

(** [notif.content.data?.shiftId === shiftId] *)
Definition carries_shiftId (shiftId : string) (notif : NotificationRequest)
  : bool :=
  match data (content notif) with
  | None => false
  | Some d =>
      match get_field "shiftId" d with
      | Some (DStr s) => String.eqb s shiftId
      | _ => false
      end
  end.

Definition cancelShiftReminder (shiftId : string) (type : Kind)
  : M CancelResult :=
  try_catch
    (env <- ask ;;
     dismissed <-
       (if OS_eqb (platform env) ios then
          try_catch
            (activityModule <- getActivityModule ;;
             if has activityModule exports_dismissActivity then
               let activityId :=
                 "shift-" ++ Kind_text type ++ "-" ++ shiftId in
               dismissActivity activityId ;;
               console_ LLog "Live Activity dismissed:" ;;
               ret (Some {| c_success := true;
                            c_message :=
                              "Shift reminder cancelled via Live Activity" |})
             else ret None)
            (fun error =>
               console_ LWarn "Failed to dismiss Live Activity:" ;;
               ret None)
        else ret None) ;;
     match dismissed with
     | Some r => ret r
     | None =>
         allNotifications <-
           Notifications.getAllScheduledNotificationsAsync ;;
         let relevantNotifications :=
           filter (carries_shiftId shiftId) allNotifications in
         for_of relevantNotifications
           (fun notif =>
              Notifications.cancelScheduledNotificationAsync
                (identifier notif)) ;;
         console_ LLog "Cancelled notifications for shift" ;;
         ret {| c_success := true;
                c_message :=
                  "Shift reminder cancelled ("
                    ++ toString (Z.of_nat (length relevantNotifications))
                    ++ " notifications removed)" |}
     end)
    (fun error =>
       console_ LError "Failed to cancel shift reminder:" ;;
       ret {| c_success := false;
              c_message :=
                "Failed to cancel shift reminder: "
                  ++ message_or (fun _ => "Unknown error") error |}).

(** [notif.content.data?.type?.includes('shift')]: a [type] that is
    neither missing nor a string has no [includes] to call. *)
Definition type_includes_shift (notif : NotificationRequest) : Result bool :=
  match data (content notif) with
  | None => Ok false
  | Some d =>
      match get_field "type" d with
      | None | Some DUndefined => Ok false
      | Some (DStr s) => Ok (includes "shift" s)
      | Some (DNum _) =>
          Throw (JsError "notif.content.data?.type?.includes is not a function")
      end
  end.

Definition getActiveShiftReminders : M ActiveReminders :=
  try_catch
    (notifications <- Notifications.getAllScheduledNotificationsAsync ;;
     shiftNotifications <-
       lift (filter_throwing type_includes_shift notifications) ;;
     console_ LLog "Retrieved active shift reminders" ;;
     ret {| notifications := shiftNotifications;
            total := Z.of_nat (length shiftNotifications) |})
    (fun error =>
       console_ LError "Failed to get active shift reminders:" ;;
       ret {| notifications := []; total := 0 |}).

Record SupportStatus : Type := {
  liveActivitySupported : bool;
  notificationsSupported : bool;
  s_message : string
}.

Definition supported_text (b : bool) : string :=
  if b then "Supported" else "Not Supported".

Definition initializeLiveActivitySupport : M SupportStatus :=
  try_catch
    (env <- ask ;;
     liveActivitySupported <-
       (if OS_eqb (platform env) ios then
          try_catch
            (activityModule <- getActivityModule ;;
             ret (has activityModule exports_startActivity))
            (fun _ => ret false)
        else ret false) ;;
     notificationsSupported <-
       try_catch
         (permissionStatus <- Notifications.getPermissionsAsync ;;
          ret true)
         (fun _ => ret false) ;;
     (if notificationsSupported then configureNotifications None
      else ret tt) ;;
     let message :=
       "Live Activity: " ++ supported_text liveActivitySupported
         ++ " | Notifications: " ++ supported_text notificationsSupported in
     console_ LLog message ;;
     ret {| liveActivitySupported := liveActivitySupported;
            notificationsSupported := notificationsSupported;
            s_message := message |})
    (fun error =>
       console_ LError "Failed to initialize Live Activity support:" ;;
       ret {| liveActivitySupported := false;
              notificationsSupported := false;
              s_message :=
                "Initialization error: "
                  ++ message_or (fun _ => "Unknown error") error |}).

End ShiftReminder.

(* ===================================================================== *)
(** ** The two regular expressions of the capability probe *)
(* ===================================================================== *)

(** [\d] *)
Definition is_digit (c : ascii) : bool :=
  ((48 <=? nat_of_ascii c) && (nat_of_ascii c <=? 57))%nat.

(** The longest run of digits at the head of [s], and what follows it:
    what a greedy [\d+] takes when the pattern after it starts with a
    character that is not a digit. *)
Fixpoint span_digits (s : string) : string * string :=
  match s with
  | EmptyString => (EmptyString, EmptyString)
  | String c rest =>
      if is_digit c then
        let '(ds, tl) := span_digits rest in (String c ds, tl)
      else (EmptyString, s)
  end.

Definition is_empty (s : string) : bool :=
  match s with EmptyString => true | _ => false end.

(** [/OS (\d+)_(\d+)/] anchored at the head of [s]: the two groups. *)
Definition match_OS_here (s : string) : option (string * string) :=
  match strip_prefix "OS " s with
  | None => None
  | Some r =>
      let '(major, r1) := span_digits r in
      if is_empty major then None
      else match strip_prefix "_" r1 with
           | None => None
           | Some r2 =>
               let '(minor, _) := span_digits r2 in
               if is_empty minor then None else Some (major, minor)
           end
  end.

(** [s.match(/OS (\d+)_(\d+)/)]: the leftmost match. *)
Fixpoint match_OS (s : string) : option (string * string) :=
  match match_OS_here s with
  | Some groups => Some groups
  | None =>
      match s with
      | EmptyString => None
      | String _ rest => match_OS rest
      end
  end.

(** [/iPad|iPhone|iPod/.test(s)] *)
Definition test_iDevice (s : string) : bool :=
  includes "iPad" s || includes "iPhone" s || includes "iPod" s.

Definition digit_value (c : ascii) : Z := Z.of_nat (nat_of_ascii c) - 48.

Fixpoint parseInt_from (acc : Z) (s : string) : Z :=
  match s with
  | EmptyString => acc
  | String c rest => parseInt_from (10 * acc + digit_value c) rest
  end.

(** [parseInt(s, 10)] on a string of digits. *)
Definition parseInt (s : string) : Z := parseInt_from 0 s.

(* ===================================================================== *)
(** ** The transaction helper: [isLiveActivitySupported],
       [startLiveActivity], [updateLiveActivity], [endLiveActivity],
       [sendTransactionNotification] *)
(* ===================================================================== *)

Module TransactionActivity.

Record NotificationPayload : Type := {
  p_title : string;
  p_body : string;
  p_data : option Data;
  p_sound : option bool
}.

Inductive HandleType : Type := liveActivity | notification.

Record Handle : Type := {
  id : string;
  type : HandleType
}.

(** The body of the probe's [try] block, on the globals it reads. *)
Definition probe (rt : Runtime) : Result bool :=
  match rt with
  | NoWindow => Ok false
  | NoNavigator => Throw (JsError "navigator is not defined")
  | Browser userAgent =>
      let isIOS := test_iDevice userAgent in
      if negb isIOS then Ok false
      else
        match match_OS userAgent with
        | None => Ok false
        | Some (major, minor) =>
            let majorVersion := parseInt major in
            let minorVersion := parseInt minor in
            Ok ((16 <? majorVersion)
                || ((majorVersion =? 16) && (1 <=? minorVersion)))
        end
  end.

Definition isLiveActivitySupported : M bool :=
  try_catch
    (env <- ask ;; lift (probe (runtime env)))
    (fun error =>
       console_ LWarn "Error checking Live Activity support:" ;;
       ret false).

(** The native layer, as the repository has it: three functions that
    stand in for the native module and only log.  The start makes up an
    identifier from the time and a random suffix; none of them shows
    anything on the device and none can throw. *)
Definition startNativeLiveActivity (attributes : LiveActivityAttributes)
           (state : LiveActivityState) : M string :=
  now <- Date_now ;;
  suffix <- Math_random ;;
  let activityId := "activity_" ++ toString now ++ "_" ++ suffix in
  console_ LLog "Starting Live Activity:" ;;
  logged (StartNative attributes state) (VStr activityId) ;;
  ret activityId.

Definition updateNativeLiveActivity (activityId : string)
           (state : LiveActivityState) : M unit :=
  console_ LLog "Updating Live Activity:" ;;
  logged (UpdateNative activityId state) VUnit.

Definition endNativeLiveActivity (activityId : string)
           (finalState : option LiveActivityState) : M unit :=
  console_ LLog "Ending Live Activity:" ;;
  logged (EndNative activityId finalState) VUnit.

(** The [try] block of [sendTransactionNotification]. *)
Definition send_once (payload : NotificationPayload) : M string :=
  granted <- Notifications.getPermissionsAsync ;;
  (if negb granted then
     requestGranted <- Notifications.requestPermissionsAsync ;;
     if negb requestGranted then
       throw (NotificationError "Notification permissions not granted"
                                "User denied notification permissions")
     else ret tt
   else ret tt) ;;
  notificationId <-
    Notifications.scheduleNotificationAsync
      {| title := p_title payload;
         body := p_body payload;
         sound := match p_sound payload with
                  | Some false => None
                  | _ => Some "default"
                  end;
         data := Some match p_data payload with
                      | Some d => d
                      | None => []
                      end;
         badge := 1;
         priority := Some "high" |}
      None ;;
  ret notificationId.

(** The [else] part of the [catch] block. *)
Definition wrap_and_throw (error : Exn) : M string :=
  let notificationError :=
    NotificationError "Failed to send notification"
                      (message_or String_of error) in
  console_ LError "Error in sendTransactionNotification:" ;;
  throw notificationError.

(** The function calls itself only from the [catch] block of a call
    with [retry] set, and then with [retry] cleared. *)
Equations sendTransactionNotification (payload : NotificationPayload)
          (retry : bool) : M string by wf (Nat.b2n retry) lt :=
sendTransactionNotification payload true :=
  try_catch (send_once payload)
    (fun error =>
       console_ LWarn "Notification send failed, retrying in 1 second:" ;;
       setTimeout 1000 ;;
       try_catch
         (notificationId <- sendTransactionNotification payload false ;;
          ret notificationId)
         (fun retryError => throw retryError));
sendTransactionNotification payload false :=
  try_catch (send_once payload) wrap_and_throw.

Definition status_word (s : TxStatus) : string :=
  match s with
  | pending => "Processing"
  | _ => TxStatus_text s
  end.

Definition optional (o : option string) : DataVal :=
  match o with
  | Some s => DStr s
  | None => DUndefined
  end.

Definition startLiveActivity (attributes : LiveActivityAttributes)
           (state : LiveActivityState) : M Handle :=
  try_catch
    (supported <- isLiveActivitySupported ;;
     started <-
       (if supported then
          try_catch
            (activityId <- startNativeLiveActivity attributes state ;;
             ret (Some {| id := activityId; type := liveActivity |}))
            (fun error =>
               console_ LWarn
                 "Failed to start Live Activity, falling back to notification:" ;;
               ret None)
        else ret None) ;;
     match started with
     | Some r => ret r
     | None =>
         notificationId <-
           sendTransactionNotification
             {| p_title := bankName attributes ++ " - Transaction";
                p_body := status_word (status state)
                            ++ " transaction of " ++ currency state
                            ++ " " ++ toString (amount state)
                            ++ " from " ++ accountName attributes;
                p_data :=
                  Some [("accountName", DStr (accountName attributes));
                        ("bankName", DStr (bankName attributes));
                        ("transactionId", DStr (transactionId attributes));
                        ("amount", DNum (amount state));
                        ("currency", DStr (currency state));
                        ("status", DStr (TxStatus_text (status state)));
                        ("merchantName", optional (merchantName state));
                        ("category", optional (category state))];
                p_sound := None |}
             true ;;
         ret {| id := notificationId; type := notification |}
     end)
    (fun error =>
       let activityError :=
         ActivityError "Failed to start Live Activity or send notification"
                       (message_or String_of error) in
       console_ LError "Error in startLiveActivity:" ;;
       throw activityError).

Definition updateLiveActivity (activityId : string)
           (state : LiveActivityState) : M unit :=
  try_catch
    (supported <- isLiveActivitySupported ;;
     if negb supported then
       console_ LWarn "Live Activities not supported, skipping update"
     else updateNativeLiveActivity activityId state)
    (fun error => console_ LError "Error updating Live Activity:").

Definition endLiveActivity (activityId : string)
           (finalState : option LiveActivityState) : M unit :=
  try_catch
    (supported <- isLiveActivitySupported ;;
     if negb supported then
       console_ LWarn "Live Activities not supported, skipping end"
     else endNativeLiveActivity activityId finalState)
    (fun error => console_ LError "Error ending Live Activity:").

(** [Promise.all] over the mapped updates, none of which rejects.  The
    updates are started in the order of the array and each makes at most
    one native call; the model takes them one after the other, which
    gives the native calls in the order they are issued. *)
Definition batchUpdateLiveActivities
           (updates : list (string * LiveActivityState)) : M unit :=
  try_catch
    (for_of updates
       (fun u =>
          let '(activityId, state) := u in
          try_catch (updateLiveActivity activityId state)
            (fun error => console_ LWarn "Failed to update activity")))
    (fun error => console_ LError "Error in batchUpdateLiveActivities:").

End TransactionActivity.

(* ===================================================================== *)
(** ** The check-in history: [saveCheckIn], [getHistory],
       [markCheckInComplete], [getActiveShift], [setActiveShift],
       [clearHistory] *)
(* ===================================================================== *)

Module History.

(** Amounts are stored and copied, never computed with. *)
Record CheckInHistory : Type := {
  id : string;
  date : string;
  time : string;
  completed : bool;
  receiptUri : option string;
  amount : option Z;
  notes : option string
}.

(** What a stored text can encode: an array of entries, one entry,
    [null], or some other value. *)
Inductive Json : Type :=
| JList (l : list CheckInHistory)
| JObject (e : CheckInHistory)
| JNull
| JOther (raw : string).

(** A text of the storage.  The text [JSON.stringify] writes is kept as
    the value it encodes; [Blank] is the empty string. *)
Inductive Text : Type :=
| Encoded (j : Json)
| Blank
| Unparseable (raw : string).

Definition JSON_stringify (j : Json) : Text := Encoded j.

Definition JSON_parse (t : Text) : Result Json :=
  match t with
  | Encoded j => Ok j
  | Blank => Throw (JsError "Unexpected end of JSON input")
  | Unparseable _ => Throw (JsError "Unexpected token in JSON")
  end.

Definition HISTORY_KEY : string := "shift_checkins".
Definition ACTIVE_SHIFT_KEY : string := "active_shift".

(** The device storage: its cells, the number of calls made to it, and
    the console. *)
Record Storage : Type := {
  cells : string -> option Text;
  calls : nat;
  printed : list (Level * string)
}.

(** Which storage calls throw, by their number. *)
Definition Faults : Type := nat -> option Exn.

Definition H (A : Type) : Type := Faults -> Storage -> Result A * Storage.

Definition ret {A} (a : A) : H A := fun _ st => (Ok a, st).

Definition throw {A} (e : Exn) : H A := fun _ st => (Throw e, st).

Definition bind {A B} (m : H A) (k : A -> H B) : H B :=
  fun f st =>
    match m f st with
    | (Ok a, st1) => k a f st1
    | (Throw e, st1) => (Throw e, st1)
    end.

Definition try_catch {A} (m : H A) (handler : Exn -> H A) : H A :=
  fun f st =>
    match m f st with
    | (Ok a, st1) => (Ok a, st1)
    | (Throw e, st1) => handler e f st1
    end.

Definition lift {A} (r : Result A) : H A :=
  match r with
  | Ok a => ret a
  | Throw e => throw e
  end.

Definition console_ (l : Level) (msg : string) : H unit :=
  fun _ st =>
    (Ok tt, {| cells := cells st; calls := calls st;
               printed := printed st ++ [(l, msg)] |}).

Definition called (st : Storage) : Storage :=
  {| cells := cells st; calls := S (calls st); printed := printed st |}.

Definition write (key : string) (v : option Text) (st : Storage) : Storage :=
  {| cells := fun k => if String.eqb k key then v else cells st k;
     calls := calls st; printed := printed st |}.

(** A call to the storage: it throws when the environment says so and
    then changes nothing. *)
Definition storage_call {A} (op : Storage -> A * Storage) : H A :=
  fun f st =>
    match f (calls st) with
    | Some e => (Throw e, called st)
    | None => let '(a, st') := op (called st) in (Ok a, st')
    end.

Module AsyncStorage.

Definition getItem (key : string) : H (option Text) :=
  storage_call (fun st => (cells st key, st)).

Definition setItem (key : string) (t : Text) : H unit :=
  storage_call (fun st => (tt, write key (Some t) st)).

Definition removeItem (key : string) : H unit :=
  storage_call (fun st => (tt, write key None st)).

End AsyncStorage.

Declare Scope history_scope.
Delimit Scope history_scope with history.
Notation "x <- m ;; k" := (bind m (fun x => k))
  (at level 61, m at next level, right associativity) : history_scope.
Notation "m ;; k" := (bind m (fun _ => k))
  (at level 61, right associativity) : history_scope.
Local Open Scope history_scope.

(** [str ? JSON.parse(str) : otherwise] *)
Definition parse_or (str : option Text) (otherwise : Json) : H Json :=
  match str with
  | None | Some Blank => ret otherwise
  | Some t => lift (JSON_parse t)
  end.

(** The type says an array comes back; what comes back is what the text
    encodes. *)
Definition getHistory : H Json :=
  try_catch
    (str <- AsyncStorage.getItem HISTORY_KEY ;;
     parse_or str (JList []))
    (fun error =>
       console_ LError "Failed to retrieve history:" ;;
       ret (JList [])).

(** [list.unshift(entry)] *)
Definition unshift (entry : CheckInHistory) (list : Json) : Result Json :=
  match list with
  | JList l => Ok (JList (entry :: l))
  | JNull =>
      Throw (JsError "Cannot read properties of null (reading 'unshift')")
  | _ => Throw (JsError "list.unshift is not a function")
  end.

Definition saveCheckIn (entry : CheckInHistory) : H unit :=
  try_catch
    (list <- getHistory ;;
     list <- lift (unshift entry list) ;;
     AsyncStorage.setItem HISTORY_KEY (JSON_stringify list) ;;
     console_ LLog "Check-in saved:")
    (fun error =>
       console_ LError "Failed to save check-in:" ;;
       throw error).

(** [l.findIndex(p)] *)
Fixpoint findIndex {A} (p : A -> bool) (l : list A) : Z :=
  match l with
  | [] => -1
  | x :: rest =>
      if p x then 0
      else let i := findIndex p rest in if i <? 0 then -1 else i + 1
  end.

(** The assignments to [list[idx]]. *)
Definition complete (receipt : string) (amount' : option Z)
           (notes' : option string) (e : CheckInHistory) : CheckInHistory :=
  {| id := id e; date := date e; time := time e;
     completed := true;
     receiptUri := Some receipt;
     amount := match amount' with Some a => Some a | None => amount e end;
     notes := match notes' with Some n => Some n | None => notes e end |}.

Fixpoint assign_at {A} (idx : nat) (f : A -> A) (l : list A) : list A :=
  match l, idx with
  | [], _ => []
  | x :: rest, O => f x :: rest
  | x :: rest, S i => x :: assign_at i f rest
  end.

Definition markCheckInComplete (id0 : string) (receipt : string)
           (amount' : option Z) (notes' : option string) : H unit :=
  try_catch
    (list <- getHistory ;;
     match list with
     | JList l =>
         let idx := findIndex (fun e => String.eqb (id e) id0) l in
         if 0 <=? idx then
           let l' := assign_at (Z.to_nat idx)
                               (complete receipt amount' notes') l in
           AsyncStorage.setItem HISTORY_KEY (JSON_stringify (JList l')) ;;
           console_ LLog "Check-in marked complete:"
         else ret tt
     | JNull =>
         throw (JsError
                  "Cannot read properties of null (reading 'findIndex')")
     | _ => throw (JsError "list.findIndex is not a function")
     end)
    (fun error =>
       console_ LError "Failed to mark check-in complete:" ;;
       throw error).

Definition getActiveShift : H (option Json) :=
  try_catch
    (str <- AsyncStorage.getItem ACTIVE_SHIFT_KEY ;;
     match str with
     | None | Some Blank => ret None
     | Some t =>
         j <- lift (JSON_parse t) ;;
         match j with
         | JNull => ret None
         | _ => ret (Some j)
         end
     end)
    (fun error =>
       console_ LError "Failed to retrieve active shift:" ;;
       ret None).

Definition setActiveShift (shift : option CheckInHistory) : H unit :=
  try_catch
    (match shift with
     | None => AsyncStorage.removeItem ACTIVE_SHIFT_KEY
     | Some e =>
         AsyncStorage.setItem ACTIVE_SHIFT_KEY (JSON_stringify (JObject e))
     end ;;
     console_ LLog "Active shift updated:")
    (fun error =>
       console_ LError "Failed to set active shift:" ;;
       throw error).

Definition clearHistory : H unit :=
  try_catch
    (AsyncStorage.removeItem HISTORY_KEY ;;
     console_ LLog "History cleared")
    (fun error =>
       console_ LError "Failed to clear history:" ;;
       throw error).

End History.

(* ===================================================================== *)
(** ** Permissions of the native application: [requestAllPermissions],
       [requestAndroidPermissions], [requestIOSPermissions] *)
(* ===================================================================== *)

Module Permissions.

(** [PERMISSIONS.ANDROID.*] and [PERMISSIONS.IOS.*], as far as used. *)
Inductive Permission : Type :=
| ANDROID_CAMERA
| ANDROID_POST_NOTIFICATIONS
| IOS_CAMERA
| IOS_NOTIFICATIONS.

(** [RESULTS.*] *)
Inductive RESULT : Type := UNAVAILABLE | BLOCKED | DENIED | GRANTED | LIMITED.

Definition is_GRANTED (r : RESULT) : bool :=
  match r with GRANTED => true | _ => false end.

(** What [request(permission)] resolves to, or what it throws.  Each
    permission is requested at most once in a call. *)
Definition Requests : Type := Permission -> Result RESULT.

(** A run: the value returned, the permissions requested, in order, and
    the errors written to the console. *)
Record Run (A : Type) : Type := {
  value : Result A;
  requested : list Permission;
  errors : list string
}.
Arguments value {A} r.
Arguments requested {A} r.
Arguments errors {A} r.

Definition P (A : Type) : Type := Requests -> Run A.

Definition ret {A} (a : A) : P A :=
  fun _ => {| value := Ok a; requested := []; errors := [] |}.

Definition bind {A B} (m : P A) (k : A -> P B) : P B :=
  fun rq =>
    match m rq with
    | {| value := Ok a; requested := r1; errors := e1 |} =>
        match k a rq with
        | {| value := v; requested := r2; errors := e2 |} =>
            {| value := v; requested := r1 ++ r2; errors := e1 ++ e2 |}
        end
    | {| value := Throw e; requested := r1; errors := e1 |} =>
        {| value := Throw e; requested := r1; errors := e1 |}
    end.

Definition try_catch {A} (m : P A) (handler : Exn -> P A) : P A :=
  fun rq =>
    match m rq with
    | {| value := Ok a; requested := r1; errors := e1 |} =>
        {| value := Ok a; requested := r1; errors := e1 |}
    | {| value := Throw e; requested := r1; errors := e1 |} =>
        match handler e rq with
        | {| value := v; requested := r2; errors := e2 |} =>
            {| value := v; requested := r1 ++ r2; errors := e1 ++ e2 |}
        end
    end.

Definition console_error (msg : string) : P unit :=
  fun _ => {| value := Ok tt; requested := []; errors := [msg] |}.

Definition request (p : Permission) : P RESULT :=
  fun rq => {| value := rq p; requested := [p]; errors := [] |}.

Declare Scope permissions_scope.
Notation "x <- m ;; k" := (bind m (fun x => k))
  (at level 61, m at next level, right associativity) : permissions_scope.
Notation "m ;; k" := (bind m (fun _ => k))
  (at level 61, right associativity) : permissions_scope.
Local Open Scope permissions_scope.

Definition requestAndroidPermissions : P bool :=
  try_catch
    (cameraResult <- request ANDROID_CAMERA ;;
     notificationResult <- request ANDROID_POST_NOTIFICATIONS ;;
     let cameraGranted := is_GRANTED cameraResult in
     let notificationGranted := is_GRANTED notificationResult in
     ret (cameraGranted && notificationGranted))
    (fun error =>
       console_error "Error requesting Android permissions:" ;;
       ret false).

Definition requestIOSPermissions : P bool :=
  try_catch
    (cameraResult <- request IOS_CAMERA ;;
     notificationResult <- request IOS_NOTIFICATIONS ;;
     let cameraGranted := is_GRANTED cameraResult in
     let notificationGranted := is_GRANTED notificationResult in
     ret (cameraGranted && notificationGranted))
    (fun error =>
       console_error "Error requesting iOS permissions:" ;;
       ret false).

Definition requestAllPermissions (os : OS) : P bool :=
  try_catch
    (if OS_eqb os android then requestAndroidPermissions
     else if OS_eqb os ios then requestIOSPermissions
     else ret true)
    (fun error =>
       console_error "Error requesting permissions:" ;;
       ret false).

End Permissions.

(* ===================================================================== *)
(** ** Permissions in the browser: [requestNotificationPermission],
       [isNotificationPermissionGranted] *)
(* ===================================================================== *)

Module WebPermissions.

(** [Notification.permission] *)
Inductive NotificationPermission : Type := p_default | p_granted | p_denied.

(** The browser window: whether it has the [Notification] interface and
    what its [permission] is, and what a prompt would resolve to, or
    throw. *)
Record Window : Type := {
  Notification : option NotificationPermission;
  prompt : Result NotificationPermission
}.

(** A run: the value returned, the window afterwards and the number of
    prompts shown. *)
Record Asked : Type := {
  value : NotificationPermission;
  window : Window;
  prompts : nat
}.

(** [Notification.requestPermission()]: the permission becomes what the
    user answers. *)
Definition requestPermission (w : Window)
  : Result NotificationPermission * Window :=
  match prompt w with
  | Ok p => (Ok p, {| Notification := Some p; prompt := prompt w |})
  | Throw e => (Throw e, w)
  end.

Definition requestNotificationPermission (w : Window) : Asked :=
  match Notification w with
  | None => {| value := p_denied; window := w; prompts := 0 |}
  | Some p_granted => {| value := p_granted; window := w; prompts := 0 |}
  | Some p_default =>
      match requestPermission w with
      | (Ok permission, w') =>
          {| value := permission; window := w'; prompts := 1 |}
      | (Throw error, w') =>
          {| value := p_denied; window := w'; prompts := 1 |}
      end
  | Some p_denied => {| value := p_denied; window := w; prompts := 0 |}
  end.

Definition isNotificationPermissionGranted (w : Window) : bool :=
  match Notification w with
  | None => false
  | Some p_granted => true
  | Some _ => false
  end.

End WebPermissions.


(* ===================================================================== *)
(** ** Vocabulary of the statements *)
(* ===================================================================== *)

(* --------------------------------------------------------------------- *)
(** *** The log of external calls *)

Definition threw (ev : Event) : bool :=
  match snd ev with
  | Threw _ => true
  | Returned _ => false
  end.

Definition is_activity_start (c : Call) : bool :=
  match c with
  | ImportModule _ | StartActivity _ | LiveStartActivity _ _ _ _ _
  | StartNative _ _ => true
  | _ => false
  end.

(** The activity path threw: the import of the module or the start call. *)
Definition activity_start_threw (evs : list Event) : bool :=
  existsb (fun ev => is_activity_start (fst ev) && threw ev) evs.

Definition is_schedule (ev : Event) : bool :=
  match fst ev with
  | ScheduleNotification _ _ => true
  | _ => false
  end.

(** The provider's schedule call returned the identifier [nid]. *)
Definition schedule_returned (evs : list Event) (nid : string) : bool :=
  existsb (fun ev => match ev with
                     | (ScheduleNotification _ _, Returned (VStr i)) =>
                         String.eqb i nid
                     | _ => false
                     end) evs.

(** Some schedule call returned. *)
Definition schedule_succeeded (evs : list Event) : bool :=
  existsb (fun ev => is_schedule ev && negb (threw ev)) evs.

(** The delays the schedule calls were given, in call order. *)
Definition triggers (evs : list Event) : list (option Z) :=
  flat_map (fun ev => match fst ev with
                      | ScheduleNotification _ t => [t]
                      | _ => []
                      end) evs.

(** The identifiers whose cancellation the provider carried out. *)
Definition cancelled (evs : list Event) : list string :=
  flat_map (fun ev => match ev with
                      | (CancelScheduledNotification id, Returned _) => [id]
                      | _ => []
                      end) evs.

Definition is_list_or_cancel (c : Call) : bool :=
  match c with
  | GetAllScheduledNotifications | CancelScheduledNotification _ => true
  | _ => false
  end.

(** The provider threw while listing or cancelling pending
    notifications. *)
Definition listing_or_cancel_threw (evs : list Event) : bool :=
  existsb (fun ev => is_list_or_cancel (fst ev) && threw ev) evs.

(** The activity module carried out a dismissal. *)
Definition dismissed (evs : list Event) : bool :=
  existsb (fun ev => match ev with
                     | (DismissActivity _, Returned _) => true
                     | _ => false
                     end) evs.

(* --------------------------------------------------------------------- *)
(** *** Runs and device states *)

(** A computation that returns on every device in every state. *)
Definition never_throws {A} (m : M A) : Prop :=
  forall env s, exists a, result (m env s) = Ok a.

(** The device holds the same reminders in [s'] as in [s]: pending and
    delivered notifications and live activities. *)
Definition same_resources (s s' : State) : Prop :=
  scheduled s' = scheduled s /\ presented s' = presented s
  /\ activities s' = activities s.

Definition complaint (entry : Level * string) : bool :=
  match fst entry with
  | LLog => false
  | LWarn | LError => true
  end.

(** Between [s] and [s'] a warning or an error was written to the
    console. *)
Definition logged_complaint (s s' : State) : Prop :=
  exists more,
    console s' = (console s ++ more)%list /\ existsb complaint more = true.

(** If an external call of the run threw, the run wrote a warning or an
    error to the console. *)
Definition failures_logged {A} (m : M A) (env : Env) (s : State) : Prop :=
  existsb threw (events (m env s)) = true ->
  logged_complaint s (final (m env s)).

(** The pending notifications other than those called [ids]. *)
Definition without (ids : list string) (l : list NotificationRequest)
  : list NotificationRequest :=
  filter (fun n => negb (existsb (String.eqb (identifier n)) ids)) l.

(** The body of the cancel loop of [cancelShiftReminder]. *)
Definition cancel_one (notif : NotificationRequest) : M unit :=
  Notifications.cancelScheduledNotificationAsync (identifier notif).

(* --------------------------------------------------------------------- *)
(** *** The three ways to start a reminder *)

Inductive Starter : Type :=
| shift_service (activityData : ShiftReminder.ShiftActivityData)
| transaction_helper (attributes : LiveActivityAttributes)
                     (state : LiveActivityState)
| check_in (checkInId : string) (shiftData : option CheckInReminder.ShiftData).

(** The external calls a starter makes. *)
Definition start_events (st : Starter) (env : Env) (s : State) : list Event :=
  match st with
  | shift_service d => events (ShiftReminder.startShiftReminder d env s)
  | transaction_helper a x =>
      events (TransactionActivity.startLiveActivity a x env s)
  | check_in c d => events (CheckInReminder.startShiftReminder c d env s)
  end.

(** The device state it ends in. *)
Definition start_final (st : Starter) (env : Env) (s : State) : State :=
  match st with
  | shift_service d => final (ShiftReminder.startShiftReminder d env s)
  | transaction_helper a x =>
      final (TransactionActivity.startLiveActivity a x env s)
  | check_in c d => final (CheckInReminder.startShiftReminder c d env s)
  end.

(** The starter returned a success whose resource is the notification
    [nid]. *)
Definition started_notification (st : Starter) (env : Env) (s : State)
           (nid : string) : Prop :=
  match st with
  | shift_service d =>
      result (ShiftReminder.startShiftReminder d env s)
      = Ok {| ShiftReminder.success := true;
              ShiftReminder.activityId := None;
              ShiftReminder.notificationId := Some nid;
              ShiftReminder.message :=
                "Shift reminder scheduled via notification" |}
  | transaction_helper a x =>
      result (TransactionActivity.startLiveActivity a x env s)
      = Ok {| TransactionActivity.id := nid;
              TransactionActivity.type := TransactionActivity.notification |}
  | check_in c d =>
      result (CheckInReminder.startShiftReminder c d env s)
      = Ok {| CheckInReminder.type := CheckInReminder.notification;
              CheckInReminder.id := nid |}
  end.

(** How each starter reports that it could not start anything: the shift
    service returns a result that says so, the other two throw. *)
Definition start_failed (st : Starter) (env : Env) (s : State) : Prop :=
  match st with
  | shift_service d =>
      exists msg,
        result (ShiftReminder.startShiftReminder d env s)
        = Ok {| ShiftReminder.success := false;
                ShiftReminder.activityId := None;
                ShiftReminder.notificationId := None;
                ShiftReminder.message := msg |}
  | transaction_helper a x =>
      exists details,
        result (TransactionActivity.startLiveActivity a x env s)
        = Throw (ActivityError
                   "Failed to start Live Activity or send notification"
                   details)
  | check_in c d =>
      result (CheckInReminder.startShiftReminder c d env s)
      = Throw (JsError "Could not start shift reminder")
  end.

(** The two reminders of the shift service that are scheduled ahead of
    an instant: the start and the end of the shift. *)
Inductive Occasion : Type := shift_start | shift_end.

Definition due (k : Occasion) (d : ShiftReminder.ShiftActivityData) : Z :=
  match k with
  | shift_start => ShiftReminder.startTime d
  | shift_end => ShiftReminder.endTime d
  end.

Definition remind (k : Occasion) (d : ShiftReminder.ShiftActivityData)
  : M ShiftReminder.ReminderResult :=
  match k with
  | shift_start => ShiftReminder.startShiftReminder d
  | shift_end => ShiftReminder.endShiftReminder d
  end.

(* --------------------------------------------------------------------- *)
(** *** The capability probe, in the words of the specification *)

Fixpoint all_digits (s : string) : bool :=
  match s with
  | EmptyString => true
  | String c rest => is_digit c && all_digits rest
  end.

Definition digit_free_head (s : string) : bool :=
  match s with
  | EmptyString => true
  | String c _ => negb (is_digit c)
  end.

(** The number a string of decimal digits denotes. *)
Fixpoint number_of (s : string) : Z :=
  match s with
  | EmptyString => 0
  | String c rest =>
      digit_value c * 10 ^ Z.of_nat (String.length rest) + number_of rest
  end.

(** [s] starts with "OS ", a number, an underscore and a number; [major]
    and [minor] are the two numerals in full. *)
Definition OS_version_at_head (s major minor : string) : Prop :=
  exists rest,
    s = "OS " ++ major ++ "_" ++ minor ++ rest
    /\ all_digits major = true /\ major <> ""
    /\ all_digits minor = true /\ minor <> ""
    /\ digit_free_head rest = true.

(** The first place of [ua] where such a version stands. *)
Definition first_OS_version (ua major minor : string) : Prop :=
  exists before tail,
    ua = before ++ tail
    /\ OS_version_at_head tail major minor
    /\ forall b1 b2, before = b1 ++ b2 -> b2 <> "" ->
                     forall M m, ~ OS_version_at_head (b2 ++ tail) M m.

(** [ua] names an iPad, an iPhone or an iPod. *)
Definition names_iDevice (ua : string) : Prop :=
  exists device before after,
    In device ["iPad"; "iPhone"; "iPod"] /\ ua = before ++ device ++ after.

(** Version [v] is [major.minor] or later. *)
Definition version_at_least (major minor : Z) (v : Z * Z) : Prop :=
  major < fst v \/ (major = fst v /\ minor <= snd v).

(** The user agent identifies an iOS device whose parsed OS version is
    16.1 or later. *)
Definition ios_16_1_or_later (rt : Runtime) : Prop :=
  exists ua major minor,
    rt = Browser ua /\ names_iDevice ua
    /\ first_OS_version ua major minor
    /\ version_at_least 16 1 (number_of major, number_of minor).

(** The value [isLiveActivitySupported] returns, as a function of the
    globals it reads. *)
Definition supports (rt : Runtime) : bool :=
  match TransactionActivity.probe rt with
  | Ok b => b
  | Throw _ => false
  end.

(* --------------------------------------------------------------------- *)
(** *** Concrete devices and requests *)

Definition quiet : Answer :=
  {| fault := None; reply := "n-1"; grant := true; elapsed := 5 |}.

Definition instant : Answer :=
  {| fault := None; reply := "n-1"; grant := true; elapsed := 0 |}.

Definition failing (why : string) : Answer :=
  {| fault := Some (JsError why); reply := ""; grant := false; elapsed := 5 |}.

(** The environment that answers the first calls as listed and is quiet
    afterwards. *)
Definition scripted (answers : list Answer) : nat -> Answer :=
  fun n => nth n answers quiet.

Definition full_module : ActivityModule :=
  {| exports_startActivity := true; exports_updateActivity := true;
     exports_endActivity := true; exports_dismissActivity := true |}.

Definition iphone_ua : string :=
  "Mozilla/5.0 (iPhone; CPU iPhone OS 16_4 like Mac OS X) AppleWebKit/605.1.15".

Definition device (os : OS) (answers : list Answer) : Env :=
  {| platform := os; runtime := Browser iphone_ua;
     exports := fun _ => full_module; oracle := scripted answers |}.

Definition boot : State :=
  {| tick := 0; clock := 1700000000000; granted := true;
     scheduled := []; presented := []; activities := [];
     LiveActivity := None; console := [] |}.

(** A shift that starts twenty minutes after [boot]. *)
Definition shift42 : ShiftReminder.ShiftActivityData :=
  {| ShiftReminder.shiftId := "shift-42";
     ShiftReminder.startTime := 1700000000000 + 1200000;
     ShiftReminder.endTime := 1700000000000 + 30000000;
     ShiftReminder.employeeName := Some "Dana";
     ShiftReminder.location := None |}.

(** A shift that started five seconds before [boot]. *)
Definition past_shift : ShiftReminder.ShiftActivityData :=
  {| ShiftReminder.shiftId := "shift-7";
     ShiftReminder.startTime := 1700000000000 - 5000;
     ShiftReminder.endTime := 1700000000000 - 1000;
     ShiftReminder.employeeName := None;
     ShiftReminder.location := Some "Front desk" |}.

Definition alert : TransactionActivity.NotificationPayload :=
  {| TransactionActivity.p_title := "Deposit";
     TransactionActivity.p_body := "Deposit the bank";
     TransactionActivity.p_data := None;
     TransactionActivity.p_sound := None |}.

Definition salary : LiveActivityAttributes :=
  {| accountName := "Main"; bankName := "Hotel Bank"; transactionId := "tx-9" |}.

Definition incoming : LiveActivityState :=
  {| amount := 250; currency := "EUR"; status := pending;
     timestamp := "2023-11-14T22:13:20.000Z";
     merchantName := None; category := Some "deposit" |}.

(** A reminder whose payload names [shift] under [key]. *)
Definition reminder_of (key shift : string) (nid : string)
  : NotificationRequest :=
  {| identifier := nid;
     content := {| title := "Shift Starting Soon"; body := "";
                   data := Some [(key, DStr shift);
                                 ("type", DStr "shift-reminder")];
                   sound := Some "default"; badge := 1; priority := None |};
     trigger := Some 300 |}.

(** A device on which two shifts have a pending reminder each. *)
Definition two_pending : State :=
  {| tick := 0; clock := 1700000000000; granted := true;
     scheduled := [reminder_of "shiftId" "shift-42" "n-1";
                   reminder_of "shiftId" "shift-43" "n-2"];
     presented := []; activities := [];
     LiveActivity := None; console := [] |}.

(** A device whose tray shows the reminders of two check-ins. *)
Definition two_in_tray : State :=
  {| tick := 0; clock := 1700000000000; granted := true;
     scheduled := [];
     presented := [reminder_of "checkInId" "shift-a" "n-1";
                   reminder_of "checkInId" "shift-b" "n-2"];
     activities := [];
     LiveActivity := None; console := [] |}.


(* --------------------------------------------------------------------- *)
(** *** Further vocabulary: the activity module, prompts, channels *)

(** A call to one of the two activity modules, their import included. *)
Definition is_activity_call (c : Call) : bool :=
  match c with
  | ImportModule _ | StartActivity _ | UpdateActivity _ _ _
  | DismissActivity _ | LiveStartActivity _ _ _ _ _ | LiveEndActivity _ =>
      true
  | _ => false
  end.

Definition activity_called (evs : list Event) : bool :=
  existsb (fun ev => is_activity_call (fst ev)) evs.

(** A start call of the activity layer returned the identifier [aid]. *)
Definition start_returned (evs : list Event) (aid : string) : bool :=
  existsb (fun ev => match ev with
                     | (c, Returned (VStr i)) =>
                         match c with
                         | StartActivity _ | LiveStartActivity _ _ _ _ _
                         | StartNative _ _ => String.eqb i aid
                         | _ => false
                         end
                     | _ => false
                     end) evs.

(** The starter returned a success whose resource is a live activity;
    [aid] is what the activity layer returned.  The check-in reminder
    reports the check-in identifier instead. *)
Definition started_activity (st : Starter) (env : Env) (s : State)
           (aid : string) : Prop :=
  match st with
  | shift_service d =>
      result (ShiftReminder.startShiftReminder d env s)
      = Ok {| ShiftReminder.success := true;
              ShiftReminder.activityId := Some aid;
              ShiftReminder.notificationId := None;
              ShiftReminder.message :=
                "Shift reminder started via Live Activity" |}
  | transaction_helper a x =>
      result (TransactionActivity.startLiveActivity a x env s)
      = Ok {| TransactionActivity.id := aid;
              TransactionActivity.type := TransactionActivity.liveActivity |}
  | check_in c d =>
      result (CheckInReminder.startShiftReminder c d env s)
      = Ok {| CheckInReminder.type := CheckInReminder.live_activity;
              CheckInReminder.id := c |}
  end.

(** The starts handed to the [startActivity] of the shift service's
    module. *)
Definition is_module_start (ev : Event) : bool :=
  match fst ev with
  | StartActivity _ => true
  | _ => false
  end.

(** The names of the notification channels set up, in call order. *)
Definition channels (evs : list Event) : list string :=
  flat_map (fun ev => match fst ev with
                      | SetNotificationChannel name _ => [name]
                      | _ => []
                      end) evs.

(** The imports of an activity module that returned. *)
Definition imports_returned (evs : list Event) : list string :=
  flat_map (fun ev => match ev with
                      | (ImportModule name, Returned _) => [name]
                      | _ => []
                      end) evs.

(** The answers the permission prompts got. *)
Definition prompt_answers (evs : list Event) : list Outcome :=
  flat_map (fun ev => match fst ev with
                      | RequestPermissions => [snd ev]
                      | _ => []
                      end) evs.

(** The updates handed to the native layer, in call order. *)
Definition native_updates (evs : list Event)
  : list (string * LiveActivityState) :=
  flat_map (fun ev => match fst ev with
                      | UpdateNative activityId state => [(activityId, state)]
                      | _ => []
                      end) evs.

Definition is_native_call (c : Call) : bool :=
  match c with
  | StartNative _ _ | UpdateNative _ _ | EndNative _ _ => true
  | _ => false
  end.

Definition native_called (evs : list Event) : bool :=
  existsb (fun ev => is_native_call (fst ev)) evs.

(** A call of the notification provider's configuration threw. *)
Definition configuration_threw (evs : list Event) : bool :=
  existsb (fun ev => match fst ev with
                     | SetNotificationHandler _ _
                     | SetNotificationChannel _ _ => threw ev
                     | _ => false
                     end) evs.

(** [notif.content.data?.type?.includes('shift')], where it does not
    throw. *)
Definition shift_typed (notif : NotificationRequest) : bool :=
  match ShiftReminder.type_includes_shift notif with
  | Ok b => b
  | Throw _ => false
  end.

(** A shift whose start is beyond the range of [Date]. *)
Definition undated_shift : ShiftReminder.ShiftActivityData :=
  {| ShiftReminder.shiftId := "shift-9";
     ShiftReminder.startTime := 9000000000000000;
     ShiftReminder.endTime := 9000000000000000;
     ShiftReminder.employeeName := None;
     ShiftReminder.location := None |}.

(** A pending notification whose payload has a number for [type]. *)
Definition odd_reminder : NotificationRequest :=
  {| identifier := "n-3";
     content := {| title := "Odd"; body := "";
                   data := Some [("type", DNum 7)];
                   sound := None; badge := 1; priority := None |};
     trigger := Some 60 |}.

Definition with_pending (l : list NotificationRequest) : State :=
  {| tick := 0; clock := 1700000000000; granted := true;
     scheduled := l; presented := []; activities := [];
     LiveActivity := None; console := [] |}.

Definition not_granted : State :=
  {| tick := 0; clock := 1700000000000; granted := false;
     scheduled := []; presented := []; activities := [];
     LiveActivity := None; console := [] |}.

Definition refusing : Answer :=
  {| fault := None; reply := ""; grant := false; elapsed := 5 |}.


(** The words the shift service puts before the error's message. *)
Definition occasion_prefix (k : Occasion) : string :=
  match k with
  | shift_start => "Failed to start shift reminder: "
  | shift_end => "Failed to end shift reminder: "
  end.

(** How many resources a result names: an activity, a notification. *)
Definition resources_named (r : ShiftReminder.ReminderResult) : nat :=
  match ShiftReminder.activityId r, ShiftReminder.notificationId r with
  | Some _, Some _ => 2
  | Some _, None | None, Some _ => 1
  | None, None => 0
  end.

(** A call that shows something on the lock screen through the shift
    service's module. *)
Definition is_module_display (ev : Event) : bool :=
  match fst ev with
  | StartActivity _ | UpdateActivity _ _ _ => true
  | _ => false
  end.

(** A device whose first provider call throws. *)
Definition broken_provider (os : OS) : Env := device os [failing "no provider"].

(** The calls of a check-in's life, and the events of a sequence of
    them; a call that throws does not stop the next one. *)
Inductive CheckInCall : Type :=
| starting (checkInId : string) (shiftData : option CheckInReminder.ShiftData)
| ending (checkInId : string) (notificationId : option string).

Definition call_events (c : CheckInCall) (env : Env) (s : State)
  : list Event :=
  match c with
  | starting i d => events (CheckInReminder.startShiftReminder i d env s)
  | ending i n => events (CheckInReminder.endShiftReminder i n env s)
  end.

Definition call_final (c : CheckInCall) (env : Env) (s : State) : State :=
  match c with
  | starting i d => final (CheckInReminder.startShiftReminder i d env s)
  | ending i n => final (CheckInReminder.endShiftReminder i n env s)
  end.

Fixpoint session (calls : list CheckInCall) (env : Env) (s : State)
  : list Event :=
  match calls with
  | [] => []
  | c :: calls =>
      (call_events c env s ++ session calls env (call_final c env s))%list
  end.

(** The error a send ends with when the user declines the prompt on
    both attempts. *)
Definition denial : Exn :=
  NotificationError "Failed to send notification"
                    "Notification permissions not granted".

(** A pending notification whose [type] the filter of the active
    reminders can read. *)
Definition well_typed (n : NotificationRequest) : bool :=
  match ShiftReminder.type_includes_shift n with
  | Ok _ => true
  | Throw _ => false
  end.

(** A runtime without a [window]. *)
Definition headless (answers : list Answer) : Env :=
  {| platform := web; runtime := NoWindow;
     exports := fun _ => full_module; oracle := scripted answers |}.

Definition two_updates : list (string * LiveActivityState) :=
  [("activity_1", incoming); ("activity_2", incoming)].

(** The body of the batch's [map]: one update, its failure logged. *)
Definition update_one (u : string * LiveActivityState) : M unit :=
  let '(activityId, state) := u in
  try_catch (TransactionActivity.updateLiveActivity activityId state)
    (fun error => console_ LWarn "Failed to update activity").

(* --------------------------------------------------------------------- *)
(** *** Further vocabulary: the history storage *)

(** The stored history and the stored active shift. *)
Definition stored_history (st : History.Storage) : option History.Text :=
  History.cells st History.HISTORY_KEY.

Definition stored_shift (st : History.Storage) : option History.Text :=
  History.cells st History.ACTIVE_SHIFT_KEY.

(** The history cannot be read: the read throws, or the text is not
    JSON. *)
Definition unreadable (f : History.Faults) (st : History.Storage) : bool :=
  match f (History.calls st), stored_history st with
  | Some _, _ => true
  | None, Some (History.Unparseable _) => true
  | None, _ => false
  end.

(** The list with [g] applied to its first element that satisfies [p]. *)
Fixpoint mark_first {A} (p : A -> bool) (g : A -> A) (l : list A) : list A :=
  match l with
  | [] => []
  | x :: rest => if p x then g x :: rest else x :: mark_first p g rest
  end.

Definition has_id (i : string) (e : History.CheckInHistory) : bool :=
  String.eqb (History.id e) i.

(** A storage that never throws. *)
Definition reliable : History.Faults := fun _ => None.

Definition holding (history : option History.Text) : History.Storage :=
  {| History.cells :=
       fun k => if String.eqb k History.HISTORY_KEY then history else None;
     History.calls := 0; History.printed := [] |}.

Definition visit (i : string) : History.CheckInHistory :=
  {| History.id := i; History.date := "2023-11-14";
     History.time := "22:13"; History.completed := false;
     History.receiptUri := None; History.amount := Some 250;
     History.notes := None |}.

(* --------------------------------------------------------------------- *)
(** *** Further vocabulary: the permission requests *)

(** The permissions a platform is asked for, in order. *)
Definition needed (os : OS) : list Permissions.Permission :=
  match os with
  | android =>
      [Permissions.ANDROID_CAMERA; Permissions.ANDROID_POST_NOTIFICATIONS]
  | ios => [Permissions.IOS_CAMERA; Permissions.IOS_NOTIFICATIONS]
  | _ => []
  end.

Definition answered_GRANTED (rq : Permissions.Requests)
           (p : Permissions.Permission) : bool :=
  match rq p with
  | Ok r => Permissions.is_GRANTED r
  | Throw _ => false
  end.

Definition request_threw (rq : Permissions.Requests)
           (p : Permissions.Permission) : bool :=
  match rq p with
  | Ok _ => false
  | Throw _ => true
  end.

(** A user who grants the camera and declines the notifications. *)
Definition camera_only : Permissions.Requests :=
  fun p => match p with
           | Permissions.ANDROID_CAMERA | Permissions.IOS_CAMERA =>
               Ok Permissions.GRANTED
           | _ => Ok Permissions.DENIED
           end.

(* --------------------------------------------------------------------- *)
(** *** Further vocabulary: what a run reached *)

(** A call that puts an activity on the screen, or refreshes it,
    returned. *)
Definition activity_shown (evs : list Event) : bool :=
  existsb (fun ev => match ev with
                     | (c, Returned _) =>
                         match c with
                         | StartActivity _ | UpdateActivity _ _ _
                         | LiveStartActivity _ _ _ _ _
                         | StartNative _ _ => true
                         | _ => false
                         end
                     | _ => false
                     end) evs.

(** A call outside the activity path threw: one to the notification
    provider, or the timer. *)
Definition provider_threw (evs : list Event) : bool :=
  existsb (fun ev => threw ev && negb (is_activity_start (fst ev))) evs.

(** The user answered a permission prompt with no. *)
Definition permission_refused (evs : list Event) : bool :=
  existsb (fun ev => match ev with
                     | (RequestPermissions, Returned (VBool false)) => true
                     | _ => false
                     end) evs.

(** The provider carried out a dismissal of all notifications. *)
Definition tray_dismissed (evs : list Event) : bool :=
  existsb (fun ev => match ev with
                     | (DismissAllNotifications, Returned _) => true
                     | _ => false
                     end) evs.

(** The activities the shift service's module was asked to update, in
    call order. *)
Definition module_updates (evs : list Event) : list string :=
  flat_map (fun ev => match fst ev with
                      | UpdateActivity id _ _ => [id]
                      | _ => []
                      end) evs.

(** The payload of [n] names [subject] as its check-in. *)
Definition names_check_in (subject : string) (n : NotificationRequest)
  : bool :=
  match data (content n) with
  | Some d =>
      match get_field "checkInId" d with
      | Some (DStr c) => String.eqb c subject
      | _ => false
      end
  | None => false
  end.

(* ===================================================================== *)
(** ** The capability probe *)
(* ===================================================================== *)

Section Probe.

Lemma strip_prefix_spec pat : forall s r,
  strip_prefix pat s = Some r <-> s = pat ++ r.
Proof.
  induction pat as [|a pat IH]; intros s r; cbn.
  - split; [intros [= ->] | intros ->]; reflexivity.
  - destruct s as [|b s]; [split; discriminate|].
    destruct (Ascii.eqb_spec a b) as [->|N].
    + rewrite IH. split; [intros -> | intros [= ->]]; reflexivity.
    + split; [discriminate | intros [= E _]; now symmetry in E].
Qed.

Lemma includes_unfold pat s :
  includes pat s
  = match strip_prefix pat s with
    | Some _ => true
    | None => match s with
              | EmptyString => false
              | String _ rest => includes pat rest
              end
    end.
Proof. destruct s; reflexivity. Qed.

(** [includes] finds the pattern wherever it stands. *)
Lemma includes_spec pat s :
  includes pat s = true <-> exists before after, s = before ++ pat ++ after.
Proof.
  split.
  - induction s as [|c s IH]; rewrite includes_unfold.
    + destruct (strip_prefix pat "") as [r|] eqn:E; [|discriminate].
      intros _. apply strip_prefix_spec in E. now exists "", r.
    + destruct (strip_prefix pat (String c s)) as [r|] eqn:E.
      * intros _. apply strip_prefix_spec in E. now exists "", r.
      * intros H. destruct (IH H) as (b & a & ->).
        now exists (String c b), a.
  - intros (before & after & ->).
    induction before as [|c b IH]; rewrite includes_unfold.
    + cbn [append].
      now rewrite (proj2 (strip_prefix_spec pat _ after) eq_refl).
    + cbn [append]. destruct (strip_prefix pat _); [reflexivity|exact IH].
Qed.

Lemma span_digits_spec s : forall ds tl,
  span_digits s = (ds, tl) ->
  s = ds ++ tl /\ all_digits ds = true /\ digit_free_head tl = true.
Proof.
  induction s as [|c s IH]; intros ds tl; cbn [span_digits].
  - intros [= <- <-]. repeat split.
  - destruct (is_digit c) eqn:D.
    + destruct (span_digits s) as [d t]. intros [= <- <-].
      destruct (IH d t eq_refl) as (-> & A & F).
      cbn. rewrite D, A. repeat split. exact F.
    + intros [= <- <-]. cbn. rewrite D. repeat split.
Qed.

(** The digits [span_digits] takes are the longest run there is. *)
Lemma span_digits_unique ds : forall tl,
  all_digits ds = true -> digit_free_head tl = true ->
  span_digits (ds ++ tl) = (ds, tl).
Proof.
  induction ds as [|c ds IH]; intros tl A F; cbn [append].
  - destruct tl as [|c tl]; [reflexivity|].
    cbn in *. now destruct (is_digit c).
  - cbn in A. apply andb_true_iff in A. destruct A as [D A].
    cbn [span_digits]. now rewrite D, (IH tl A F).
Qed.

Lemma is_empty_false s : is_empty s = false <-> s <> "".
Proof. destruct s; cbn; split; congruence. Qed.

Lemma match_OS_here_spec s major minor :
  match_OS_here s = Some (major, minor)
  <-> OS_version_at_head s major minor.
Proof.
  unfold match_OS_here, OS_version_at_head. split.
  - destruct (strip_prefix "OS " s) as [r|] eqn:E1; [|discriminate].
    apply strip_prefix_spec in E1.
    destruct (span_digits r) as [d1 r1] eqn:E2.
    apply span_digits_spec in E2. destruct E2 as (E2 & A1 & _).
    destruct (is_empty d1) eqn:N1; [discriminate|].
    destruct (strip_prefix "_" r1) as [r2|] eqn:E3; [|discriminate].
    apply strip_prefix_spec in E3.
    destruct (span_digits r2) as [d2 r3] eqn:E4.
    apply span_digits_spec in E4. destruct E4 as (E4 & A2 & F).
    destruct (is_empty d2) eqn:N2; [discriminate|].
    intros [= <- <-]. exists r3. subst.
    repeat split; auto; now apply is_empty_false.
  - intros (rest & -> & A1 & N1 & A2 & N2 & F).
    rewrite (proj2 (strip_prefix_spec "OS " _ _) eq_refl).
    rewrite (span_digits_unique major ("_" ++ minor ++ rest) A1 eq_refl).
    rewrite (proj2 (is_empty_false major) N1).
    rewrite (proj2 (strip_prefix_spec "_" _ _) eq_refl).
    rewrite (span_digits_unique minor _ A2 F).
    now rewrite (proj2 (is_empty_false minor) N2).
Qed.

Lemma match_OS_unfold s :
  match_OS s
  = match match_OS_here s with
    | Some groups => Some groups
    | None => match s with
              | EmptyString => None
              | String _ rest => match_OS rest
              end
    end.
Proof. destruct s; reflexivity. Qed.

(** [match_OS] returns the groups of the leftmost match. *)
Lemma match_OS_spec ua major minor :
  match_OS ua = Some (major, minor) <-> first_OS_version ua major minor.
Proof.
  unfold first_OS_version. split.
  - induction ua as [|c ua IH]; rewrite match_OS_unfold.
    + cbn. discriminate.
    + destruct (match_OS_here (String c ua)) as [[M m]|] eqn:H.
      * intros [= -> ->]. exists "", (String c ua).
        split; [reflexivity|]. split; [now apply match_OS_here_spec|].
        intros [|x b1] b2 E N; cbn in E; [congruence | discriminate].
      * intros R. destruct (IH R) as (before & tail & -> & Hm & Hf).
        exists (String c before), tail.
        split; [reflexivity|]. split; [exact Hm|].
        intros [|x b1] b2 E N M m Hat; cbn in E.
        -- subst b2. cbn in Hat. apply match_OS_here_spec in Hat.
           congruence.
        -- injection E as -> ->. exact (Hf b1 b2 eq_refl N M m Hat).
  - intros (before & tail & -> & Hm & Hf).
    induction before as [|c before IH]; rewrite match_OS_unfold.
    + cbn [append]. now rewrite (proj2 (match_OS_here_spec _ _ _) Hm).
    + destruct (match_OS_here (String c before ++ tail)) as [[M m]|] eqn:H.
      * exfalso. apply (Hf "" (String c before) eq_refl) with M m;
          [discriminate | now apply match_OS_here_spec].
      * cbn [append]. apply IH. intros b1 b2 -> N.
        exact (Hf (String c b1) b2 eq_refl N).
Qed.

Lemma parseInt_from_spec s : forall acc,
  parseInt_from acc s
  = acc * 10 ^ Z.of_nat (String.length s) + number_of s.
Proof.
  induction s as [|c s IH]; intros acc; cbn [parseInt_from number_of].
  - cbn. lia.
  - rewrite IH. cbn [String.length].
    rewrite Nat2Z.inj_succ, Z.pow_succ_r by lia. ring.
Qed.

(** [parseInt] reads a numeral as the number it denotes. *)
Lemma parseInt_number s : parseInt s = number_of s.
Proof. unfold parseInt. rewrite parseInt_from_spec. lia. Qed.

Lemma test_iDevice_spec ua : test_iDevice ua = true <-> names_iDevice ua.
Proof.
  unfold test_iDevice, names_iDevice. split.
  - intros H. apply orb_true_iff in H. destruct H as [H|H];
      [apply orb_true_iff in H; destruct H as [H|H]|];
      apply includes_spec in H; destruct H as (b & a & ->).
    + exists "iPad", b, a. cbn. auto.
    + exists "iPhone", b, a. cbn. auto.
    + exists "iPod", b, a. cbn. auto.
  - intros (d & b & a & I & ->).
    assert (includes d (b ++ d ++ a) = true) as H
        by (apply includes_spec; eauto).
    cbn in I. destruct I as [<-|[<-|[<-|[]]]]; rewrite H;
      rewrite ?orb_true_r; reflexivity.
Qed.

Lemma version_test major minor :
  (16 <? major) || ((major =? 16) && (1 <=? minor)) = true
  <-> version_at_least 16 1 (major, minor).
Proof.
  unfold version_at_least. cbn [fst snd].
  rewrite orb_true_iff, andb_true_iff, Z.ltb_lt, Z.eqb_eq, Z.leb_le.
  intuition lia.
Qed.

Lemma supports_spec rt : supports rt = true <-> ios_16_1_or_later rt.
Proof.
  unfold supports, ios_16_1_or_later. split.
  - destruct rt as [| |ua]; cbn; try discriminate.
    destruct (test_iDevice ua) eqn:I; cbn; [|discriminate].
    destruct (match_OS ua) as [[M m]|] eqn:V; [|discriminate].
    intros H. exists ua, M, m.
    split; [reflexivity|]. split; [now apply test_iDevice_spec|].
    split; [now apply match_OS_spec|].
    rewrite <- !parseInt_number. now apply version_test.
  - intros (ua & M & m & -> & I & V & A).
    apply test_iDevice_spec in I. apply match_OS_spec in V.
    cbn. rewrite I, V. cbn.
    apply version_test. now rewrite !parseInt_number.
Qed.

End Probe.

(** C6.  [isLiveActivitySupported] makes no external call, returns on
    every device and in every state, and leaves the state as it is but
    for a warning on the console; what it returns is a function of the
    browser globals alone, and it is [true] exactly when the user agent
    names an iPad, iPhone or iPod and the first "OS major_minor" in it is
    version 16.1 or later.  Without a window, and when reading the user
    agent throws, it returns [false]. *)
Theorem probe_is_total_and_exact (env : Env) (s : State) :
  let r := TransactionActivity.isLiveActivitySupported env s in
  result r = Ok (supports (runtime env))
  /\ events r = []
  /\ (final r = s
      \/ final r
         = add_console LWarn "Error checking Live Activity support:" s)
  /\ (supports (runtime env) = true <-> ios_16_1_or_later (runtime env))
  /\ supports NoWindow = false
  /\ supports NoNavigator = false.
Proof.
  cbv zeta. split; [|split; [|split; [|split; [apply supports_spec|]]]].
  - unfold TransactionActivity.isLiveActivitySupported, supports,
      try_catch, bind, ask, lift.
    destruct (TransactionActivity.probe (runtime env)) as [b|e];
      reflexivity.
  - unfold TransactionActivity.isLiveActivitySupported, try_catch, bind,
      ask, lift.
    destruct (TransactionActivity.probe (runtime env)); reflexivity.
  - unfold TransactionActivity.isLiveActivitySupported, try_catch, bind,
      ask, lift.
    destruct (TransactionActivity.probe (runtime env)); cbn; auto.
  - split; reflexivity.
Qed.

Example probe_iphone_16_4 : supports (Browser iphone_ua) = true.
Proof. vm_compute. reflexivity. Qed.

Example probe_iphone_16_0 :
  supports (Browser "Mozilla/5.0 (iPhone; CPU iPhone OS 16_0 like Mac OS X)")
  = false.
Proof. vm_compute. reflexivity. Qed.

Example probe_android :
  supports (Browser "Mozilla/5.0 (Linux; Android 14; Pixel 8) Chrome/120")
  = false.
Proof. vm_compute. reflexivity. Qed.
(* ===================================================================== *)
(** ** Symbolic execution *)
(* ===================================================================== *)

(** Runs the monad and the collaborators' model, and nothing else: the
    functions of the repository are unfolded where a proof asks for it. *)
Ltac exec :=
  cbv beta iota zeta delta
    [bind try_catch ret throw lift ask get modify console_ Date_now external
     logged Math_random setTimeout no_effect show_unit import
     advance set_granted set_scheduled set_presented set_activities
     set_LiveActivity add_console remove_activity
     tick clock granted scheduled presented activities LiveActivity console
     platform runtime exports oracle result final events OS_eqb
     Notifications.setNotificationHandler
     Notifications.setNotificationChannelAsync
     Notifications.getPermissionsAsync Notifications.requestPermissionsAsync
     Notifications.scheduleNotificationAsync
     Notifications.cancelScheduledNotificationAsync
     Notifications.getAllScheduledNotificationsAsync
     Notifications.dismissAllNotificationsAsync
     CheckInReminder.startActivity CheckInReminder.endActivity
     CheckInReminder.load_LiveActivity
     ShiftReminder.startActivity ShiftReminder.updateActivity
     ShiftReminder.dismissActivity ShiftReminder.getActivityModule
     ShiftReminder.configureNotifications ShiftReminder.merged
     ShiftReminder.has ShiftReminder.content_state
     TransactionActivity.isLiveActivitySupported
     TransactionActivity.startNativeLiveActivity
     TransactionActivity.updateNativeLiveActivity
     TransactionActivity.endNativeLiveActivity
     start_events start_final started_notification start_failed
     same_resources failures_logged] in *;
  cbn [app In existsb flat_map filter length negb orb andb fst snd
       is_activity_start threw is_schedule activity_start_threw
       schedule_returned schedule_succeeded triggers cancelled
       is_list_or_cancel listing_or_cancel_threw dismissed
       activity_shown provider_threw permission_refused tray_dismissed
       configuration_threw module_updates native_updates] in *.

(** One case split on what the environment, or the data, decides next. *)
Ltac branch :=
  match goal with
  | |- context [match fault (?o ?n) with Some _ => _ | None => _ end] =>
      let F := fresh "F" in destruct (fault (o n)) eqn:F
  | H : context [match fault (?o ?n) with Some _ => _ | None => _ end] |- _ =>
      let F := fresh "F" in destruct (fault (o n)) eqn:F
  | |- context [match toISOString ?t with Ok _ => _ | Throw _ => _ end] =>
      let T := fresh "T" in destruct (toISOString t) eqn:T
  | H : context [match toISOString ?t with Ok _ => _ | Throw _ => _ end]
    |- _ =>
      let T := fresh "T" in destruct (toISOString t) eqn:T
  | |- context [match TransactionActivity.probe ?r with
                | Ok _ => _ | Throw _ => _ end] =>
      let T := fresh "T" in
      destruct (TransactionActivity.probe r) as [[|]|] eqn:T
  | H : context [match TransactionActivity.probe ?r with
                 | Ok _ => _ | Throw _ => _ end] |- _ =>
      let T := fresh "T" in
      destruct (TransactionActivity.probe r) as [[|]|] eqn:T
  | |- context [match filter_throwing ?p ?l with
                | Ok _ => _ | Throw _ => _ end] =>
      let T := fresh "T" in destruct (filter_throwing p l) eqn:T
  | |- context [if ?b then _ else _] =>
      let B := fresh "B" in destruct b eqn:B
  | H : context [if ?b then _ else _] |- _ =>
      let B := fresh "B" in destruct b eqn:B
  end; exec.

Ltac open_world env s :=
  destruct env as [os rt ex o];
  destruct s as [tk ck gr sch pr act la co];
  exec.

Ltac settle :=
  repeat match goal with
         | H : false = true |- _ => discriminate H
         | H : true = false |- _ => discriminate H
         | H : (_ || _) = true |- _ =>
             apply orb_true_iff in H; destruct H
         | H : (_ || _) = false |- _ =>
             apply orb_false_iff in H; destruct H
         | H : (_ && _) = true |- _ =>
             apply andb_true_iff in H; destruct H
         | H : String.eqb _ _ = true |- _ =>
             apply String.eqb_eq in H; subst
         | H : _ \/ _ |- _ => destruct H
         | H : False |- _ => destruct H
         | H : _ /\ _ |- _ => destruct H
         end.

Section Fallback.

Lemma check_in_schedule_returned env s checkInId sd nid :
  schedule_returned
    (events (CheckInReminder.startShiftReminder checkInId sd env s)) nid
  = true ->
  result (CheckInReminder.startShiftReminder checkInId sd env s)
  = Ok {| CheckInReminder.type := CheckInReminder.notification;
          CheckInReminder.id := nid |}.
Proof.
  unfold CheckInReminder.startShiftReminder.
  open_world env s.
  destruct os; exec; try destruct la; exec; repeat branch;
    intros H; settle; reflexivity.
Qed.

Lemma shift_schedule_returned env s d nid :
  schedule_returned (events (ShiftReminder.startShiftReminder d env s)) nid
  = true ->
  result (ShiftReminder.startShiftReminder d env s)
  = Ok {| ShiftReminder.success := true;
          ShiftReminder.activityId := None;
          ShiftReminder.notificationId := Some nid;
          ShiftReminder.message :=
            "Shift reminder scheduled via notification" |}.
Proof.
  unfold ShiftReminder.startShiftReminder.
  open_world env s.
  destruct os; exec; repeat branch; intros H; settle; reflexivity.
Qed.

(** One attempt returns exactly when its schedule call returned. *)
Lemma send_once_returned env s p nid :
  schedule_returned (events (TransactionActivity.send_once p env s)) nid
  = true ->
  result (TransactionActivity.send_once p env s) = Ok nid.
Proof.
  unfold TransactionActivity.send_once.
  open_world env s.
  repeat branch; intros H; settle; reflexivity.
Qed.

(** What a call with [retry] set does, in terms of single attempts. *)
Lemma send_retry_run env s p :
  TransactionActivity.sendTransactionNotification p true env s
  = match TransactionActivity.send_once p env s with
    | {| result := Ok nid; final := s1; events := ev1 |} =>
        {| result := Ok nid; final := s1; events := ev1 |}
    | {| result := Throw _; final := s1; events := ev1 |} =>
        let s1' :=
          advance (elapsed (oracle env (tick s1)) + 1000)
            (add_console LWarn
               "Notification send failed, retrying in 1 second:" s1) in
        match TransactionActivity.send_once p env s1' with
        | {| result := Ok nid; final := s2; events := ev2 |} =>
            {| result := Ok nid; final := s2;
               events := ev1 ++ (SetTimeout 1000, Returned VUnit) :: ev2 |}
        | {| result := Throw e2; final := s2; events := ev2 |} =>
            {| result :=
                 Throw (NotificationError "Failed to send notification"
                                          (message_or String_of e2));
               final :=
                 add_console LError
                   "Error in sendTransactionNotification:" s2;
               events := ev1 ++ (SetTimeout 1000, Returned VUnit) :: ev2 |}
        end
    end.
Proof.
  rewrite TransactionActivity.sendTransactionNotification_equation_1.
  unfold try_catch at 1.
  destruct (TransactionActivity.send_once p env s) as [[nid|e] s1 ev1];
    [reflexivity|].
  unfold bind at 1. unfold console_ at 1, modify at 1.
  unfold bind at 1. unfold setTimeout at 1.
  unfold try_catch at 1. unfold bind at 1.
  rewrite TransactionActivity.sendTransactionNotification_equation_2.
  unfold try_catch at 1. cbn [tick add_console].
  destruct (TransactionActivity.send_once p env _) as [[nid|e2] s2 ev2];
    cbn; rewrite ?app_nil_r; reflexivity.
Qed.

Lemma send_once_threw env s p e nid :
  result (TransactionActivity.send_once p env s) = Throw e ->
  schedule_returned (events (TransactionActivity.send_once p env s)) nid
  = false.
Proof.
  intros E.
  destruct (schedule_returned _ nid) eqn:H; [|reflexivity].
  apply send_once_returned in H. congruence.
Qed.

Lemma send_once_one_schedule env s p :
  (length (triggers (events (TransactionActivity.send_once p env s))) <= 1)%nat.
Proof.
  unfold TransactionActivity.send_once.
  open_world env s. repeat branch; auto.
Qed.

Lemma triggers_app evs evs' :
  triggers (evs ++ evs') = (triggers evs ++ triggers evs')%list.
Proof. apply flat_map_app. Qed.

Lemma schedule_returned_app evs evs' nid :
  schedule_returned (evs ++ evs') nid
  = schedule_returned evs nid || schedule_returned evs' nid.
Proof. apply existsb_app. Qed.

Lemma send_retry_returned env s p nid :
  schedule_returned
    (events (TransactionActivity.sendTransactionNotification p true env s))
    nid = true ->
  result (TransactionActivity.sendTransactionNotification p true env s)
  = Ok nid.
Proof.
  rewrite send_retry_run.
  pose proof (send_once_returned env s p nid) as R1.
  pose proof (fun e => send_once_threw env s p e nid) as T1.
  destruct (TransactionActivity.send_once p env s) as [[n|e] s1 ev1];
    cbn [result events] in *; [exact R1|].
  specialize (T1 e eq_refl).
  match goal with
  | |- context [TransactionActivity.send_once p env ?s'] =>
      pose proof (send_once_returned env s' p nid) as R2;
      destruct (TransactionActivity.send_once p env s') as [[n|e2] s2 ev2]
  end; cbn [result events] in *;
    rewrite schedule_returned_app, T1; cbn [orb schedule_returned existsb];
    intros H; apply R2 in H; congruence.
Qed.

Lemma transaction_schedule_returned env s a x nid :
  schedule_returned
    (events (TransactionActivity.startLiveActivity a x env s)) nid = true ->
  result (TransactionActivity.startLiveActivity a x env s)
  = Ok {| TransactionActivity.id := nid;
          TransactionActivity.type := TransactionActivity.notification |}.
Proof.
  unfold TransactionActivity.startLiveActivity.
  open_world env s.
  repeat branch;
    match goal with
    | |- context [TransactionActivity.sendTransactionNotification ?p true
                    ?e ?s'] =>
        pose proof (send_retry_returned e s' p nid) as R;
        destruct (TransactionActivity.sendTransactionNotification p true e s')
          as [[n|err] s2 ev2]
    | _ => idtac
    end; cbn [result events] in *; exec; intros H; settle;
    rewrite ?app_nil_r in H; unfold schedule_returned in R;
    apply R in H; congruence.
Qed.

(** A goal [exists nid, schedule_returned evs nid = true] on a log
    whose schedule call returned. *)
Ltac scheduled_it :=
  eexists; exec;
  repeat first [apply String.eqb_refl
               |apply orb_true_iff; left; apply String.eqb_refl
               |apply orb_true_iff; right].

Lemma shift_schedules env s d :
  activity_shown (events (ShiftReminder.startShiftReminder d env s))
  = false ->
  provider_threw (events (ShiftReminder.startShiftReminder d env s))
  = false ->
  exists nid,
    schedule_returned (events (ShiftReminder.startShiftReminder d env s)) nid
    = true.
Proof.
  unfold ShiftReminder.startShiftReminder.
  open_world env s.
  destruct os; exec; repeat branch; intros H1 H2;
    try discriminate H1; try discriminate H2; scheduled_it.
Qed.

Lemma check_in_schedules env s c d :
  activity_shown (events (CheckInReminder.startShiftReminder c d env s))
  = false ->
  provider_threw (events (CheckInReminder.startShiftReminder c d env s))
  = false ->
  exists nid,
    schedule_returned
      (events (CheckInReminder.startShiftReminder c d env s)) nid = true.
Proof.
  unfold CheckInReminder.startShiftReminder.
  open_world env s.
  destruct os; exec; try destruct la; exec; repeat branch; intros H1 H2;
    try discriminate H1; try discriminate H2; scheduled_it.
Qed.

(** An attempt in which no call threw and no prompt was declined has
    scheduled the notification. *)
Lemma send_once_healthy env s p :
  existsb threw (events (TransactionActivity.send_once p env s)) = false ->
  permission_refused (events (TransactionActivity.send_once p env s))
  = false ->
  exists nid,
    result (TransactionActivity.send_once p env s) = Ok nid
    /\ schedule_returned (events (TransactionActivity.send_once p env s)) nid
       = true.
Proof.
  unfold TransactionActivity.send_once.
  open_world env s.
  repeat branch; intros H1 H2; settle; try discriminate H1;
    try match goal with
        | B : negb ?b = true, H : _ = false |- _ =>
            apply negb_true_iff in B; rewrite B in H; discriminate H
        end;
    eexists; (split; [reflexivity|]); exec;
    repeat first [apply String.eqb_refl
                 |apply orb_true_iff; left; apply String.eqb_refl
                 |apply orb_true_iff; right].
Qed.

Lemma send_retry_healthy env s p :
  existsb threw
    (events (TransactionActivity.sendTransactionNotification p true env s))
  = false ->
  permission_refused
    (events (TransactionActivity.sendTransactionNotification p true env s))
  = false ->
  exists nid,
    schedule_returned
      (events (TransactionActivity.sendTransactionNotification p true env s))
      nid = true.
Proof.
  rewrite send_retry_run.
  pose proof (send_once_healthy env s p) as H.
  destruct (TransactionActivity.send_once p env s) as [[n|e] s1 ev1];
    cbn [result events] in *.
  - intros H1 H2. destruct (H H1 H2) as (nid & _ & R). now exists nid.
  - match goal with
    | |- context [TransactionActivity.send_once p env ?s'] =>
        destruct (TransactionActivity.send_once p env s')
          as [[n|e2] s2 ev2]
    end; cbn [events]; unfold permission_refused;
      rewrite !existsb_app; intros H1 H2;
      apply orb_false_iff in H1; destruct H1 as [H1 _];
      apply orb_false_iff in H2; destruct H2 as [H2 _];
      destruct (H H1 H2) as (nid & E & _); discriminate E.
Qed.

Lemma send_threw_is_provider env s p :
  provider_threw
    (events (TransactionActivity.sendTransactionNotification p true env s))
  = existsb threw
      (events (TransactionActivity.sendTransactionNotification p true env s)).
Proof.
  assert (O : forall s',
             provider_threw (events (TransactionActivity.send_once p env s'))
             = existsb threw
                 (events (TransactionActivity.send_once p env s'))).
  { intros s'. unfold TransactionActivity.send_once.
    open_world env s'. repeat branch; reflexivity. }
  rewrite send_retry_run.
  pose proof (O s) as O1.
  destruct (TransactionActivity.send_once p env s) as [[n|e] s1 ev1];
    cbn [events] in *; [exact O1|].
  match goal with
  | |- context [TransactionActivity.send_once p env ?s'] =>
      pose proof (O s') as O2;
      destruct (TransactionActivity.send_once p env s') as [[n|e2] s2 ev2]
  end; cbn [events] in *; unfold provider_threw in *;
    rewrite !existsb_app; (f_equal; [exact O1|exact O2]).
Qed.

Lemma send_retry_no_start_threw env s p :
  activity_start_threw
    (events (TransactionActivity.sendTransactionNotification p true env s))
  = false.
Proof.
  assert (O : forall s',
             activity_start_threw
               (events (TransactionActivity.send_once p env s')) = false).
  { intros s'. unfold TransactionActivity.send_once.
    open_world env s'. repeat branch; reflexivity. }
  rewrite send_retry_run.
  pose proof (O s) as O1.
  destruct (TransactionActivity.send_once p env s) as [[n|e] s1 ev1];
    cbn [events] in *; [exact O1|].
  match goal with
  | |- context [TransactionActivity.send_once p env ?s'] =>
      pose proof (O s') as O2;
      destruct (TransactionActivity.send_once p env s') as [[n|e2] s2 ev2]
  end; cbn [events] in *; unfold activity_start_threw in *;
    rewrite existsb_app; apply orb_false_iff; (split; [exact O1|exact O2]).
Qed.

Lemma transaction_schedules env s a x :
  activity_shown (events (TransactionActivity.startLiveActivity a x env s))
  = false ->
  provider_threw (events (TransactionActivity.startLiveActivity a x env s))
  = false ->
  permission_refused
    (events (TransactionActivity.startLiveActivity a x env s)) = false ->
  exists nid,
    schedule_returned
      (events (TransactionActivity.startLiveActivity a x env s)) nid = true.
Proof.
  unfold TransactionActivity.startLiveActivity.
  open_world env s.
  repeat branch;
    match goal with
    | |- context [TransactionActivity.sendTransactionNotification ?p true
                    ?e ?s'] =>
        pose proof (send_retry_healthy e s' p) as Healthy;
        pose proof (send_threw_is_provider e s' p) as Same;
        destruct (TransactionActivity.sendTransactionNotification p true e s')
          as [[n|err] s2 ev2]
    | _ => idtac
    end; cbn [result events] in *; exec; intros H1 H2 H3;
    try discriminate H1; rewrite ?app_nil_r in *;
    unfold provider_threw, permission_refused, schedule_returned in *;
    (apply Healthy; [rewrite <- Same; exact H2|exact H3]).
Qed.

(** The case of the claim is among those in which no activity is shown:
    after an import or a start that threw, no start has returned. *)
Lemma thrown_start_shows_nothing st env s :
  activity_start_threw (start_events st env s) = true ->
  activity_shown (start_events st env s) = false.
Proof.
  destruct st; cbn [start_events];
    [unfold ShiftReminder.startShiftReminder
    |unfold TransactionActivity.startLiveActivity
    |unfold CheckInReminder.startShiftReminder];
    open_world env s.
  - destruct os; exec; repeat branch; intros H; settle;
      try discriminate; reflexivity.
  - repeat branch;
      match goal with
      | |- context [TransactionActivity.sendTransactionNotification ?p true
                      ?e ?s'] =>
          pose proof (send_retry_no_start_threw e s' p) as N;
          destruct (TransactionActivity.sendTransactionNotification p true
                      e s') as [[n|err] s2 ev2]
      | _ => idtac
      end; cbn [result events] in *; exec; intros H; settle;
      try discriminate; rewrite ?app_nil_r in *;
      unfold activity_start_threw in *; congruence.
  - destruct os; exec; try destruct la; exec; repeat branch; intros H;
      settle; try discriminate; reflexivity.
Qed.

End Fallback.

(** C1.  Whatever the reminder request and the device, when the
    activity path shows nothing (in particular when the import of the
    activity module or the start call threw), each of the three starters
    goes on to the notification: a schedule call that returns an
    identifier makes the result a success carrying that notification,
    and such a call is made and returns unless a call to the provider
    throws or the user declines the permission.  Nothing of the
    activity failure reaches the caller. *)
Theorem fallback_is_transparent (st : Starter) (env : Env) (s : State) :
  activity_shown (start_events st env s) = false ->
  (forall nid,
      schedule_returned (start_events st env s) nid = true ->
      started_notification st env s nid)
  /\ (provider_threw (start_events st env s) = false ->
      permission_refused (start_events st env s) = false ->
      exists nid,
        schedule_returned (start_events st env s) nid = true
        /\ started_notification st env s nid).
Proof.
  intros A.
  assert (R : forall nid,
             schedule_returned (start_events st env s) nid = true ->
             started_notification st env s nid).
  { intros nid H. destruct st; cbn [start_events started_notification] in *.
    - now apply shift_schedule_returned.
    - now apply transaction_schedule_returned.
    - now apply check_in_schedule_returned. }
  split; [exact R|]. intros P D.
  assert (E : exists nid,
             schedule_returned (start_events st env s) nid = true).
  { destruct st; cbn [start_events] in *.
    - now apply shift_schedules.
    - now apply transaction_schedules.
    - now apply check_in_schedules. }
  destruct E as [nid E]. exists nid. split; [exact E|now apply R].
Qed.

Lemma fallback_is_transparent_witness :
  (exists nid,
      schedule_returned
        (start_events (shift_service shift42)
           (device ios [quiet; quiet; failing "ActivityKit unavailable";
                        quiet]) boot) nid = true
      /\ started_notification (shift_service shift42)
           (device ios [quiet; quiet; failing "ActivityKit unavailable";
                        quiet]) boot nid)
  /\ (exists nid,
         schedule_returned
           (start_events (check_in "shift-42" None)
              (device ios [failing "Expo Go"; quiet]) boot) nid = true
         /\ started_notification (check_in "shift-42" None)
              (device ios [failing "Expo Go"; quiet]) boot nid)
  /\ (exists nid,
         schedule_returned
           (start_events (transaction_helper salary incoming)
              (headless []) boot) nid = true
         /\ started_notification (transaction_helper salary incoming)
              (headless []) boot nid).
Proof.
  repeat split; apply fallback_is_transparent; vm_compute; reflexivity.
Defined.

(** The activity failure of the witness, and the activity path when the
    module is there. *)
Example fallback_after_a_thrown_start :
  let evs := start_events (shift_service shift42)
               (device ios [quiet; quiet; failing "ActivityKit unavailable";
                            quiet]) boot in
  activity_start_threw evs = true /\ provider_threw evs = false
  /\ schedule_returned evs "n-1" = true.
Proof. vm_compute. repeat split. Qed.

Example activity_when_available :
  result (CheckInReminder.startShiftReminder "shift-42" None
            (device ios []) boot)
  = Ok {| CheckInReminder.type := CheckInReminder.live_activity;
          CheckInReminder.id := "shift-42" |}.
Proof. vm_compute. reflexivity. Qed.

(** C2.  A send with retry set, which is the default and what
    [startLiveActivity] asks for, makes one attempt; if that attempt throws it
    waits for the fixed delay of 1000 ms and makes exactly one more; if
    that one throws too the caller gets a [NotificationError] wrapping its
    message.  The provider's schedule call is reached at most twice. *)
Theorem schedule_retried_exactly_once (env : Env) (s : State)
        (p : TransactionActivity.NotificationPayload) :
  let first := TransactionActivity.send_once p env s in
  let r := TransactionActivity.sendTransactionNotification p true env s in
  (length (triggers (events r)) <= 2)%nat /\
  match result first with
  | Ok _ => r = first
  | Throw _ =>
      exists s',
        clock (final first) + 1000 <= clock s' /\
        events r
        = (events first
             ++ (SetTimeout 1000, Returned VUnit)
             :: events (TransactionActivity.send_once p env s'))%list /\
        result r
        = match result (TransactionActivity.send_once p env s') with
          | Ok nid => Ok nid
          | Throw e =>
              Throw (NotificationError "Failed to send notification"
                                       (message_or String_of e))
          end
  end.
Proof.
  cbv zeta. rewrite send_retry_run.
  pose proof (send_once_one_schedule env s p) as L1.
  destruct (TransactionActivity.send_once p env s) as [[n|e] s1 ev1];
    cbn [result final events] in *.
  - split; [lia | reflexivity].
  - match goal with
    | |- context [TransactionActivity.send_once p env ?s'] =>
        pose proof (send_once_one_schedule env s' p) as L2;
        assert (clock s1 + 1000 <= clock s') as C
          by (cbn [clock advance add_console]; lia);
        set (s2 := s') in *
    end.
    assert (forall ev,
               (length (triggers
                          (ev1 ++ (SetTimeout 1000, Returned VUnit) :: ev)%list)
                <= 1 + length (triggers ev))%nat) as B.
    { intros ev. rewrite triggers_app, length_app.
      change (triggers ((SetTimeout 1000, Returned VUnit) :: ev))
        with (triggers ev). lia. }
    destruct (TransactionActivity.send_once p env s2) as [[n|e2] s3 ev2] eqn:E2;
      cbn [result final events] in *.
    + split; [specialize (B ev2); lia|].
      exists s2. rewrite E2. cbn [result final events]. auto.
    + split; [specialize (B ev2); lia|].
      exists s2. rewrite E2. cbn [result final events]. auto.
Qed.

(** The scenario of the specification: the schedule call throws once and
    then returns. *)
Example retry_then_success :
  let r := TransactionActivity.sendTransactionNotification alert true
             (device android [quiet; failing "scheduler busy"; quiet; quiet; quiet])
             boot in
  result r = Ok "n-1" /\ length (triggers (events r)) = 2%nat.
Proof. vm_compute. split; reflexivity. Qed.

Section Triggers.

Lemma clamp_to_one x : x <= 901000 -> Z.max 1 (x / 1000 - 900) = 1.
Proof.
  intros H. apply Z.max_l.
  assert (x / 1000 <= 901) by (apply Z.div_le_upper_bound; lia).
  lia.
Qed.

(** Whatever the integral instants, no schedule call is given a delay
    below one second, and none is immediate. *)
Lemma trigger_at_least_one k d env s :
  Forall (fun t => exists n, t = Some n /\ 1 <= n)
         (triggers (events (remind k d env s))).
Proof.
  destruct k; unfold remind, ShiftReminder.startShiftReminder,
    ShiftReminder.endShiftReminder;
    open_world env s; destruct os; exec; repeat branch;
    repeat constructor; eexists; (split; [reflexivity|]);
    apply Z.le_max_l.
Qed.

(** The delay is computed from the clock as it stands when the schedule
    call is made, some time into the run. *)
Lemma trigger_reads_the_clock k d env s :
  Forall (fun t => exists now,
              clock s <= now
              /\ t = Some (Z.max 1 ((due k d - now) / 1000 - 900)))
         (triggers (events (remind k d env s))).
Proof.
  destruct k; unfold due, remind, ShiftReminder.startShiftReminder,
    ShiftReminder.endShiftReminder;
    open_world env s; destruct os; exec; repeat branch;
    repeat constructor; eexists; (split; [|reflexivity]); lia.
Qed.

(** Once the configuration has returned and no activity is shown, the
    shift service makes its one schedule call. *)
Lemma fallback_schedules_once k d env s :
  configuration_threw (events (remind k d env s)) = false ->
  activity_shown (events (remind k d env s)) = false ->
  length (triggers (events (remind k d env s))) = 1%nat.
Proof.
  destruct k; unfold remind, ShiftReminder.startShiftReminder,
    ShiftReminder.endShiftReminder;
    open_world env s; destruct os; exec; repeat branch;
    intros H1 H2; try discriminate H1; try discriminate H2; reflexivity.
Qed.

End Triggers.

(** C3.  When the instant the reminder is due, less the lead time of 15
    minutes, less the current time, is at most one second (so in
    particular when the instant is past), every schedule call the shift
    service makes is given a delay of exactly one second; and it makes
    that call, once, whenever the configuration has returned and the
    activity path has shown nothing, so everywhere but on iOS with a
    working activity module.  Times are in milliseconds, the clock does
    not run backwards while the call is under way. *)
Theorem past_trigger_is_one_second (k : Occasion)
        (d : ShiftReminder.ShiftActivityData) (env : Env) (s : State) :
  due k d - 900000 - clock s <= 1000 ->
  Forall (fun t => t = Some 1) (triggers (events (remind k d env s)))
  /\ (configuration_threw (events (remind k d env s)) = false ->
      activity_shown (events (remind k d env s)) = false ->
      triggers (events (remind k d env s)) = [Some 1]).
Proof.
  intros H.
  assert (F : Forall (fun t => t = Some 1)
                     (triggers (events (remind k d env s)))).
  { revert H.
    destruct k; unfold due, remind, ShiftReminder.startShiftReminder,
      ShiftReminder.endShiftReminder;
      open_world env s; intros H; destruct os; exec; repeat branch;
      repeat constructor; f_equal; apply clamp_to_one; lia. }
  split; [exact F|]. intros C A.
  pose proof (fallback_schedules_once k d env s C A) as L.
  destruct (triggers (events (remind k d env s))) as [|t [|t' l]];
    try discriminate L.
  inversion F as [|? ? E _]; subst. reflexivity.
Qed.

Lemma past_trigger_is_one_second_witness :
  triggers (events (remind shift_start past_shift (device android []) boot))
  = [Some 1].
Proof.
  apply (past_trigger_is_one_second shift_start past_shift
           (device android []) boot).
  - vm_compute. discriminate.
  - vm_compute. reflexivity.
  - vm_compute. reflexivity.
Defined.

(** On iOS the same delay is passed when the start of the activity
    throws. *)
Example past_trigger_after_a_thrown_start :
  triggers (events (remind shift_end past_shift
                      (device ios [quiet; quiet; failing "stale"; quiet])
                      boot))
  = [Some 1].
Proof. vm_compute. reflexivity. Qed.

(** The scenario of the specification: due in 20 minutes, no activity
    module, a provider that answers at once. *)
Example twenty_minutes_ahead :
  triggers (events (remind shift_start shift42
                           (device android [instant; instant; instant; instant])
                           boot))
  = [Some 300].
Proof. vm_compute. reflexivity. Qed.

Section BothFail.

Lemma same_resources_refl s : same_resources s s.
Proof. repeat split. Qed.

Lemma same_resources_trans s1 s2 s3 :
  same_resources s1 s2 -> same_resources s2 s3 -> same_resources s1 s3.
Proof. unfold same_resources. intuition congruence. Qed.

(** An attempt in which no schedule call returned threw, and left the
    device as it was. *)
Lemma send_once_failed env s p :
  schedule_succeeded (events (TransactionActivity.send_once p env s))
  = false ->
  (exists e, result (TransactionActivity.send_once p env s) = Throw e)
  /\ same_resources s (final (TransactionActivity.send_once p env s)).
Proof.
  unfold TransactionActivity.send_once.
  open_world env s.
  repeat branch; intros H; settle; (split; [eexists|]; repeat split).
Qed.

Lemma schedule_succeeded_app evs evs' :
  schedule_succeeded (evs ++ evs')
  = schedule_succeeded evs || schedule_succeeded evs'.
Proof. apply existsb_app. Qed.

Lemma send_retry_failed env s p :
  schedule_succeeded
    (events (TransactionActivity.sendTransactionNotification p true env s))
  = false ->
  (exists details,
      result (TransactionActivity.sendTransactionNotification p true env s)
      = Throw (NotificationError "Failed to send notification" details))
  /\ same_resources s
       (final (TransactionActivity.sendTransactionNotification p true env s)).
Proof.
  rewrite send_retry_run.
  pose proof (send_once_failed env s p) as F1.
  destruct (TransactionActivity.send_once p env s) as [[n|e] s1 ev1];
    cbn [result final events] in *.
  - intros H. destruct (F1 H) as [[e E] _]. discriminate.
  - match goal with
    | |- context [TransactionActivity.send_once p env ?s'] =>
        pose proof (send_once_failed env s' p) as F2;
        destruct (TransactionActivity.send_once p env s')
          as [[n|e2] s2 ev2]
    end; cbn [result final events] in *;
      rewrite schedule_succeeded_app;
      change (schedule_succeeded ((SetTimeout 1000, Returned VUnit) :: ?l))
        with (schedule_succeeded l);
      intros H; apply orb_false_iff in H; destruct H as [H1 H2];
      destruct (F1 H1) as [_ S1]; destruct (F2 H2) as [[e' E'] S2];
      [discriminate|].
    split; [eexists; reflexivity|].
    eapply same_resources_trans; [exact S1|].
    eapply same_resources_trans; [|exact S2].
    repeat split.
Qed.

Lemma shift_both_fail env s d :
  activity_shown (events (ShiftReminder.startShiftReminder d env s))
  = false ->
  schedule_succeeded (events (ShiftReminder.startShiftReminder d env s))
  = false ->
  start_failed (shift_service d) env s.
Proof.
  unfold start_failed, ShiftReminder.startShiftReminder.
  open_world env s.
  destruct os; exec; repeat branch; intros H1 H2; settle;
    try discriminate; eexists; reflexivity.
Qed.

Lemma check_in_both_fail env s c d :
  activity_shown
    (events (CheckInReminder.startShiftReminder c d env s)) = false ->
  schedule_succeeded
    (events (CheckInReminder.startShiftReminder c d env s)) = false ->
  start_failed (check_in c d) env s.
Proof.
  unfold start_failed, CheckInReminder.startShiftReminder.
  open_world env s.
  destruct os; exec; try destruct la; exec; repeat branch;
    intros H1 H2; settle; try discriminate; reflexivity.
Qed.

Lemma transaction_both_fail env s a x :
  activity_shown
    (events (TransactionActivity.startLiveActivity a x env s)) = false ->
  schedule_succeeded
    (events (TransactionActivity.startLiveActivity a x env s)) = false ->
  start_failed (transaction_helper a x) env s.
Proof.
  unfold start_failed, TransactionActivity.startLiveActivity.
  open_world env s.
  repeat branch;
    first
      [ match goal with
        | |- context [TransactionActivity.sendTransactionNotification
                        ?p true ?e ?s'] =>
            pose proof (send_retry_failed e s' p) as R;
            destruct (TransactionActivity.sendTransactionNotification
                        p true e s') as [[n|err] s2 ev2]
        end; cbn [result final events] in *; exec; intros H1 H2; settle;
        rewrite ?app_nil_r in H2; unfold schedule_succeeded in R;
        destruct (R H2) as [[details E] S]; try discriminate;
        eexists; reflexivity
      | intros H1 H2; settle; discriminate ].
Qed.

End BothFail.

(** C4, as the code has it.  When the activity path shows nothing and
    no schedule call returns, the shift service returns a result whose
    [success] is false and that names no activity and no notification;
    the transaction helper throws an [ActivityError] and the check-in
    reminder throws an [Error], so that their callers are handed
    nothing. *)
Theorem both_paths_fail (st : Starter) (env : Env) (s : State) :
  activity_shown (start_events st env s) = false ->
  schedule_succeeded (start_events st env s) = false ->
  start_failed st env s.
Proof.
  destruct st; cbn [start_events].
  - apply shift_both_fail.
  - apply transaction_both_fail.
  - apply check_in_both_fail.
Qed.

Lemma both_paths_fail_witness :
  start_failed (shift_service shift42)
    (device ios [quiet; quiet; failing "ActivityKit unavailable";
                 failing "scheduler busy"]) boot.
Proof.
  apply both_paths_fail; vm_compute; reflexivity.
Defined.

(** C4 as stated does not hold of the other two starters.  Without a
    window the transaction helper goes straight to the notification,
    and when both attempts to schedule it throw, it throws; on iOS the
    check-in reminder throws when the import of the activity module and
    the schedule call throw. *)
Lemma start_failure_is_thrown :
  let r := TransactionActivity.startLiveActivity salary incoming
             (headless [quiet; failing "busy"; quiet; quiet; failing "busy"])
             boot in
  let r' := CheckInReminder.startShiftReminder "shift-42" None
              (device ios [failing "Expo Go"; failing "busy"]) boot in
  (activity_shown (events r) = false
   /\ schedule_succeeded (events r) = false
   /\ result r
      = Throw (ActivityError
                 "Failed to start Live Activity or send notification"
                 "Failed to send notification"))
  /\ (activity_shown (events r') = false
      /\ schedule_succeeded (events r') = false
      /\ result r' = Throw (JsError "Could not start shift reminder")).
Proof. vm_compute. repeat split. Qed.

Section NeverThrows.

Lemma ret_never_throws {A} (a : A) : never_throws (ret a).
Proof. intros env s. now exists a. Qed.

Lemma console_never_throws l msg : never_throws (console_ l msg).
Proof. intros env s. now exists tt. Qed.

Lemma bind_never_throws {A B} (m : M A) (k : A -> M B) :
  never_throws m -> (forall a, never_throws (k a)) ->
  never_throws (bind m k).
Proof.
  intros Hm Hk env s. unfold bind.
  destruct (Hm env s) as [a Ea].
  destruct (m env s) as [[a'|e] s1 ev1]; cbn in Ea; [|discriminate].
  destruct (Hk a' env s1) as [b Eb].
  destruct (k a' env s1) as [rb s2 ev2]; cbn in *. now exists b.
Qed.

(** A [try] whose handler cannot throw cannot throw, whatever its body
    does. *)
Lemma try_catch_never_throws {A} (m : M A) (handler : Exn -> M A) :
  (forall e, never_throws (handler e)) -> never_throws (try_catch m handler).
Proof.
  intros Hh env s. unfold try_catch.
  destruct (m env s) as [[a|e] s1 ev1]; cbn; [now exists a|].
  destruct (Hh e env s1) as [b Eb].
  destruct (handler e env s1) as [rb s2 ev2]; cbn in *. now exists b.
Qed.

Lemma check_in_end_never_throws c n :
  never_throws (CheckInReminder.endShiftReminder c n).
Proof.
  apply try_catch_never_throws. intros e. apply console_never_throws.
Qed.

Lemma end_activity_never_throws a f :
  never_throws (TransactionActivity.endLiveActivity a f).
Proof.
  apply try_catch_never_throws. intros e. apply console_never_throws.
Qed.


Lemma cancel_never_throws sid k :
  never_throws (ShiftReminder.cancelShiftReminder sid k).
Proof.
  apply try_catch_never_throws. intros e.
  apply bind_never_throws; [apply console_never_throws|].
  intros _. apply ret_never_throws.
Qed.

Lemma unit_result (m : M unit) env s :
  never_throws m -> result (m env s) = Ok tt.
Proof. intros H. destruct (H env s) as [[] E]. exact E. Qed.

End NeverThrows.

Section CancelLoop.

Lemma without_cons id ids l :
  without (id :: ids) l
  = without ids (filter (fun n => negb (String.eqb (identifier n) id)) l).
Proof.
  induction l as [|n l IH]; [reflexivity|].
  unfold without in *. cbn [filter existsb] in *.
  destruct (String.eqb (identifier n) id); cbn [negb orb filter].
  - exact IH.
  - destruct (negb (existsb (String.eqb (identifier n)) ids));
      rewrite IH; reflexivity.
Qed.

(** The cancel loop touches only the pending notifications; it returns
    exactly when no cancel call threw, and then it has cancelled the
    identifiers of the list, in order. *)
Lemma cancel_loop l : forall env s,
  let r := for_of l cancel_one env s in
  console (final r) = console s /\ presented (final r) = presented s
  /\ activities (final r) = activities s
  /\ dismissed (events r) = false
  /\ match result r with
     | Ok _ =>
         existsb threw (events r) = false
         /\ cancelled (events r) = map identifier l
         /\ scheduled (final r) = without (map identifier l) (scheduled s)
     | Throw _ =>
         existsb threw (events r) = true
         /\ listing_or_cancel_threw (events r) = true
     end.
Proof.
  induction l as [|n l IH]; intros env s.
  - cbn. repeat split. unfold without. cbn.
    induction (scheduled s); cbn; congruence.
  - cbn [for_of]. cbv zeta.
    set (loop := for_of l cancel_one) in *.
    unfold bind, cancel_one,
      Notifications.cancelScheduledNotificationAsync, external.
    destruct (fault (oracle env (tick s))) eqn:F.
    + cbn. repeat split.
    + match goal with
      | |- context [loop env ?s'] =>
          specialize (IH env s'); cbv zeta in IH;
          destruct (loop env s') as [[u|e] s2 ev2]
      end; cbn [result final events] in *;
        destruct IH as (C & P & A & D & R); cbn in C, P, A.
      * destruct R as (T & K & S). cbn -[without cancelled].
        change (cancelled ((CancelScheduledNotification (identifier n),
                            Returned (show_unit tt)) :: ev2))
          with (identifier n :: cancelled ev2).
        cbn in S. rewrite K, S, without_cons. repeat split; assumption.
      * destruct R as (T & N). cbn. repeat split; assumption.
Qed.

Lemma without_nil l : without [] l = l.
Proof.
  unfold without. cbn. induction l as [|n l IH]; cbn; congruence.
Qed.

Lemma same_identifier (l : list NotificationRequest) a b :
  NoDup (map identifier l) -> In a l -> In b l ->
  identifier a = identifier b -> a = b.
Proof.
  induction l as [|n l IH]; intros D Ia Ib E; [destruct Ia|].
  cbn [map] in D. inversion D as [|x xs Hn D']; subst.
  destruct Ia as [->|Ia], Ib as [->|Ib].
  - reflexivity.
  - exfalso. apply Hn. rewrite E. now apply in_map.
  - exfalso. apply Hn. rewrite <- E. now apply in_map.
  - now apply IH.
Qed.

(** With identifiers that name one notification each, dropping the
    identifiers of the notifications that satisfy [p] drops exactly
    those notifications. *)
Lemma without_selected (p : NotificationRequest -> bool) l :
  NoDup (map identifier l) ->
  without (map identifier (filter p l)) l = filter (fun n => negb (p n)) l.
Proof.
  intros D. unfold without. apply filter_ext_in. intros n I. f_equal.
  destruct (p n) eqn:P.
  - apply existsb_exists. exists (identifier n). split.
    + apply in_map. apply filter_In. now split.
    + apply String.eqb_refl.
  - destruct (existsb _ _) eqn:X; [|reflexivity].
    apply existsb_exists in X. destruct X as (i & Ii & E).
    apply String.eqb_eq in E. apply in_map_iff in Ii.
    destruct Ii as (m & Em & Im). apply filter_In in Im.
    destruct Im as [Im Pm].
    assert (n = m) by (apply (same_identifier l); auto; congruence).
    congruence.
Qed.

End CancelLoop.

Section Teardown.

Lemma filter_absent (id : string) (l : list string) :
  ~ In id l -> filter (fun a => negb (String.eqb a id)) l = l.
Proof.
  induction l as [|a l IH]; intros H; [reflexivity|].
  cbn [filter]. destruct (String.eqb_spec a id) as [->|_].
  - exfalso. apply H. now left.
  - cbn [negb]. rewrite IH; [reflexivity|].
    intros I. apply H. now right.
Qed.

(** Closes a goal [logged_complaint s s'] on a state the run has
    produced. *)
Ltac complained :=
  unfold logged_complaint; cbn [console];
  repeat rewrite <- app_assoc;
  eexists; split; [reflexivity | reflexivity].

Lemma check_in_end_logs c n env s :
  failures_logged (CheckInReminder.endShiftReminder c n) env s.
Proof.
  unfold CheckInReminder.endShiftReminder.
  open_world env s.
  destruct os; exec; try destruct la; exec; repeat branch;
    intros H; settle; complained.
Qed.

Lemma check_in_end_nothing_to_end c n env s :
  ~ In c (activities s) ->
  activities (final (CheckInReminder.endShiftReminder c n env s))
  = activities s
  /\ scheduled (final (CheckInReminder.endShiftReminder c n env s))
     = scheduled s.
Proof.
  unfold CheckInReminder.endShiftReminder.
  open_world env s. intros H.
  destruct os; exec; try destruct la; exec; repeat branch;
    try rewrite (filter_absent _ _ H); split; reflexivity.
Qed.

(** Ending a transaction activity reaches nothing but the repository's
    own native layer, which only logs. *)
Lemma end_activity_changes_nothing a f env s :
  same_resources s (final (TransactionActivity.endLiveActivity a f env s)).
Proof.
  unfold TransactionActivity.endLiveActivity.
  open_world env s. repeat branch; repeat split.
Qed.

(** The ending of a check-in reminder finishes with the dismissal of
    all notifications; once the provider has carried it out the tray is
    empty. *)
Lemma check_in_end_clears_tray c n env s :
  tray_dismissed (events (CheckInReminder.endShiftReminder c n env s))
  = true ->
  presented (final (CheckInReminder.endShiftReminder c n env s)) = [].
Proof.
  unfold CheckInReminder.endShiftReminder.
  open_world env s.
  destruct os; exec; try destruct la; exec; repeat branch;
    intros H; settle; try discriminate; reflexivity.
Qed.

End Teardown.

Section Cancel.

(** Reasons about the cancel loop of the goal as a whole. *)
Ltac enter_loop :=
  match goal with
  | |- context [for_of ?l ?f ?e ?s'] =>
      change (for_of l f e s') with (for_of l cancel_one e s');
      let L := fresh "L" in
      pose proof (cancel_loop l e s') as L; cbv zeta in L;
      destruct (for_of l cancel_one e s')
        as [[u|err] [tk2 ck2 gr2 sch2 pr2 act2 la2 co2] ev2];
      cbn [result final events] in L;
      destruct L as (LC & LP & LA & LD & LR);
      cbn [console presented activities scheduled] in LC, LP, LA, LR;
      subst co2 pr2 act2
  end.

Ltac complained :=
  unfold logged_complaint; cbn [console];
  repeat rewrite <- app_assoc;
  eexists; split; [reflexivity | reflexivity].

Lemma cancel_logs sid k env s :
  failures_logged (ShiftReminder.cancelShiftReminder sid k) env s.
Proof.
  unfold ShiftReminder.cancelShiftReminder.
  open_world env s.
  destruct os; exec; repeat branch; try enter_loop; exec;
    rewrite ?app_nil_r; intros H; settle;
    try congruence; complained.
Qed.

Lemma cancel_nothing_to_cancel sid k env s :
  ~ In ("shift-" ++ ShiftReminder.Kind_text k ++ "-" ++ sid)
       (activities s) ->
  filter (ShiftReminder.carries_shiftId sid) (scheduled s) = [] ->
  same_resources s (final (ShiftReminder.cancelShiftReminder sid k env s))
  /\ cancelled (events (ShiftReminder.cancelShiftReminder sid k env s))
     = [].
Proof.
  unfold ShiftReminder.cancelShiftReminder.
  open_world env s. intros HA HF.
  destruct os; exec; repeat branch; rewrite ?HF; cbn [for_of]; exec;
    try rewrite (filter_absent _ _ HA); repeat split.
Qed.

Ltac finish :=
  repeat match goal with
         | |- _ /\ _ => split
         | |- exists _, _ => eexists
         end; try reflexivity; try congruence.

Ltac through_loop :=
  try enter_loop; exec; rewrite ?app_nil_r;
  unfold dismissed, listing_or_cancel_threw, cancelled in *.

(** A dismissal that the activity module carried out ends the
    cancellation: no pending notification is looked at. *)
Lemma cancel_run_dismissed sid k env s :
  let r := ShiftReminder.cancelShiftReminder sid k env s in
  dismissed (events r) = true ->
  result r
  = Ok {| ShiftReminder.c_success := true;
          ShiftReminder.c_message :=
            "Shift reminder cancelled via Live Activity" |}
  /\ cancelled (events r) = []
  /\ scheduled (final r) = scheduled s.
Proof.
  cbv zeta. unfold ShiftReminder.cancelShiftReminder.
  open_world env s.
  destruct os; exec; repeat branch; through_loop;
    intros D; settle; finish.
Qed.

(** Without one, and with a provider that does not throw while listing
    or cancelling, the pending notifications that carry the identifier
    are cancelled, each by the identifier the provider knows it by. *)
Lemma cancel_run_listed sid k env s :
  let r := ShiftReminder.cancelShiftReminder sid k env s in
  listing_or_cancel_threw (events r) = false ->
  dismissed (events r) = false ->
  (exists msg,
      result r = Ok {| ShiftReminder.c_success := true;
                       ShiftReminder.c_message := msg |})
  /\ cancelled (events r)
     = map identifier
           (filter (ShiftReminder.carries_shiftId sid) (scheduled s))
  /\ scheduled (final r) = without (cancelled (events r)) (scheduled s).
Proof.
  cbv zeta. unfold ShiftReminder.cancelShiftReminder.
  open_world env s.
  destruct os; exec; repeat branch; through_loop;
    intros H D; settle; try congruence; finish.
Qed.

End Cancel.

(** C5, as the code has it.  Ending a check-in reminder, ending a
    transaction activity and cancelling a shift reminder return on every
    device and in every state, whatever the collaborators throw; so do
    two endings in a row.  A collaborator's failure leaves a warning or
    an error on the console.  For an identifier that has no live
    activity (and, for the cancellation, no pending notification) they
    leave the activities and the pending notifications as they are.
    The tray is another matter: the ending of a check-in reminder
    dismisses all notifications, so that once the provider has carried
    that out the tray is empty, whatever the identifier. *)
Theorem teardown_never_throws (env : Env) (s : State)
        (checkInId : string) (notificationId : option string)
        (activityId : string) (finalState : option LiveActivityState)
        (shiftId : string) (kind : ShiftReminder.Kind) :
  let end_check_in := CheckInReminder.endShiftReminder checkInId notificationId in
  let end_activity := TransactionActivity.endLiveActivity activityId finalState in
  let cancel := ShiftReminder.cancelShiftReminder shiftId kind in
  (result (end_check_in env s) = Ok tt
   /\ result (end_activity env s) = Ok tt
   /\ exists r, result (cancel env s) = Ok r)
  /\ result ((end_check_in ;; end_check_in) env s) = Ok tt
  /\ (failures_logged end_check_in env s
      /\ failures_logged cancel env s)
  /\ (~ In checkInId (activities s) ->
      activities (final (end_check_in env s)) = activities s
      /\ scheduled (final (end_check_in env s)) = scheduled s)
  /\ (tray_dismissed (events (end_check_in env s)) = true ->
      presented (final (end_check_in env s)) = [])
  /\ same_resources s (final (end_activity env s))
  /\ (~ In ("shift-" ++ ShiftReminder.Kind_text kind ++ "-" ++ shiftId)
           (activities s) ->
      filter (ShiftReminder.carries_shiftId shiftId) (scheduled s) = [] ->
      same_resources s (final (cancel env s))
      /\ cancelled (events (cancel env s)) = []).
Proof.
  cbv zeta. split; [|split; [|split; [|split; [|split; [|split]]]]].
  - split; [apply unit_result, check_in_end_never_throws|].
    split; [apply unit_result, end_activity_never_throws|].
    apply cancel_never_throws.
  - apply unit_result, bind_never_throws;
      intros; apply check_in_end_never_throws.
  - split; [apply check_in_end_logs|apply cancel_logs].
  - apply check_in_end_nothing_to_end.
  - apply check_in_end_clears_tray.
  - apply end_activity_changes_nothing.
  - apply cancel_nothing_to_cancel.
Qed.

Lemma teardown_never_throws_witness :
  same_resources boot
    (final (ShiftReminder.cancelShiftReminder "shift-42" ShiftReminder.k_start
              (device ios [quiet; failing "no such activity"; quiet]) boot))
  /\ cancelled
       (events (ShiftReminder.cancelShiftReminder "shift-42"
                  ShiftReminder.k_start
                  (device ios [quiet; failing "no such activity"; quiet])
                  boot)) = [].
Proof.
  apply (teardown_never_throws
           (device ios [quiet; failing "no such activity"; quiet]) boot
           "shift-42" None "shift-42" None "shift-42" ShiftReminder.k_start).
  - simpl. intros [].
  - reflexivity.
Defined.

(** C5 as stated does not hold: ending a check-in that holds nothing,
    no activity and no notification that names it, is no no-op.  The
    tray showed the reminders of two other check-ins and is empty
    afterwards. *)
Lemma ending_nothing_clears_the_tray :
  let r := CheckInReminder.endShiftReminder "shift-z" None
             (device android []) two_in_tray in
  ~ In "shift-z" (activities two_in_tray)
  /\ existsb (names_check_in "shift-z")
             (presented two_in_tray ++ scheduled two_in_tray) = false
  /\ result r = Ok tt
  /\ length (presented two_in_tray) = 2%nat
  /\ presented (final r) = [].
Proof. vm_compute. repeat split. intros []. Qed.

(** C9, as the code has it.  While the provider does not throw when
    listing or cancelling, a cancellation returns success.  If the
    activity module carried out a dismissal it cancels no notification;
    otherwise it cancels the pending notifications whose payload carries
    the shift identifier, and no other: with identifiers that name one
    notification each, exactly those are gone afterwards.  For a shift no
    pending notification carries, nothing is cancelled. *)
Theorem cancel_by_payload (env : Env) (s : State) (shiftId : string)
        (kind : ShiftReminder.Kind) :
  let r := ShiftReminder.cancelShiftReminder shiftId kind env s in
  let carrying :=
    filter (ShiftReminder.carries_shiftId shiftId) (scheduled s) in
  listing_or_cancel_threw (events r) = false ->
  (exists msg,
      result r = Ok {| ShiftReminder.c_success := true;
                       ShiftReminder.c_message := msg |})
  /\ cancelled (events r)
     = (if dismissed (events r) then [] else map identifier carrying)
  /\ scheduled (final r) = without (cancelled (events r)) (scheduled s)
  /\ (carrying = [] ->
      cancelled (events r) = [] /\ scheduled (final r) = scheduled s)
  /\ (dismissed (events r) = false ->
      NoDup (map identifier (scheduled s)) ->
      scheduled (final r)
      = filter (fun n => negb (ShiftReminder.carries_shiftId shiftId n))
               (scheduled s)).
Proof.
  cbv zeta. intros H.
  pose proof (cancel_run_dismissed shiftId kind env s) as RD.
  pose proof (cancel_run_listed shiftId kind env s H) as RL.
  cbv zeta in RD, RL.
  destruct (dismissed _) eqn:D.
  - destruct (RD eq_refl) as (R & C & S).
    rewrite C, without_nil.
    split; [eauto|]. split; [reflexivity|]. split; [exact S|].
    split; [auto | discriminate].
  - destruct (RL eq_refl) as (R & C & S).
    split; [exact R|]. split; [exact C|]. split; [exact S|]. split.
    + intros E. rewrite E in C. split; [exact C|].
      rewrite S, C. apply without_nil.
    + intros _ N. rewrite S, C. now apply without_selected.
Qed.

Lemma cancel_by_payload_witness :
  scheduled (final (ShiftReminder.cancelShiftReminder "shift-42"
                      ShiftReminder.k_start (device android []) two_pending))
  = [reminder_of "shiftId" "shift-43" "n-2"].
Proof.
  destruct (cancel_by_payload (device android []) two_pending "shift-42"
                              ShiftReminder.k_start)
    as (_ & _ & _ & _ & H).
  - vm_compute. reflexivity.
  - rewrite H.
    + vm_compute. reflexivity.
    + vm_compute. reflexivity.
    + vm_compute. repeat constructor; simpl; intuition discriminate.
Defined.

(** C9 as stated does not hold where the activity module is present: the
    dismissal returns, and the pending notification that carries the
    shift identifier is neither cancelled nor removed. *)
Lemma dismissal_skips_notifications :
  let r := ShiftReminder.cancelShiftReminder "shift-42" ShiftReminder.k_start
             (device ios []) two_pending in
  filter (ShiftReminder.carries_shiftId "shift-42") (scheduled two_pending)
  = [reminder_of "shiftId" "shift-42" "n-1"]
  /\ result r
     = Ok {| ShiftReminder.c_success := true;
             ShiftReminder.c_message :=
               "Shift reminder cancelled via Live Activity" |}
  /\ cancelled (events r) = []
  /\ scheduled (final r) = scheduled two_pending.
Proof. vm_compute. repeat split. Qed.

Section BroadDismiss.

(** The ending of a check-in reminder always finishes with a dismissal
    of all notifications, which takes no identifier. *)
Lemma check_in_end_dismisses_last c n env s :
  exists before outcome,
    events (CheckInReminder.endShiftReminder c n env s)
    = (before ++ [(DismissAllNotifications, outcome)])%list.
Proof.
  unfold CheckInReminder.endShiftReminder.
  open_world env s.
  destruct os; exec; try destruct la; exec; repeat branch;
    match goal with
    | |- exists b o, ?evs = _ =>
        match evs with
        | [?e1] => exists [], (snd e1)
        | [?e1; ?e2] => exists [e1], (snd e2)
        | [?e1; ?e2; ?e3] => exists [e1; e2], (snd e3)
        end
    end; reflexivity.
Qed.

Lemma check_in_end_keeps_pending c n env s :
  scheduled (final (CheckInReminder.endShiftReminder c n env s))
  = scheduled s.
Proof.
  unfold CheckInReminder.endShiftReminder.
  open_world env s.
  destruct os; exec; try destruct la; exec; repeat branch; reflexivity.
Qed.

End BroadDismiss.

(** C7, as the code has it.  What ending a check-in reminder does to
    the notifications, on every device: its last call is the dismissal
    of all notifications, which takes no identifier; once the provider
    has carried it out the tray is empty, whichever check-ins the
    notifications in it belonged to.  The notification identifier the
    caller passes plays no part, and pending notifications are left in
    place. *)
Theorem broad_dismiss_clears_tray (c : string) (n : option string)
        (env : Env) (s : State) :
  let r := CheckInReminder.endShiftReminder c n env s in
  (exists before outcome,
      events r = (before ++ [(DismissAllNotifications, outcome)])%list)
  /\ (tray_dismissed (events r) = true -> presented (final r) = [])
  /\ scheduled (final r) = scheduled s
  /\ (forall n', CheckInReminder.endShiftReminder c n' env s = r).
Proof.
  cbv zeta. split; [apply check_in_end_dismisses_last|].
  split; [apply check_in_end_clears_tray|].
  split; [apply check_in_end_keeps_pending|]. reflexivity.
Qed.

(** C7 as stated does not hold: the tray shows the reminders of two
    check-ins, the reminder of the first is ended, and the reminder of
    the second, whose payload names the second check-in, is gone from
    the tray with it. *)
Lemma end_dismisses_other_subjects :
  let other := reminder_of "checkInId" "shift-b" "n-2" in
  let r := CheckInReminder.endShiftReminder "shift-a" (Some "n-1")
             (device android []) two_in_tray in
  In other (presented two_in_tray)
  /\ (exists d, data (content other) = Some d
                /\ get_field "checkInId" d = Some (DStr "shift-b"))
  /\ result r = Ok tt
  /\ presented (final r) = [].
Proof.
  vm_compute. split; [auto|]. split; [eexists; split; reflexivity|].
  split; reflexivity.
Qed.

Section Update.


End Update.



Section ActiveReminders.

(** Where no callback throws, [filter_throwing] is [filter]. *)
Lemma filter_throwing_total {A} (p : A -> Result bool) (q : A -> bool) l :
  (forall x, In x l -> p x = Ok (q x)) ->
  filter_throwing p l = Ok (filter q l).
Proof.
  induction l as [|x l IH]; intros H; [reflexivity|].
  cbn [filter_throwing filter].
  rewrite (H x (or_introl eq_refl)), IH; [reflexivity|].
  intros y I. apply H. now right.
Qed.

End ActiveReminders.

(** C10.  [getActiveShiftReminders] returns on every device and in every
    state; the [total] it returns is the length of the [notifications] it
    returns; and when the provider's listing throws it returns no
    notifications and a total of 0. *)
Theorem active_reminders_total (env : Env) (s : State) :
  exists r,
    result (ShiftReminder.getActiveShiftReminders env s) = Ok r
    /\ ShiftReminder.total r
       = Z.of_nat (length (ShiftReminder.notifications r))
    /\ (existsb threw (events (ShiftReminder.getActiveShiftReminders env s))
        = true ->
        r = {| ShiftReminder.notifications := [];
               ShiftReminder.total := 0 |}).
Proof.
  unfold ShiftReminder.getActiveShiftReminders.
  open_world env s.
  repeat branch; eexists; (split; [reflexivity|]);
    (split; [reflexivity|]); intros H; settle; reflexivity.
Qed.

Lemma active_reminders_total_witness :
  exists r,
    result (ShiftReminder.getActiveShiftReminders
              (device android [failing "provider down"]) two_pending) = Ok r
    /\ r = {| ShiftReminder.notifications := []; ShiftReminder.total := 0 |}.
Proof.
  destruct (active_reminders_total (device android [failing "provider down"])
                                   two_pending) as (r & R & _ & E).
  exists r. split; [exact R|]. apply E. vm_compute. reflexivity.
Defined.

Example active_reminders_listed :
  result (ShiftReminder.getActiveShiftReminders (device android []) two_pending)
  = Ok {| ShiftReminder.notifications := scheduled two_pending;
          ShiftReminder.total := 2 |}.
Proof. vm_compute. reflexivity. Qed.

(* ===================================================================== *)
(** ** Further properties of the reminder files *)
(* ===================================================================== *)

Ltac exec' :=
  cbv beta iota zeta delta
    [bind try_catch ret throw lift ask get modify console_ Date_now external
     logged Math_random setTimeout no_effect show_unit import
     advance set_granted set_scheduled set_presented set_activities
     set_LiveActivity add_console remove_activity
     tick clock granted scheduled presented activities LiveActivity console
     platform runtime exports oracle result final events OS_eqb
     Notifications.setNotificationHandler
     Notifications.setNotificationChannelAsync
     Notifications.getPermissionsAsync Notifications.requestPermissionsAsync
     Notifications.scheduleNotificationAsync
     Notifications.cancelScheduledNotificationAsync
     Notifications.getAllScheduledNotificationsAsync
     Notifications.dismissAllNotificationsAsync
     CheckInReminder.startActivity CheckInReminder.endActivity
     CheckInReminder.load_LiveActivity
     ShiftReminder.startActivity ShiftReminder.updateActivity
     ShiftReminder.dismissActivity ShiftReminder.getActivityModule
     ShiftReminder.configureNotifications ShiftReminder.merged
     ShiftReminder.has ShiftReminder.content_state
     TransactionActivity.isLiveActivitySupported
     TransactionActivity.startNativeLiveActivity
     TransactionActivity.updateNativeLiveActivity
     TransactionActivity.endNativeLiveActivity
     start_events start_final started_notification start_failed
     started_activity same_resources failures_logged] in *;
  cbn [app In existsb flat_map filter length negb orb andb fst snd
       is_activity_start threw is_schedule activity_start_threw
       schedule_returned schedule_succeeded triggers cancelled
       is_list_or_cancel listing_or_cancel_threw dismissed
       is_activity_call activity_called start_returned is_module_start
       channels imports_returned prompt_answers native_updates
       is_native_call native_called configuration_threw
       activity_shown provider_threw permission_refused tray_dismissed
       module_updates] in *.

Ltac branch' :=
  match goal with
  | |- context [match fault (?o ?n) with Some _ => _ | None => _ end] =>
      let F := fresh "F" in destruct (fault (o n)) eqn:F
  | |- context [match toISOString ?t with Ok _ => _ | Throw _ => _ end] =>
      let T := fresh "T" in destruct (toISOString t) eqn:T
  | |- context [match TransactionActivity.probe ?r with
                | Ok _ => _ | Throw _ => _ end] =>
      let T := fresh "T" in
      destruct (TransactionActivity.probe r) as [[|]|] eqn:T
  | |- context [match filter_throwing ?p ?l with
                | Ok _ => _ | Throw _ => _ end] =>
      let T := fresh "T" in destruct (filter_throwing p l) eqn:T
  | |- context [if ?b then _ else _] =>
      let B := fresh "B" in destruct b eqn:B
  end; exec'.

Ltac open_world' env s :=
  destruct env as [os rt ex o];
  destruct s as [tk ck gr sch pr act la co];
  exec'.

Ltac finish' :=
  repeat match goal with
         | |- _ /\ _ => split
         | |- exists _, _ => eexists
         end; try reflexivity; try congruence.

Section ActivityPath.

Lemma shift_start_returned env s d aid :
  start_returned (events (ShiftReminder.startShiftReminder d env s)) aid
  = true ->
  started_activity (shift_service d) env s aid
  /\ triggers (events (ShiftReminder.startShiftReminder d env s)) = []
  /\ scheduled (final (ShiftReminder.startShiftReminder d env s))
     = scheduled s
  /\ presented (final (ShiftReminder.startShiftReminder d env s))
     = presented s.
Proof.
  unfold started_activity, ShiftReminder.startShiftReminder.
  open_world' env s.
  destruct os; exec'; repeat branch'; intros H; settle; finish'.
Qed.

Lemma check_in_start_returned env s c d aid :
  start_returned (events (CheckInReminder.startShiftReminder c d env s)) aid
  = true ->
  started_activity (check_in c d) env s aid
  /\ triggers (events (CheckInReminder.startShiftReminder c d env s)) = []
  /\ scheduled (final (CheckInReminder.startShiftReminder c d env s))
     = scheduled s
  /\ presented (final (CheckInReminder.startShiftReminder c d env s))
     = presented s.
Proof.
  unfold started_activity, CheckInReminder.startShiftReminder.
  open_world' env s.
  destruct os; exec'; try destruct la; exec'; repeat branch';
    intros H; settle; finish'.
Qed.

Lemma start_returned_app evs evs' aid :
  start_returned (evs ++ evs') aid
  = start_returned evs aid || start_returned evs' aid.
Proof. apply existsb_app. Qed.

Lemma send_retry_no_start env s p aid :
  start_returned
    (events (TransactionActivity.sendTransactionNotification p true env s))
    aid = false.
Proof.
  assert (forall s', start_returned
            (events (TransactionActivity.send_once p env s')) aid = false)
    as O.
  { intros s'. unfold TransactionActivity.send_once.
    open_world' env s'. repeat branch'; reflexivity. }
  rewrite send_retry_run.
  pose proof (O s) as O1.
  destruct (TransactionActivity.send_once p env s) as [[n|e] s1 ev1];
    cbn [events] in *; [exact O1|].
  match goal with
  | |- context [TransactionActivity.send_once p env ?s'] =>
      pose proof (O s') as O2;
      destruct (TransactionActivity.send_once p env s') as [[n|e2] s2 ev2]
  end; cbn [events] in *;
    rewrite start_returned_app, O1;
    change (start_returned ((SetTimeout 1000, Returned VUnit) :: ev2) aid)
      with (start_returned ev2 aid); exact O2.
Qed.

Lemma transaction_start_returned env s a x aid :
  start_returned (events (TransactionActivity.startLiveActivity a x env s))
                 aid = true ->
  started_activity (transaction_helper a x) env s aid
  /\ triggers (events (TransactionActivity.startLiveActivity a x env s)) = []
  /\ scheduled (final (TransactionActivity.startLiveActivity a x env s))
     = scheduled s
  /\ presented (final (TransactionActivity.startLiveActivity a x env s))
     = presented s.
Proof.
  unfold started_activity, TransactionActivity.startLiveActivity.
  open_world' env s.
  repeat branch';
    first
      [ match goal with
        | |- context [TransactionActivity.sendTransactionNotification
                        ?p true ?e ?s'] =>
            pose proof (send_retry_no_start e s' p aid) as R;
            destruct (TransactionActivity.sendTransactionNotification
                        p true e s') as [[n|err] s2 ev2]
        end; cbn [result final events] in *; exec';
        rewrite ?app_nil_r; intros H; unfold start_returned in *;
        settle; congruence
      | intros H; settle; finish' ].
Qed.

End ActivityPath.

(** When a start call of the activity layer returns, each starter reports
    a live activity and goes no further: it asks the notification
    provider for no schedule, and the pending and delivered notifications
    are as before. *)
Theorem activity_start_skips_notification (st : Starter) (env : Env)
        (s : State) (aid : string) :
  start_returned (start_events st env s) aid = true ->
  started_activity st env s aid
  /\ triggers (start_events st env s) = []
  /\ scheduled (start_final st env s) = scheduled s
  /\ presented (start_final st env s) = presented s.
Proof.
  destruct st; cbn [start_events start_final].
  - apply shift_start_returned.
  - apply transaction_start_returned.
  - apply check_in_start_returned.
Qed.

Lemma activity_start_skips_notification_witness :
  started_activity (shift_service shift42) (device ios []) boot "n-1"
  /\ triggers (start_events (shift_service shift42) (device ios []) boot) = []
  /\ scheduled (start_final (shift_service shift42) (device ios []) boot)
     = scheduled boot
  /\ presented (start_final (shift_service shift42) (device ios []) boot)
     = presented boot.
Proof.
  apply activity_start_skips_notification. vm_compute. reflexivity.
Defined.

Section OffIos.

(** The cancel loop calls nothing but the provider's cancellation. *)
Lemma cancel_loop_calls l : forall env s,
  Forall (fun ev => exists id, fst ev = CancelScheduledNotification id)
         (events (for_of l cancel_one env s)).
Proof.
  induction l as [|n l IH]; intros env s; [constructor|].
  cbn [for_of]. set (loop := for_of l cancel_one) in *.
  unfold bind, cancel_one, Notifications.cancelScheduledNotificationAsync,
    external.
  destruct (fault (oracle env (tick s))).
  - repeat constructor. now exists (identifier n).
  - match goal with
    | |- context [loop env ?s'] =>
        specialize (IH env s'); destruct (loop env s') as [[u|e] s2 ev2]
    end; cbn [events app] in *; constructor; try assumption;
      now exists (identifier n).
Qed.

Lemma cancel_loop_no_activity l env s :
  activity_called (events (for_of l cancel_one env s)) = false.
Proof.
  pose proof (cancel_loop_calls l env s) as F.
  induction F as [|ev evs [id E] _ IH]; [reflexivity|].
  unfold activity_called in *. cbn [existsb]. now rewrite E, IH.
Qed.

Ltac into_loop :=
  match goal with
  | |- context [for_of ?l ?f ?e ?s'] =>
      change (for_of l f e s') with (for_of l cancel_one e s');
      let L := fresh "L" in
      pose proof (cancel_loop_no_activity l e s') as L;
      destruct (for_of l cancel_one e s') as [[u|err] s2 ev2];
      cbn [events] in L
  end.

Lemma cancel_off_ios sid k env s :
  platform env <> ios ->
  activity_called (events (ShiftReminder.cancelShiftReminder sid k env s))
  = false.
Proof.
  unfold ShiftReminder.cancelShiftReminder.
  open_world' env s. intros P.
  destruct os; try congruence; exec'; repeat branch'; try into_loop;
    exec'; rewrite ?app_nil_r; unfold activity_called in *;
    try assumption; reflexivity.
Qed.

End OffIos.

(** Off iOS the shift service and the check-in reminder leave the
    activity modules alone: no import, no start, update, end or
    dismissal. *)
Theorem off_ios_no_activity_call (env : Env) (s : State)
        (d : ShiftReminder.ShiftActivityData) (kind : ShiftReminder.Kind)
        (checkInId : string) (shiftData : option CheckInReminder.ShiftData)
        (notificationId : option string) :
  platform env <> ios ->
  activity_called (events (ShiftReminder.startShiftReminder d env s)) = false
  /\ activity_called (events (ShiftReminder.endShiftReminder d env s)) = false
  /\ activity_called
       (events (ShiftReminder.cancelShiftReminder (ShiftReminder.shiftId d)
                                                  kind env s)) = false
  /\ activity_called
       (events (ShiftReminder.initializeLiveActivitySupport env s)) = false
  /\ activity_called
       (events (CheckInReminder.startShiftReminder checkInId shiftData env s))
     = false
  /\ activity_called
       (events (CheckInReminder.endShiftReminder checkInId notificationId
                                                 env s)) = false.
Proof.
  intros P.
  split; [|split; [|split; [now apply cancel_off_ios|]]].
  - revert P. unfold ShiftReminder.startShiftReminder.
    open_world' env s. intros P.
    destruct os; try congruence; exec'; repeat branch'; reflexivity.
  - revert P. unfold ShiftReminder.endShiftReminder.
    open_world' env s. intros P.
    destruct os; try congruence; exec'; repeat branch'; reflexivity.
  - split; [|split].
    + revert P. unfold ShiftReminder.initializeLiveActivitySupport.
      open_world' env s. intros P.
      destruct os; try congruence; exec'; repeat branch'; reflexivity.
    + revert P. unfold CheckInReminder.startShiftReminder.
      open_world' env s. intros P.
      destruct os; try congruence; exec'; repeat branch'; reflexivity.
    + revert P. unfold CheckInReminder.endShiftReminder.
      open_world' env s. intros P.
      destruct os; try congruence; exec'; repeat branch'; reflexivity.
Qed.

Lemma off_ios_no_activity_call_witness :
  activity_called
    (events (ShiftReminder.startShiftReminder shift42 (device android [])
                                              boot)) = false.
Proof.
  apply (off_ios_no_activity_call (device android []) boot shift42
           ShiftReminder.k_start "c" None None).
  discriminate.
Defined.

Section Configuration.

Lemma toISOString_out_of_range t :
  t < -8640000000000000 \/ 8640000000000000 < t ->
  toISOString t = Throw (JsError "Invalid time value").
Proof.
  intros H. unfold toISOString.
  destruct (-8640000000000000 <=? t) eqn:A;
    destruct (t <=? 8640000000000000) eqn:B; try reflexivity.
  apply Z.leb_le in A, B. lia.
Qed.

Lemma toISOString_in_range t :
  -8640000000000000 <= t <= 8640000000000000 ->
  toISOString t = Ok (Iso t).
Proof.
  intros [A B]. unfold toISOString.
  apply Z.leb_le in A, B. now rewrite A, B.
Qed.

(** A [try] whose body starts with a call that throws goes straight to
    its handler. *)
Lemma try_bind_throw {A B} (m : M A) (k : A -> M B) (h : Exn -> M B)
      env s e :
  result (m env s) = Throw e ->
  try_catch (bind m k) h env s
  = {| result := result (h e env (final (m env s)));
       final := final (h e env (final (m env s)));
       events := (events (m env s)
                    ++ events (h e env (final (m env s))))%list |}.
Proof.
  unfold try_catch, bind.
  destruct (m env s) as [[a|e'] s1 ev1]; cbn [result final events];
    intros H; [discriminate H|].
  injection H as ->.
  destruct (h e env s1) as [r s2 ev2]. reflexivity.
Qed.

Lemma configuration_keeps_resources config env s :
  same_resources s (final (ShiftReminder.configureNotifications config env s)).
Proof.
  open_world' env s.
  destruct os; exec'; repeat branch'; repeat split.
Qed.

End Configuration.

(** When the provider's configuration throws, the shift service makes
    no further call: it returns the failure with the error's message and
    leaves the device's reminders as they were. *)
Theorem configuration_failure_stops_reminder (k : Occasion)
        (d : ShiftReminder.ShiftActivityData) (env : Env) (s : State)
        (e : Exn) :
  result (ShiftReminder.configureNotifications None env s) = Throw e ->
  result (remind k d env s)
  = Ok (ShiftReminder.failure (occasion_prefix k) e)
  /\ events (remind k d env s)
     = events (ShiftReminder.configureNotifications None env s)
  /\ same_resources s (final (remind k d env s)).
Proof.
  intros H.
  pose proof (configuration_keeps_resources None env s) as K.
  destruct k; unfold remind, occasion_prefix;
    [unfold ShiftReminder.startShiftReminder
    |unfold ShiftReminder.endShiftReminder];
    rewrite (try_bind_throw _ _ _ env s e H);
    destruct (ShiftReminder.configureNotifications None env s)
      as [r s1 ev1];
    destruct s1; exec'; rewrite app_nil_r; repeat split; apply K.
Qed.

Lemma configuration_failure_stops_reminder_witness :
  result (remind shift_start shift42 (broken_provider android) boot)
  = Ok (ShiftReminder.failure "Failed to start shift reminder: "
          (JsError "no provider"))
  /\ events (remind shift_start shift42 (broken_provider android) boot)
     = events (ShiftReminder.configureNotifications None
                 (broken_provider android) boot)
  /\ same_resources boot
       (final (remind shift_start shift42 (broken_provider android) boot)).
Proof.
  apply (configuration_failure_stops_reminder shift_start shift42
           (broken_provider android) boot (JsError "no provider")).
  vm_compute. reflexivity.
Defined.

(** Starting and ending a shift reminder never throw.  A success names
    exactly one resource, an activity or a notification; a failure names
    none, and is reported only when a call to a collaborator threw. *)
Theorem reminder_result_is_coherent (k : Occasion)
        (d : ShiftReminder.ShiftActivityData) (env : Env) (s : State) :
  exists r,
    result (remind k d env s) = Ok r
    /\ resources_named r = Nat.b2n (ShiftReminder.success r)
    /\ (ShiftReminder.success r = false ->
        existsb threw (events (remind k d env s)) = true).
Proof.
  destruct k; unfold remind;
    [unfold ShiftReminder.startShiftReminder
    |unfold ShiftReminder.endShiftReminder];
    open_world' env s;
    repeat branch'; eexists;
      (split; [reflexivity|split; [reflexivity|]]);
      cbn; intros H; try discriminate H; reflexivity.
Qed.

(** A shift whose time is not a valid date never reaches the activity
    module: nothing is started or updated there, and the activities are
    as they were. *)
Theorem invalid_date_skips_activity (k : Occasion)
        (d : ShiftReminder.ShiftActivityData) (env : Env) (s : State) :
  due k d < -8640000000000000 \/ 8640000000000000 < due k d ->
  existsb is_module_display (events (remind k d env s)) = false
  /\ activities (final (remind k d env s)) = activities s.
Proof.
  intros H. apply toISOString_out_of_range in H.
  destruct k; unfold remind, due in *;
    [unfold ShiftReminder.startShiftReminder
    |unfold ShiftReminder.endShiftReminder];
    open_world' env s;
    repeat first [rewrite H; exec' | branch'];
    cbn [existsb is_module_display fst orb]; split; reflexivity.
Qed.

Lemma invalid_date_skips_activity_witness :
  existsb is_module_display
    (events (remind shift_start undated_shift (device ios []) boot)) = false
  /\ activities (final (remind shift_start undated_shift (device ios []) boot))
     = activities boot.
Proof.
  apply (invalid_date_skips_activity shift_start undated_shift
           (device ios []) boot).
  right. vm_compute. reflexivity.
Defined.

(** With a module that exports [updateActivity], ending a shift never
    starts an activity, and the activities are as they were.  On iOS,
    for an end time that is a valid date and while no call throws, it
    asks the module for one update, of the activity named after the
    shift, schedules no notification and reports that activity. *)
Theorem end_prefers_update (d : ShiftReminder.ShiftActivityData)
        (env : Env) (s : State) :
  exports_updateActivity (exports env "expo-activity") = true ->
  existsb is_module_start (events (ShiftReminder.endShiftReminder d env s))
  = false
  /\ activities (final (ShiftReminder.endShiftReminder d env s))
     = activities s
  /\ (platform env = ios ->
      -8640000000000000 <= ShiftReminder.endTime d <= 8640000000000000 ->
      existsb threw (events (ShiftReminder.endShiftReminder d env s))
      = false ->
      module_updates (events (ShiftReminder.endShiftReminder d env s))
      = ["shift-end-" ++ ShiftReminder.shiftId d]
      /\ triggers (events (ShiftReminder.endShiftReminder d env s)) = []
      /\ result (ShiftReminder.endShiftReminder d env s)
         = Ok {| ShiftReminder.success := true;
                 ShiftReminder.activityId :=
                   Some ("shift-end-" ++ ShiftReminder.shiftId d);
                 ShiftReminder.notificationId := None;
                 ShiftReminder.message :=
                   "Shift reminder updated via Live Activity" |}).
Proof.
  unfold ShiftReminder.endShiftReminder.
  open_world' env s. intros H.
  split; [|split].
  - repeat first [rewrite H; exec' | branch'];
      try (rewrite Bool.orb_true_r in *; discriminate); reflexivity.
  - repeat first [rewrite H; exec' | branch'];
      try (rewrite Bool.orb_true_r in *; discriminate); reflexivity.
  - intros -> V. apply toISOString_in_range in V. exec'.
    repeat first [rewrite H; exec' | rewrite V; exec' | branch'];
      intros N; try discriminate N;
      try (rewrite Bool.orb_true_r in *; discriminate);
      repeat split.
Qed.

Lemma end_prefers_update_witness :
  module_updates
    (events (ShiftReminder.endShiftReminder shift42 (device ios []) boot))
  = ["shift-end-shift-42"]
  /\ triggers
       (events (ShiftReminder.endShiftReminder shift42 (device ios []) boot))
     = []
  /\ result (ShiftReminder.endShiftReminder shift42 (device ios []) boot)
     = Ok {| ShiftReminder.success := true;
             ShiftReminder.activityId := Some "shift-end-shift-42";
             ShiftReminder.notificationId := None;
             ShiftReminder.message :=
               "Shift reminder updated via Live Activity" |}.
Proof.
  apply (end_prefers_update shift42 (device ios []) boot).
  - reflexivity.
  - reflexivity.
  - vm_compute. split; discriminate.
  - vm_compute. reflexivity.
Defined.

(** When the configuration returns, it has set up the two notification
    channels on Android, in this order, and none elsewhere. *)
Theorem channels_only_on_android
        (config : option ShiftReminder.NotificationConfig)
        (env : Env) (s : State) :
  result (ShiftReminder.configureNotifications config env s) = Ok tt ->
  channels (events (ShiftReminder.configureNotifications config env s))
  = if OS_eqb (platform env) android
    then ["shift-reminders"; "shift-alerts"] else [].
Proof.
  open_world' env s.
  destruct os; exec'; repeat branch'; intros H; try discriminate H;
    reflexivity.
Qed.

Lemma channels_only_on_android_witness :
  channels (events (ShiftReminder.configureNotifications None
                      (device android []) boot))
  = ["shift-reminders"; "shift-alerts"].
Proof.
  apply (channels_only_on_android None (device android []) boot).
  vm_compute. reflexivity.
Defined.

Section Sending.

Lemma prompt_answers_app evs evs' :
  prompt_answers (evs ++ evs')
  = (prompt_answers evs ++ prompt_answers evs')%list.
Proof. apply flat_map_app. Qed.

Lemma send_once_granted env s p :
  granted s = true ->
  prompt_answers (events (TransactionActivity.send_once p env s)) = []
  /\ granted (final (TransactionActivity.send_once p env s)) = true.
Proof.
  unfold TransactionActivity.send_once.
  open_world' env s. intros ->. exec'.
  repeat branch'; split; reflexivity.
Qed.

(** What a single attempt does when none of its calls throws: it
    returns, or the user has declined the one prompt and nothing was
    scheduled. *)
Lemma send_once_quiet env s p :
  existsb threw (events (TransactionActivity.send_once p env s)) = false ->
  (exists nid, result (TransactionActivity.send_once p env s) = Ok nid)
  \/ (result (TransactionActivity.send_once p env s)
      = Throw (NotificationError "Notification permissions not granted"
                                 "User denied notification permissions")
      /\ prompt_answers (events (TransactionActivity.send_once p env s))
         = [Returned (VBool false)]
      /\ triggers (events (TransactionActivity.send_once p env s)) = []
      /\ same_resources s (final (TransactionActivity.send_once p env s))).
Proof.
  unfold TransactionActivity.send_once.
  open_world' env s.
  repeat branch'; intros H; try discriminate H;
    try (left; eexists; reflexivity).
  right. apply negb_true_iff in B0. rewrite B0. repeat split.
Qed.

Lemma threw_app evs evs' :
  existsb threw (evs ++ evs') = existsb threw evs || existsb threw evs'.
Proof. apply existsb_app. Qed.

End Sending.

(** A permission that is already granted is never asked for again,
    on the first attempt or on the retry. *)
Theorem granted_is_never_prompted
        (p : TransactionActivity.NotificationPayload) (retry : bool)
        (env : Env) (s : State) :
  granted s = true ->
  prompt_answers
    (events (TransactionActivity.sendTransactionNotification p retry env s))
  = [].
Proof.
  intros G. destruct retry.
  - rewrite send_retry_run.
    destruct (send_once_granted env s p G) as [P1 G1].
    destruct (TransactionActivity.send_once p env s) as [[n|e] s1 ev1];
      cbn [events final] in *; [exact P1|].
    match goal with
    | |- context [TransactionActivity.send_once p env ?s'] =>
        assert (G2 : granted s' = true) by (destruct s1; exact G1);
        destruct (send_once_granted env s' p G2) as [P2 _];
        destruct (TransactionActivity.send_once p env s')
          as [[n|e2] s2 ev2]
    end; cbn [events] in *; rewrite prompt_answers_app, P1;
      cbn [prompt_answers flat_map fst app]; exact P2.
  - rewrite TransactionActivity.sendTransactionNotification_equation_2.
    destruct (send_once_granted env s p G) as [P1 _].
    unfold try_catch, TransactionActivity.wrap_and_throw.
    destruct (TransactionActivity.send_once p env s) as [[n|e] s1 ev1];
      cbn [events] in *; [exact P1|].
    exec'. rewrite app_nil_r. exact P1.
Qed.

Lemma granted_is_never_prompted_witness :
  prompt_answers
    (events (TransactionActivity.sendTransactionNotification alert true
               (device android [quiet; failing "busy"]) boot))
  = [].
Proof.
  apply (granted_is_never_prompted alert true
           (device android [quiet; failing "busy"]) boot).
  reflexivity.
Defined.

(** When none of its calls throws, a send with retry fails only if the
    user declines the prompt on both attempts: it then throws the
    notification error, and nothing has been scheduled. *)
Theorem send_fails_only_on_denial
        (p : TransactionActivity.NotificationPayload)
        (env : Env) (s : State) :
  let r := TransactionActivity.sendTransactionNotification p true env s in
  existsb threw (events r) = false ->
  (exists nid, result r = Ok nid)
  \/ (result r = Throw denial
      /\ prompt_answers (events r)
         = [Returned (VBool false); Returned (VBool false)]
      /\ triggers (events r) = []
      /\ same_resources s (final r)).
Proof.
  cbv zeta. rewrite send_retry_run.
  pose proof (send_once_quiet env s p) as Q1.
  destruct (TransactionActivity.send_once p env s) as [[n|e] s1 ev1];
    cbn [result final events] in *; [left; now exists n|].
  match goal with
  | |- context [TransactionActivity.send_once p env ?s'] =>
      pose proof (send_once_quiet env s' p) as Q2;
      destruct (TransactionActivity.send_once p env s') as [[n|e2] s2 ev2]
  end; cbn [result final events] in *; [left; now exists n|].
  rewrite threw_app. intros H. apply orb_false_iff in H.
  destruct H as [H1 H2]. cbn [existsb threw snd orb] in H2.
  destruct (Q1 H1) as [[n E]|(E1 & P1 & T1 & R1)]; [discriminate E|].
  destruct (Q2 H2) as [[n E]|(E2 & P2 & T2 & R2)]; [discriminate E|].
  right. injection E2 as ->.
  rewrite prompt_answers_app, triggers_app, P1, T1.
  change (prompt_answers ((SetTimeout 1000, Returned VUnit) :: ev2))
    with (prompt_answers ev2).
  change (triggers ((SetTimeout 1000, Returned VUnit) :: ev2))
    with (triggers ev2).
  rewrite P2, T2.
  split; [reflexivity|]. split; [reflexivity|]. split; [reflexivity|].
  destruct s, s1, s2. unfold same_resources in *.
  cbn in *. intuition congruence.
Qed.

Lemma send_fails_only_on_denial_witness :
  let r := TransactionActivity.sendTransactionNotification alert true
             (device android [quiet; refusing; quiet; quiet; refusing])
             not_granted in
  (exists nid, result r = Ok nid)
  \/ (result r = Throw denial
      /\ prompt_answers (events r)
         = [Returned (VBool false); Returned (VBool false)]
      /\ triggers (events r) = []
      /\ same_resources not_granted (final r)).
Proof.
  apply send_fails_only_on_denial. vm_compute. reflexivity.
Defined.

Section Native.

Lemma native_called_app evs evs' :
  native_called (evs ++ evs') = native_called evs || native_called evs'.
Proof. apply existsb_app. Qed.

Lemma native_updates_app evs evs' :
  native_updates (evs ++ evs')
  = (native_updates evs ++ native_updates evs')%list.
Proof. apply flat_map_app. Qed.

Lemma send_once_no_native env s p :
  native_called (events (TransactionActivity.send_once p env s)) = false.
Proof.
  unfold TransactionActivity.send_once.
  open_world' env s. repeat branch'; reflexivity.
Qed.

Lemma send_retry_no_native env s p :
  native_called
    (events (TransactionActivity.sendTransactionNotification p true env s))
  = false.
Proof.
  rewrite send_retry_run.
  pose proof (send_once_no_native env s p) as N1.
  destruct (TransactionActivity.send_once p env s) as [[n|e] s1 ev1];
    cbn [events] in *; [exact N1|].
  match goal with
  | |- context [TransactionActivity.send_once p env ?s'] =>
      pose proof (send_once_no_native env s' p) as N2;
      destruct (TransactionActivity.send_once p env s') as [[n|e2] s2 ev2]
  end; cbn [events] in *; rewrite native_called_app, N1;
    exact N2.
Qed.

Lemma start_follows_probe a x env s :
  native_called (events (TransactionActivity.startLiveActivity a x env s))
  = supports (runtime env).
Proof.
  unfold TransactionActivity.startLiveActivity, supports.
  open_world' env s.
  repeat branch';
    match goal with
    | |- context [TransactionActivity.sendTransactionNotification ?p true
                    ?e ?s'] =>
        pose proof (send_retry_no_native e s' p) as N;
        destruct (TransactionActivity.sendTransactionNotification p true
                    e s') as [[n|err] s2 ev2]
    | _ => idtac
    end; exec'; rewrite ?app_nil_r; try assumption; try reflexivity.
Qed.

Lemma update_one_run u env s :
  result (update_one u env s) = Ok tt
  /\ native_updates (events (update_one u env s))
     = if supports (runtime env) then [u] else [].
Proof.
  destruct u as [a x].
  unfold update_one, TransactionActivity.updateLiveActivity, supports.
  open_world' env s. repeat branch'; split; reflexivity.
Qed.

Lemma update_loop updates : forall env s,
  result (for_of updates update_one env s) = Ok tt
  /\ native_updates (events (for_of updates update_one env s))
     = if supports (runtime env) then updates else [].
Proof.
  induction updates as [|u updates IH]; intros env s.
  - cbn. split; [reflexivity|]. now destruct (supports (runtime env)).
  - cbn [for_of]. unfold bind.
    destruct (update_one_run u env s) as [R1 N1].
    destruct (update_one u env s) as [[[]|e] s1 ev1];
      cbn [result events] in *; [|discriminate R1].
    destruct (IH env s1) as [R2 N2].
    destruct (for_of updates update_one env s1) as [r2 s2 ev2].
    cbn [result events] in *. split; [exact R2|].
    rewrite native_updates_app, N1, N2.
    now destruct (supports (runtime env)).
Qed.

End Native.

(** The native layer is called exactly when the probe reports support:
    starting, updating and ending an activity make a native call on a
    supported device and none elsewhere. *)
Theorem native_layer_follows_probe (env : Env) (s : State)
        (attributes : LiveActivityAttributes) (state : LiveActivityState)
        (activityId : string) (finalState : option LiveActivityState) :
  native_called
    (events (TransactionActivity.startLiveActivity attributes state env s))
  = supports (runtime env)
  /\ native_called
       (events (TransactionActivity.updateLiveActivity activityId state
                  env s))
     = supports (runtime env)
  /\ native_called
       (events (TransactionActivity.endLiveActivity activityId finalState
                  env s))
     = supports (runtime env).
Proof.
  split; [apply start_follows_probe|].
  unfold TransactionActivity.updateLiveActivity,
    TransactionActivity.endLiveActivity, supports.
  open_world' env s. split; repeat branch'; reflexivity.
Qed.

(** A batch of updates never throws, and a failed update does not stop
    the others: on a supported device every update of the list is
    handed to the native layer, in the order of the list; elsewhere
    none is. *)
Theorem batch_attempts_every_update
        (updates : list (string * LiveActivityState))
        (env : Env) (s : State) :
  result (TransactionActivity.batchUpdateLiveActivities updates env s)
  = Ok tt
  /\ native_updates
       (events (TransactionActivity.batchUpdateLiveActivities updates env s))
     = if supports (runtime env) then updates else [].
Proof.
  unfold TransactionActivity.batchUpdateLiveActivities.
  change (for_of updates _) with (for_of updates update_one).
  unfold try_catch.
  destruct (update_loop updates env s) as [R N].
  destruct (for_of updates update_one env s) as [[[]|e] s1 ev1];
    cbn [result events] in *; [|discriminate R].
  split; [reflexivity|exact N].
Qed.

Section Session.

Lemma imports_returned_app evs evs' :
  imports_returned (evs ++ evs')
  = (imports_returned evs ++ imports_returned evs')%list.
Proof. apply flat_map_app. Qed.

(** One call of the check-in reminder imports the module at most once,
    and not at all once the module is held; a module that is held stays
    held. *)
Lemma call_imports c env s :
  match LiveActivity s with
  | Some m =>
      imports_returned (call_events c env s) = []
      /\ LiveActivity (call_final c env s) = Some m
  | None =>
      (imports_returned (call_events c env s) = []
       /\ LiveActivity (call_final c env s) = None)
      \/ (imports_returned (call_events c env s) = ["expo-live-activity"]
          /\ LiveActivity (call_final c env s) <> None)
  end.
Proof.
  destruct c; unfold call_events, call_final;
    [unfold CheckInReminder.startShiftReminder
    |unfold CheckInReminder.endShiftReminder];
    open_world' env s; destruct la; destruct os; exec';
      repeat branch';
      first [split; reflexivity
            |left; split; reflexivity
            |right; split; [reflexivity|discriminate]].
Qed.

End Session.

(** Over any sequence of starts and ends of check-in reminders the
    activity module is imported successfully at most once, and never
    when it is already held. *)
Theorem activity_module_is_imported_once (calls : list CheckInCall)
        (env : Env) (s : State) :
  (length (imports_returned (session calls env s))
   <= match LiveActivity s with Some _ => 0 | None => 1 end)%nat.
Proof.
  revert s. induction calls as [|c calls IH]; intros s.
  - cbn. destruct (LiveActivity s); lia.
  - cbn [session]. rewrite imports_returned_app, length_app.
    pose proof (call_imports c env s) as C.
    specialize (IH (call_final c env s)).
    destruct (LiveActivity s).
    + destruct C as [-> E]. rewrite E in IH. cbn [length]. lia.
    + destruct C as [[-> E]|[-> E]].
      * rewrite E in IH. cbn [length]. lia.
      * destruct (LiveActivity (call_final c env s)); [|congruence].
        cbn [length]. lia.
Qed.

Section Typed.

Lemma filter_typed l :
  filter_throwing ShiftReminder.type_includes_shift l
  = if forallb well_typed l then Ok (filter shift_typed l)
    else Throw (JsError
                  "notif.content.data?.type?.includes is not a function").
Proof.
  induction l as [|n l IH]; [reflexivity|].
  cbn [filter_throwing forallb filter]. unfold well_typed at 1, shift_typed at 1.
  rewrite IH.
  unfold ShiftReminder.type_includes_shift.
  destruct (data (content n)) as [d|]; cbn [andb].
  - destruct (get_field "type" d) as [[t|z|]|]; cbn [andb];
      destruct (forallb well_typed l); reflexivity.
  - destruct (forallb well_typed l); reflexivity.
Qed.

End Typed.

(** When the listing returns, the active reminders are the pending
    notifications whose [type] contains the word shift, provided every
    pending notification has a [type] that is a string or is missing;
    a single pending notification with another kind of [type] makes the
    answer empty. *)
Theorem active_reminders_are_shift_typed (env : Env) (s : State) :
  existsb threw (events (ShiftReminder.getActiveShiftReminders env s))
  = false ->
  let found := if forallb well_typed (scheduled s)
               then filter shift_typed (scheduled s) else [] in
  result (ShiftReminder.getActiveShiftReminders env s)
  = Ok {| ShiftReminder.notifications := found;
          ShiftReminder.total := Z.of_nat (length found) |}.
Proof.
  cbv zeta. unfold ShiftReminder.getActiveShiftReminders.
  open_world' env s.
  branch'; [intros H; discriminate H|]. intros _.
  rewrite filter_typed.
  destruct (forallb well_typed sch); reflexivity.
Qed.

Lemma active_reminders_are_shift_typed_witness :
  result (ShiftReminder.getActiveShiftReminders (device android [])
            (with_pending [reminder_of "shiftId" "shift-42" "n-1";
                           odd_reminder]))
  = Ok {| ShiftReminder.notifications := []; ShiftReminder.total := 0 |}.
Proof.
  apply (active_reminders_are_shift_typed (device android [])
           (with_pending [reminder_of "shiftId" "shift-42" "n-1";
                          odd_reminder])).
  vm_compute. reflexivity.
Defined.

(** The support report never throws.  It reports live activities as
    supported only on iOS with a module that exports [startActivity],
    and when the configuration of the notifications throws it reports
    neither as supported. *)
Theorem support_report_is_sound (env : Env) (s : State) :
  exists r,
    result (ShiftReminder.initializeLiveActivitySupport env s) = Ok r
    /\ (ShiftReminder.liveActivitySupported r = true ->
        platform env = ios
        /\ exports_startActivity (exports env "expo-activity") = true)
    /\ (configuration_threw
          (events (ShiftReminder.initializeLiveActivitySupport env s))
        = true ->
        ShiftReminder.liveActivitySupported r = false
        /\ ShiftReminder.notificationsSupported r = false).
Proof.
  unfold ShiftReminder.initializeLiveActivitySupport.
  open_world' env s.
  destruct os; exec'; repeat branch'; eexists;
    (split; [reflexivity|]);
    cbn [ShiftReminder.liveActivitySupported
         ShiftReminder.notificationsSupported];
    (split; intros H;
     first [discriminate H
           |split; [reflexivity|assumption]
           |split; reflexivity]).
Qed.

Section RoundTrip.

Lemma NoDup_snoc {A} (x : A) l : NoDup (x :: l) -> NoDup (l ++ [x]).
Proof.
  induction l as [|a l IH]; intros D; [exact D|].
  inversion D as [|? ? Nx D']; subst.
  inversion D' as [|? ? Na D'']; subst.
  cbn [app]. constructor.
  - intros I. apply in_app_or in I. destruct I as [I|[->|[]]].
    + now apply Na.
    + apply Nx. now left.
  - apply IH. constructor; [|exact D''].
    intros I. apply Nx. now right.
Qed.

Lemma dismissed_is_activity_call evs :
  activity_called evs = false -> dismissed evs = false.
Proof.
  unfold activity_called, dismissed.
  induction evs as [|[c o] evs IH]; [reflexivity|].
  cbn [existsb fst]. intros H. apply orb_false_iff in H.
  destruct H as [H1 H2]. rewrite (IH H2).
  destruct c; try discriminate H1; destruct o; reflexivity.
Qed.

(** Off iOS a start whose schedule call returned [nid] has added one
    pending notification, called [nid], that carries the shift. *)
Lemma start_off_ios_schedules d env s nid :
  platform env <> ios ->
  schedule_returned (events (ShiftReminder.startShiftReminder d env s)) nid
  = true ->
  exists n,
    scheduled (final (ShiftReminder.startShiftReminder d env s))
    = (scheduled s ++ [n])%list
    /\ identifier n = nid
    /\ ShiftReminder.carries_shiftId (ShiftReminder.shiftId d) n = true.
Proof.
  unfold ShiftReminder.startShiftReminder.
  open_world' env s. intros P.
  destruct os; try congruence; exec'; repeat branch'; intros H; settle;
    try discriminate;
    (eexists; split; [reflexivity|split; [reflexivity|]]);
    unfold ShiftReminder.carries_shiftId; cbn;
    apply String.eqb_refl.
Qed.

End RoundTrip.

(** Off iOS, cancelling a shift after starting its reminder removes the
    reminder again: the pending notifications are those there were
    before the start, less the ones that already carried the shift. *)
Theorem start_then_cancel_round_trip
        (d : ShiftReminder.ShiftActivityData) (kind : ShiftReminder.Kind)
        (env : Env) (s : State) (nid : string) :
  let r1 := ShiftReminder.startShiftReminder d env s in
  let r2 := ShiftReminder.cancelShiftReminder (ShiftReminder.shiftId d) kind
              env (final r1) in
  platform env <> ios ->
  schedule_returned (events r1) nid = true ->
  listing_or_cancel_threw (events r2) = false ->
  NoDup (nid :: map identifier (scheduled s)) ->
  scheduled (final r2)
  = filter (fun n => negb (ShiftReminder.carries_shiftId
                             (ShiftReminder.shiftId d) n))
           (scheduled s).
Proof.
  cbv zeta. intros P SR LT ND.
  destruct (start_off_ios_schedules d env s nid P SR) as (n & S1 & I & C).
  pose proof (cancel_run_listed (ShiftReminder.shiftId d) kind env
                (final (ShiftReminder.startShiftReminder d env s))) as CR.
  cbv zeta in CR.
  specialize (CR LT (dismissed_is_activity_call _
                       (cancel_off_ios _ kind env _ P))).
  destruct CR as (_ & Cn & Sc).
  rewrite Sc, Cn, S1, without_selected.
  - rewrite filter_app. cbn [filter]. rewrite C. cbn [negb].
    apply app_nil_r.
  - rewrite map_app. cbn [map]. rewrite I. now apply NoDup_snoc.
Qed.

Lemma start_then_cancel_round_trip_witness :
  scheduled
    (final (ShiftReminder.cancelShiftReminder "shift-42" ShiftReminder.k_start
              (device android [])
              (final (ShiftReminder.startShiftReminder shift42
                        (device android [])
                        (with_pending
                           [reminder_of "shiftId" "shift-43" "n-2"])))))
  = [reminder_of "shiftId" "shift-43" "n-2"].
Proof.
  apply (start_then_cancel_round_trip shift42 ShiftReminder.k_start
           (device android [])
           (with_pending [reminder_of "shiftId" "shift-43" "n-2"]) "n-1").
  - discriminate.
  - vm_compute. reflexivity.
  - vm_compute. reflexivity.
  - repeat constructor; cbn; intuition discriminate.
Defined.

Ltac run_storage :=
  cbv beta iota zeta delta
    [History.saveCheckIn History.getHistory History.markCheckInComplete
     History.getActiveShift History.setActiveShift History.clearHistory
     History.try_catch History.bind History.ret History.throw History.lift
     History.console_ History.parse_or History.unshift History.JSON_parse
     History.JSON_stringify History.storage_call History.called
     History.write History.AsyncStorage.getItem
     History.AsyncStorage.setItem History.AsyncStorage.removeItem
     History.cells History.calls History.printed
     History.HISTORY_KEY History.ACTIVE_SHIFT_KEY
     stored_history stored_shift unreadable fst snd option_map] in *;
  cbn [String.eqb Ascii.eqb Bool.eqb andb] in *.

Ltac open_storage st :=
  destruct st as [c n pr]; run_storage.

Ltac storage_case :=
  match goal with
  | |- context [match ?f ?k with Some _ => _ | None => _ end] =>
      is_var f; let F := fresh "F" in destruct (f k) as [?|] eqn:F
  | |- context [match ?t with
                | History.Encoded _ => _
                | History.Blank => _
                | History.Unparseable _ => _
                end] =>
      destruct t as [[?|?| |?]| |?]
  end; run_storage.

Section Storage.

Lemma findIndex_found {A} (p : A -> bool) l :
  (0 <=? History.findIndex p l) = existsb p l.
Proof.
  induction l as [|x l IH]; [reflexivity|].
  cbn [History.findIndex existsb]. destruct (p x); [reflexivity|].
  cbn [orb]. rewrite <- IH. cbv zeta.
  destruct (History.findIndex p l <? 0) eqn:N.
  - apply Z.ltb_lt in N. symmetry. apply Z.leb_gt. exact N.
  - apply Z.ltb_ge in N. transitivity true.
    + apply Z.leb_le. lia.
    + symmetry. apply Z.leb_le. exact N.
Qed.

Lemma assign_first {A} (p : A -> bool) (g : A -> A) l :
  existsb p l = true ->
  History.assign_at (Z.to_nat (History.findIndex p l)) g l
  = mark_first p g l.
Proof.
  induction l as [|x l IH]; [discriminate|].
  cbn [History.findIndex existsb mark_first]. destruct (p x).
  - reflexivity.
  - cbn [orb]. intros E. cbv zeta.
    pose proof (findIndex_found p l) as F. rewrite E in F.
    apply Z.leb_le in F.
    destruct (History.findIndex p l <? 0) eqn:N;
      [apply Z.ltb_lt in N; lia|].
    rewrite Z2Nat.inj_add by lia.
    replace (Z.to_nat (History.findIndex p l) + Z.to_nat 1)%nat
      with (S (Z.to_nat (History.findIndex p l))) by lia.
    cbn [History.assign_at]. now rewrite IH.
Qed.

End Storage.



(** When the history cannot be read, because the read throws or the
    stored text is not JSON, a save that returns has replaced it by a
    history of the one new entry. *)
Theorem unreadable_history_is_overwritten (entry : History.CheckInHistory)
        (f : History.Faults) (st : History.Storage) :
  unreadable f st = true ->
  fst (History.saveCheckIn entry f st) = Ok tt ->
  stored_history (snd (History.saveCheckIn entry f st))
  = Some (History.Encoded (History.JList [entry])).
Proof.
  open_storage st.
  repeat storage_case; intros U H; try discriminate U; try discriminate H;
    reflexivity.
Qed.

Lemma unreadable_history_is_overwritten_witness :
  stored_history
    (snd (History.saveCheckIn (visit "c-2") reliable
            (holding (Some (History.Unparseable "[{")))))
  = Some (History.Encoded (History.JList [visit "c-2"])).
Proof.
  apply (unreadable_history_is_overwritten (visit "c-2") reliable
           (holding (Some (History.Unparseable "[{")))).
  - reflexivity.
  - reflexivity.
Defined.

(** Completing a check-in rewrites the first entry with that identifier
    and no other: it is marked completed with the receipt, and keeps its
    amount and notes where none are given.  For an identifier the
    history does not have, nothing is written. *)
Theorem mark_complete_marks_first_match
        (id0 receipt : string) (amount' : option Z) (notes' : option string)
        (l : list History.CheckInHistory)
        (f : History.Faults) (st : History.Storage) :
  let r := History.markCheckInComplete id0 receipt amount' notes' f st in
  stored_history st = Some (History.Encoded (History.JList l)) ->
  f (History.calls st) = None ->
  fst r = Ok tt ->
  stored_history (snd r)
  = Some (History.Encoded
            (History.JList
               (mark_first (has_id id0)
                           (History.complete receipt amount' notes') l)))
  /\ History.calls (snd r)
     = (History.calls st + if existsb (has_id id0) l then 2 else 1)%nat.
Proof.
  cbv zeta. open_storage st. intros St F. rewrite F, St. run_storage.
  change (fun e => String.eqb (History.id e) id0) with (has_id id0).
  rewrite findIndex_found.
  destruct (existsb (has_id id0) l) eqn:E.
  - rewrite (assign_first _ _ _ E).
    destruct (f (S n)); run_storage; intros H; [discriminate H|].
    split; [reflexivity|lia].
  - intros _. run_storage. rewrite St. split; [|lia].
    do 3 f_equal. clear St. induction l as [|x l IH]; [reflexivity|].
    cbn [existsb mark_first] in *. apply orb_false_iff in E.
    destruct E as [-> E]. now rewrite <- IH.
Qed.

Lemma mark_complete_marks_first_match_witness :
  let r := History.markCheckInComplete "c-1" "file:///r.jpg" None None
             reliable
             (holding (Some (History.Encoded
                               (History.JList [visit "c-2"; visit "c-1"])))) in
  stored_history (snd r)
  = Some (History.Encoded
            (History.JList
               (mark_first (has_id "c-1")
                  (History.complete "file:///r.jpg" None None)
                  [visit "c-2"; visit "c-1"])))
  /\ History.calls (snd r)
     = (0 + if existsb (has_id "c-1") [visit "c-2"; visit "c-1"]
            then 2 else 1)%nat.
Proof.
  apply (mark_complete_marks_first_match "c-1" "file:///r.jpg" None None
           [visit "c-2"; visit "c-1"] reliable).
  - reflexivity.
  - reflexivity.
  - reflexivity.
Defined.



(** The history and the active shift are kept apart: saving, completing
    and clearing check-ins leave the stored active shift as it was, and
    setting the active shift leaves the stored history as it was. *)
Theorem history_and_shift_are_separate
        (entry : History.CheckInHistory) (id0 receipt : string)
        (amount' : option Z) (notes' : option string)
        (shift : option History.CheckInHistory)
        (f : History.Faults) (st : History.Storage) :
  stored_shift (snd (History.saveCheckIn entry f st)) = stored_shift st
  /\ stored_shift
       (snd (History.markCheckInComplete id0 receipt amount' notes' f st))
     = stored_shift st
  /\ stored_shift (snd (History.clearHistory f st)) = stored_shift st
  /\ stored_history (snd (History.setActiveShift shift f st))
     = stored_history st.
Proof.
  open_storage st.
  split; [repeat storage_case; reflexivity|].
  split; [|split; [repeat storage_case; reflexivity
                  |destruct shift; run_storage;
                   repeat storage_case; reflexivity]].
  repeat storage_case; try reflexivity;
    match goal with
    | |- context [if ?b then _ else _] => destruct b
    end; run_storage; repeat storage_case; reflexivity.
Qed.

(** After a clearing that returns, the history read next is empty,
    whether that read goes through or not. *)
Theorem clear_then_read (f : History.Faults) (st : History.Storage) :
  fst (History.clearHistory f st) = Ok tt ->
  fst (History.getHistory f (snd (History.clearHistory f st)))
  = Ok (History.JList []).
Proof.
  open_storage st.
  repeat storage_case; intros H; try discriminate H; reflexivity.
Qed.

Lemma clear_then_read_witness :
  fst (History.getHistory reliable
         (snd (History.clearHistory reliable
                 (holding (Some (History.Encoded
                                   (History.JList [visit "c-1"])))))))
  = Ok (History.JList []).
Proof.
  apply (clear_then_read reliable
           (holding (Some (History.Encoded (History.JList [visit "c-1"]))))).
  reflexivity.
Defined.

(** Requesting all permissions never throws.  It answers true exactly
    when every permission the platform needs was answered GRANTED, so
    true without asking on a platform that needs none; it asks for the
    notifications even when the camera was declined, and stops only
    when the camera request throws. *)
Theorem permissions_granted_iff_all (os : OS) (rq : Permissions.Requests) :
  Permissions.value (Permissions.requestAllPermissions os rq)
  = Ok (forallb (answered_GRANTED rq) (needed os))
  /\ Permissions.requested (Permissions.requestAllPermissions os rq)
     = match needed os with
       | camera :: _ =>
           if request_threw rq camera then [camera] else needed os
       | [] => []
       end.
Proof.
  unfold Permissions.requestAllPermissions,
    Permissions.requestAndroidPermissions,
    Permissions.requestIOSPermissions, Permissions.try_catch,
    Permissions.bind, Permissions.request, Permissions.ret,
    Permissions.console_error, answered_GRANTED, request_threw.
  destruct os; cbn [OS_eqb needed forallb];
    repeat match goal with
           | |- context [rq ?p] => destruct (rq p) as [[]|]
           end; split; reflexivity.
Qed.

(** The browser's request agrees with the browser's check: it answers
    granted exactly when the permission is granted afterwards.  It
    shows a prompt only for a permission that is still undecided; a
    granted or a denied permission is answered as it stands. *)
Theorem web_request_agrees_with_check (w : WebPermissions.Window) :
  let r := WebPermissions.requestNotificationPermission w in
  (match WebPermissions.value r with
   | WebPermissions.p_granted => true
   | _ => false
   end
   = WebPermissions.isNotificationPermissionGranted
       (WebPermissions.window r))
  /\ match WebPermissions.Notification w with
     | Some WebPermissions.p_default => WebPermissions.prompts r = 1%nat
     | Some p =>
         WebPermissions.prompts r = 0%nat /\ WebPermissions.value r = p
         /\ WebPermissions.window r = w
     | None =>
         WebPermissions.prompts r = 0%nat
         /\ WebPermissions.value r = WebPermissions.p_denied
         /\ WebPermissions.window r = w
     end.
Proof.
  destruct w as [[[| |]|] [[| |]|e]]; repeat split.
Qed.

(** The check-in reminder's permission request never throws, and
    answers true only when the permission is granted afterwards; when
    the provider's call does not throw, its answer is the permission
    afterwards. *)
Theorem check_in_permission_request (env : Env) (s : State) :
  let r := CheckInReminder.requestNotificationPermissions env s in
  exists b,
    result r = Ok b
    /\ (b = true -> granted (final r) = true)
    /\ (existsb threw (events r) = false -> b = granted (final r)).
Proof.
  cbv zeta. unfold CheckInReminder.requestNotificationPermissions.
  open_world' env s. repeat branch'; eexists;
    (split; [reflexivity
            |split; intros H; first [discriminate H|exact H|reflexivity]]).
Qed.

(** *** Concrete runs *)

(** The updates of a batch reach the native layer in the order of the
    list. *)
Example batch_updates_in_order :
  let r := TransactionActivity.batchUpdateLiveActivities two_updates
             (device ios []) boot in
  result r = Ok tt
  /\ events r
     = [(UpdateNative "activity_1" incoming, Returned VUnit);
        (UpdateNative "activity_2" incoming, Returned VUnit)].
Proof. vm_compute. split; reflexivity. Qed.

(** Without a window the transaction is announced by a notification. *)
Example headless_start_is_a_notification :
  let r := TransactionActivity.startLiveActivity salary incoming
             (headless []) boot in
  result r = Ok {| TransactionActivity.id := "n-1";
                   TransactionActivity.type :=
                     TransactionActivity.notification |}
  /\ native_called (events r) = false.
Proof. vm_compute. split; reflexivity. Qed.

(** A user who grants the camera and declines the notifications is
    asked for both, and the answer is false. *)
Example camera_alone_is_not_enough :
  let r := Permissions.requestAllPermissions android camera_only in
  Permissions.value r = Ok false
  /\ Permissions.requested r
     = [Permissions.ANDROID_CAMERA; Permissions.ANDROID_POST_NOTIFICATIONS]
  /\ Permissions.errors r = [].
Proof. vm_compute. repeat split. Qed.
